(** * SendGrid MCP server: request translation and response normalisation

    A shallow embedding of the SendGrid client ([client.ts]: the HTTP
    request helper and the operations built on it), of the error envelope
    of [utils/formatters.ts] and of the bulk-delete handlers of the contact
    and suppression tools, followed by the properties the specification
    states about them.

    JavaScript values are modelled dynamically, as the program manipulates
    them: one type [JsVal] of values, property access that raises a
    [TypeError] on [undefined] and [null], truthiness, [||], [?.].
    Asynchronous code is modelled in a small monad [Async] that records the
    HTTP requests handed to [fetch] and carries JavaScript exceptions. *)

From Stdlib Require Import ZArith List String Ascii Bool Lia.
Import ListNotations.

Local Open Scope string_scope.
Local Open Scope Z_scope.

Set Warnings "-register-all".

(* ================================================================== *)
(** * JavaScript values *)
(* ================================================================== *)

(** Numbers are the integers: the program computes only with array
    lengths, HTTP statuses, limits and the constants 0, 1 and 60.  A
    [JNum n] stands for the JavaScript number [n] when [n] is below [2^53]
    in magnitude, where every integer is a number of its own and
    [String] writes its decimal numeral.  Strings
    are byte strings (UTF-8).  Objects are association lists in insertion
    order, with distinct keys. *)
Inductive JsVal : Type :=
| JUndefined
| JNull
| JBool (b : bool)
| JNum (n : Z)
| JStr (s : string)
| JArr (items : list JsVal)
| JObj (fields : list (string * JsVal)).

(** The result of [parseInt]: a number that is an integer, [NaN], or one
    of the two infinities (the sign of zero is not kept). *)
Inductive ParsedInt : Type :=
| IntValue (n : Z)
| NaN
| Infinity (negative : bool).

(** Modelled from the spec: the error classes of [utils/errors.ts], which
    the client imports but which is not among the sources; the
    specification's Classified Error is one of AuthenticationError,
    RateLimitError (with its retry-after seconds) and the generic API error
    (with its HTTP status).  The fields are the arguments that the client
    passes to the constructors. *)
Inductive ClassifiedError : Type :=
| AuthenticationError (message : string)
| RateLimitError (message : string) (retryAfter : ParsedInt)
| SendGridApiError (message : JsVal) (statusCode : Z).

(** The JavaScript exceptions that the modelled code can raise: the
    classified errors, the [TypeError] of a property access on [undefined]
    or [null], the [SyntaxError] of [JSON.parse], and a rejected [fetch]. *)
Inductive Exn : Type :=
| Classified (e : ClassifiedError)
| TypeError
| SyntaxError
| FetchFailure.

Inductive Outcome (A : Type) : Type :=
| Return (a : A)
| Throw (x : Exn).
Arguments Return {A} a.
Arguments Throw {A} x.

Definition obind {A B} (o : Outcome A) (k : A -> Outcome B) : Outcome B :=
  match o with
  | Return a => k a
  | Throw x => Throw x
  end.

(** ** Truthiness, [||], property access *)

Definition truthy (v : JsVal) : bool :=
  match v with
  | JUndefined | JNull => false
  | JBool b => b
  | JNum n => negb (n =? 0)
  | JStr s => negb (String.eqb s "")
  | JArr _ | JObj _ => true
  end.

(** [a || b] *)
Definition js_or (a b : JsVal) : JsVal := if truthy a then a else b.

(** [!!a] *)
Definition js_bool (a : JsVal) : JsVal := JBool (truthy a).

Fixpoint assoc (k : string) (l : list (string * JsVal)) : option JsVal :=
  match l with
  | [] => None
  | (k', v) :: r => if String.eqb k k' then Some v else assoc k r
  end.

Definition Zlength_of {A} (l : list A) : Z := Z.of_nat (List.length l).

(** The value of [v.k] when [v] is neither [undefined] nor [null]. *)
Definition prop (v : JsVal) (k : string) : JsVal :=
  match v with
  | JObj fs => match assoc k fs with Some x => x | None => JUndefined end
  | JArr l => if String.eqb k "length" then JNum (Zlength_of l) else JUndefined
  | JStr s => if String.eqb k "length"
              then JNum (Z.of_nat (String.length s)) else JUndefined
  | _ => JUndefined
  end.

Definition nullish (v : JsVal) : bool :=
  match v with
  | JUndefined | JNull => true
  | _ => false
  end.

(** [v.k]: a [TypeError] on [undefined] and [null]. *)
Definition js_get (v : JsVal) (k : string) : Outcome JsVal :=
  if nullish v then Throw TypeError else Return (prop v k).

(** [v?.k] *)
Definition js_get_opt (v : JsVal) (k : string) : JsVal :=
  if nullish v then JUndefined else prop v k.

(** [v[0]] *)
Definition js_first (v : JsVal) : Outcome JsVal :=
  if nullish v then Throw TypeError
  else Return match v with
              | JArr (x :: _) => x
              | JObj fs => match assoc "0" fs with Some x => x | None => JUndefined end
              | JStr (String c _) => JStr (String c EmptyString)
              | _ => JUndefined
              end.

(** [v?.[0]] *)
Definition js_first_opt (v : JsVal) : JsVal :=
  match js_first v with
  | Return x => x
  | Throw _ => JUndefined
  end.

Definition isArray (v : JsVal) : bool :=
  match v with
  | JArr _ => true
  | _ => false
  end.

(** [a === n] for a number [n]. *)
Definition strict_eq_num (a : JsVal) (n : Z) : bool :=
  match a with
  | JNum m => m =? n
  | _ => false
  end.

(** ** Decimal numerals: [String(n)] and [parseInt(s, 10)] *)

Definition digit_char (d : Z) : ascii := ascii_of_nat (48 + Z.to_nat d).

Fixpoint digits_fuel (fuel : nat) (n : Z) (acc : string) : string :=
  match fuel with
  | O => acc
  | S f =>
      let acc' := String (digit_char (n mod 10)) acc in
      if n / 10 =? 0 then acc' else digits_fuel f (n / 10) acc'
  end.

Definition string_of_nonneg (n : Z) : string :=
  digits_fuel (S (Z.to_nat (Z.log2 n))) n "".

(** [String(n)] for an integer [n]. *)
Definition string_of_Z (n : Z) : string :=
  if n <? 0 then String "-" (string_of_nonneg (- n)) else string_of_nonneg n.

Definition digit_value (c : ascii) : option Z :=
  let n := nat_of_ascii c in
  if ((48 <=? n)%nat && (n <=? 57)%nat)%bool
  then Some (Z.of_nat (n - 48)) else None.

(** The value of the longest prefix of decimal digits, after [acc]. *)
Fixpoint parse_digits (s : string) (acc : Z) : Z :=
  match s with
  | EmptyString => acc
  | String c r =>
      match digit_value c with
      | Some d => parse_digits r (10 * acc + d)
      | None => acc
      end
  end.

Definition is_whitespace (c : ascii) : bool :=
  let n := nat_of_ascii c in
  ((n =? 32) || (n =? 9) || (n =? 10) || (n =? 11) || (n =? 12) || (n =? 13))%nat.

(** The white space characters of more than one byte, in UTF-8:
    U+00A0; U+1680, U+2000 to U+200A, U+2028, U+2029, U+202F, U+205F,
    U+3000 and U+FEFF. *)
Definition two_byte_space (c1 c2 : ascii) : bool :=
  ((nat_of_ascii c1 =? 194) && (nat_of_ascii c2 =? 160))%nat.

Definition three_byte_space (c1 c2 c3 : ascii) : bool :=
  let n2 := nat_of_ascii c2 in
  let n3 := nat_of_ascii c3 in
  (((nat_of_ascii c1 =? 225) && ((n2 =? 154) && (n3 =? 128)))
   || ((nat_of_ascii c1 =? 226)
       && (((n2 =? 128)
            && (((128 <=? n3) && (n3 <=? 138)) || (n3 =? 168) || (n3 =? 169)
                || (n3 =? 175)))
           || ((n2 =? 129) && (n3 =? 159))))
   || ((nat_of_ascii c1 =? 227) && ((n2 =? 128) && (n3 =? 128)))
   || ((nat_of_ascii c1 =? 239) && ((n2 =? 187) && (n3 =? 191))))%nat.

Fixpoint skip_whitespace (s : string) : string :=
  match s with
  | String c r =>
      if is_whitespace c then skip_whitespace r
      else
        match r with
        | String c2 r2 =>
            if two_byte_space c c2 then skip_whitespace r2
            else
              match r2 with
              | String c3 r3 =>
                  if three_byte_space c c2 c3 then skip_whitespace r3 else s
              | EmptyString => s
              end
        | EmptyString => s
        end
  | EmptyString => s
  end.

Definition starts_with_digit (s : string) : bool :=
  match s with
  | String c _ => match digit_value c with Some _ => true | None => false end
  | EmptyString => false
  end.

(** The double nearest to a natural number [m], as an integer: [m]
    itself below [2^53]; from there on the 53 leading bits, rounded to
    nearest with ties to even. *)
Definition nearest_double (m : Z) : Z :=
  if m <? 9007199254740992 then m
  else
    let e := Z.log2 m - 52 in
    let q := Z.shiftr m e in
    let r := Z.land m (Z.ones e) in
    let half := Z.shiftl 1 (e - 1) in
    let q' :=
      if r <? half then q
      else if half <? r then q + 1
      else if Z.even q then q else q + 1 in
    Z.shiftl q' e.

(** The Number value of an integer given by its sign and magnitude:
    the nearest double, an infinity from [2^1024] on. *)
Definition number_of_integer (negative : bool) (magnitude : Z) : ParsedInt :=
  let rounded := nearest_double magnitude in
  if Z.shiftl 1 1024 <=? rounded then Infinity negative
  else IntValue (if negative then - rounded else rounded).

(** [parseInt(s, 10)]: leading white space and line terminators, an
    optional sign, then the longest run of decimal digits, whose value is
    rounded to the nearest double (as V8 computes it); [NaN] when there
    is no digit. *)
Definition parseInt (s : string) : ParsedInt :=
  let s1 := skip_whitespace s in
  let '(neg, s2) :=
    match s1 with
    | String "-"%char r => (true, r)
    | String "+"%char r => (false, r)
    | _ => (false, s1)
    end in
  if starts_with_digit s2
  then number_of_integer neg (parse_digits s2 0)
  else NaN.

(** ** [String(v)] and [Array.prototype.join] *)

(** [String(v)], the conversion that template literals and [join] apply
    as well.  An array is the join of its elements with a comma.  An
    object without an own [toString] property inherits the one that
    answers [[object Object]]; an own [toString] of a parsed or literal
    object is not callable, and then the conversion raises a
    [TypeError]. *)
Fixpoint js_to_string (v : JsVal) : Outcome string :=
  match v with
  | JUndefined => Return "undefined"
  | JNull => Return "null"
  | JBool true => Return "true"
  | JBool false => Return "false"
  | JNum n => Return (string_of_Z n)
  | JStr s => Return s
  | JArr l =>
      obind
        ((fix elems (l : list JsVal) : Outcome (list string) :=
            match l with
            | [] => Return []
            | x :: r =>
                obind (match x with
                       | JUndefined | JNull => Return ""
                       | _ => js_to_string x
                       end) (fun s =>
                obind (elems r) (fun ss => Return (s :: ss)))
            end) l)
        (fun ss => Return (String.concat "," ss))
  | JObj fs =>
      match assoc "toString" fs with
      | Some _ => Throw TypeError
      | None => Return "[object Object]"
      end
  end.

(** An element of [join]: [undefined] and [null] give the empty string. *)
Definition join_elem (v : JsVal) : Outcome string :=
  match v with
  | JUndefined | JNull => Return ""
  | _ => js_to_string v
  end.

Fixpoint join_elems (l : list JsVal) : Outcome (list string) :=
  match l with
  | [] => Return []
  | x :: r =>
      obind (join_elem x) (fun s =>
      obind (join_elems r) (fun ss => Return (s :: ss)))
  end.

(** [l.join(sep)] *)
Definition js_join (sep : string) (l : list JsVal) : Outcome string :=
  obind (join_elems l) (fun ss => Return (String.concat sep ss)).

(** [String(v)] for an argument that the TypeScript types make a
    string. *)
Definition text_of (v : JsVal) : string :=
  match js_to_string v with
  | Return s => s
  | Throw _ => ""
  end.

(** ** Object construction and spread *)

(** [o[k] = v]: replaces the value in place, or appends the key. *)
Fixpoint assoc_set (k : string) (v : JsVal) (l : list (string * JsVal))
  : list (string * JsVal) :=
  match l with
  | [] => [(k, v)]
  | (k', v') :: r =>
      if String.eqb k k' then (k, v) :: r else (k', v') :: assoc_set k v r
  end.

(** The own enumerable properties that [{...v}] copies. *)
Definition own_fields (v : JsVal) : list (string * JsVal) :=
  match v with
  | JObj fs => fs
  | _ => []
  end.

(** [{...a, ...b}] on field lists. *)
Definition spread (a b : list (string * JsVal)) : list (string * JsVal) :=
  fold_left (fun acc kv => assoc_set (fst kv) (snd kv) acc) b a.

(** ** [JSON.stringify]

    The serialised text is represented by the JSON value it denotes:
    properties whose value is [undefined] are left out, [undefined] inside
    an array is written [null], and [JSON.stringify(undefined)] is
    [undefined] (no text at all). *)
Fixpoint json_value (v : JsVal) : JsVal :=
  match v with
  | JArr l =>
      JArr ((fix elems (l : list JsVal) : list JsVal :=
               match l with
               | [] => []
               | x :: r =>
                   (match x with
                    | JUndefined => JNull
                    | _ => json_value x
                    end) :: elems r
               end) l)
  | JObj fs =>
      JObj ((fix props (fs : list (string * JsVal)) : list (string * JsVal) :=
               match fs with
               | [] => []
               | (k, x) :: r =>
                   match x with
                   | JUndefined => props r
                   | _ => (k, json_value x) :: props r
                   end
               end) fs)
  | _ => v
  end.

Definition JSON_stringify (v : JsVal) : option JsVal :=
  match v with
  | JUndefined => None
  | _ => Some (json_value v)
  end.

(** The keys written by [JSON.stringify] for an object. *)
Definition json_keys (v : JsVal) : list string :=
  match json_value v with
  | JObj fs => map fst fs
  | _ => []
  end.

(* ================================================================== *)
(** * HTTP and the [Async] monad *)
(* ================================================================== *)

(** [URLSearchParams]: an ordered list of pairs. *)
Definition URLSearchParams : Type := list (string * string).

(** [params.set(k, v)] *)
Fixpoint params_set (k v : string) (ps : URLSearchParams) : URLSearchParams :=
  match ps with
  | [] => [(k, v)]
  | (k', v') :: r =>
      if String.eqb k k'
      then (k, v) :: filter (fun kv => negb (String.eqb k (fst kv))) r
      else (k', v') :: params_set k v r
  end.

Definition hex_digit (n : nat) : ascii :=
  if (n <? 10)%nat then ascii_of_nat (48 + n) else ascii_of_nat (55 + n).

(** The [application/x-www-form-urlencoded] byte serialiser: letters,
    digits and [*-._] are kept, a space becomes [+], any other byte is
    percent-encoded.  Strings are sequences of UTF-8 bytes. *)
Definition urlencode_byte (c : ascii) : string :=
  let n := nat_of_ascii c in
  if (((48 <=? n) && (n <=? 57)) || ((65 <=? n) && (n <=? 90))
      || ((97 <=? n) && (n <=? 122))
      || (n =? 42) || (n =? 45) || (n =? 46) || (n =? 95))%nat%bool
  then String c EmptyString
  else if (n =? 32)%nat then "+"
  else String "%"%char
         (String (hex_digit (n / 16)) (String (hex_digit (n mod 16)) EmptyString)).

Fixpoint urlencode (s : string) : string :=
  match s with
  | EmptyString => EmptyString
  | String c r => urlencode_byte c ++ urlencode r
  end.

(** [params.toString()], also the value of [`${params}`]. *)
Definition params_toString (ps : URLSearchParams) : string :=
  String.concat "&" (map (fun kv => urlencode (fst kv) ++ "=" ++ urlencode (snd kv)) ps).

(** [`${qp.toString() ? `?${qp}` : ''}`] *)
Definition query_suffix (ps : URLSearchParams) : string :=
  if String.eqb (params_toString ps) "" then "" else "?" ++ params_toString ps.

(** The [RequestInit] the operations pass to [request]: [method] and
    [body] (the text of [JSON.stringify], see [JSON_stringify]); no
    operation passes [headers]. *)
Record RequestInit : Type := {
  init_method : option string;
  init_body : option JsVal;
  init_headers : list (string * string)
}.

Definition no_options : RequestInit :=
  {| init_method := None; init_body := None; init_headers := [] |}.

Definition with_method (m : string) : RequestInit :=
  {| init_method := Some m; init_body := None; init_headers := [] |}.

Definition with_body (m : string) (b : option JsVal) : RequestInit :=
  {| init_method := Some m; init_body := b; init_headers := [] |}.

(** What [fetch] is called with.  [req_method = None] leaves the method to
    [fetch], which then issues a GET. *)
Record HttpRequest : Type := {
  req_url : string;
  req_method : option string;
  req_headers : list (string * string);
  req_body : option JsVal
}.

(** The body of a response, by what [response.text()] and [JSON.parse]
    make of it: the empty text, a text that [JSON.parse] rejects, or a
    text that parses to a value. *)
Inductive ResponseBody : Type :=
| EmptyText
| Unparsable
| Parsed (v : JsVal).

Record HttpResponse : Type := {
  status : Z;
  retry_after : option string;   (* [response.headers.get('Retry-After')] *)
  body : ResponseBody
}.

Inductive FetchResult : Type :=
| Responded (r : HttpResponse)
| Rejected.

(** The upstream service, as [fetch] sees it. *)
Definition Upstream : Type := HttpRequest -> FetchResult.

(** An asynchronous computation: given the upstream, the requests it
    issued, in order, and its outcome. *)
Definition Async (A : Type) : Type := Upstream -> list HttpRequest * Outcome A.

Definition ret {A} (a : A) : Async A := fun _ => ([], Return a).

Definition throw {A} (x : Exn) : Async A := fun _ => ([], Throw x).

Definition lift {A} (o : Outcome A) : Async A := fun _ => ([], o).

Definition bind {A B} (m : Async A) (k : A -> Async B) : Async B :=
  fun up =>
    let '(t1, o) := m up in
    match o with
    | Return a => let '(t2, o2) := k a up in ((t1 ++ t2)%list, o2)
    | Throw x => (t1, Throw x)
    end.

(** [try { m } catch (x) { h x }] *)
Definition try_catch {A} (m : Async A) (h : Exn -> Async A) : Async A :=
  fun up =>
    let '(t1, o) := m up in
    match o with
    | Return a => (t1, Return a)
    | Throw x => let '(t2, o2) := h x up in ((t1 ++ t2)%list, o2)
    end.

Declare Scope async_scope.
Delimit Scope async_scope with async.
Notation "x <- m ;; k" := (bind m (fun x => k))
  (at level 61, m at next level, right associativity) : async_scope.
Notation "m ;;; k" := (bind m (fun _ => k))
  (at level 61, right associativity) : async_scope.
Local Open Scope async_scope.

Definition requests_of {A} (r : list HttpRequest * Outcome A) : list HttpRequest := fst r.
Definition outcome_of {A} (r : list HttpRequest * Outcome A) : Outcome A := snd r.

(** [TenantCredentials] of the environment bindings: an optional API
    key. *)
Record TenantCredentials : Type := { apiKey : option string }.

Definition API_BASE_URL : string := "https://api.sendgrid.com/v3".

(** [response.ok] *)
Definition response_ok (r : HttpResponse) : bool :=
  (200 <=? status r) && (status r <=? 299).

Definition elements (v : JsVal) : list JsVal :=
  match v with
  | JArr l => l
  | _ => []
  end.

(** [es.map((e) => e[k])] *)
Fixpoint map_get (k : string) (es : list JsVal) : Outcome (list JsVal) :=
  match es with
  | [] => Return []
  | e :: r =>
      obind (js_get e k) (fun m =>
      obind (map_get k r) (fun ms => Return (m :: ms)))
  end.

(** The body of the [try] block of [request] (lines 394-399), given the
    parsed [errorJson] and the message set so far. *)
Definition extract_message (errorJson message : JsVal) : Outcome JsVal :=
  obind (js_get errorJson "errors") (fun errors =>
  if truthy errors && isArray errors then
    obind (map_get "message" (elements errors)) (fun ms =>
    obind (js_join ", " ms) (fun joined =>
    Return (JStr joined)))
  else
    obind (js_get errorJson "message") (fun m =>
    if truthy m then Return m else Return message)).

(** The message of the generic API error (lines 391-402 of [request]):
    any exception inside the [try] leaves the default message. *)
Definition error_message (r : HttpResponse) : JsVal :=
  let message := JStr ("API error: " ++ string_of_Z (status r)) in
  match body r with
  | EmptyText | Unparsable => message
  | Parsed errorJson =>
      match extract_message errorJson message with
      | Return m => m
      | Throw _ => message
      end
  end.

(** What [request] does with the response of [fetch]. *)
Definition handle_response (response : HttpResponse) : Outcome JsVal :=
  if status response =? 429 then
    let retryAfter := retry_after response in
    Throw (Classified
      (RateLimitError "Rate limit exceeded"
         match retryAfter with
         | Some s => if negb (String.eqb s "") then parseInt s else IntValue 60
         | None => IntValue 60
         end))
  else if (status response =? 401) || (status response =? 403) then
    Throw (Classified (AuthenticationError "Authentication failed. Check your API key."))
  else if negb (response_ok response) then
    Throw (Classified (SendGridApiError (error_message response) (status response)))
  else if (status response =? 204) || (status response =? 202) then
    Return JUndefined
  else
    match body response with
    | EmptyText => Return JUndefined
    | Unparsable => Throw SyntaxError
    | Parsed v => Return v
    end.

Section Client.

(** [this.credentials] *)
Variable credentials : TenantCredentials.

Definition getAuthHeaders : Outcome (list (string * string)) :=
  match apiKey credentials with
  | Some key =>
      if String.eqb key "" then
        Throw (Classified (AuthenticationError
                 "No API key provided. Include X-SendGrid-API-Key header."))
      else Return [("Authorization", "Bearer " ++ key);
                   ("Content-Type", "application/json")]
  | None =>
      Throw (Classified (AuthenticationError
               "No API key provided. Include X-SendGrid-API-Key header."))
  end.

Definition request (endpoint : string) (options : RequestInit) : Async JsVal :=
  fun upstream =>
    let url := API_BASE_URL ++ endpoint in
    match getAuthHeaders with
    | Throw x => ([], Throw x)
    | Return auth =>
        let req := {| req_url := url;
                      req_method := init_method options;
                      req_headers := (auth ++ init_headers options)%list;
                      req_body := init_body options |} in
        match upstream req with
        | Rejected => ([req], Throw FetchFailure)
        | Responded response => ([req], handle_response response)
        end
    end.

(** ** Helpers for the operations *)

(** [await this.request(...)] as the last statement of an operation of
    type [Promise<void>]. *)
Definition void (m : Async JsVal) : Async JsVal := m ;;; ret JUndefined.

(** A [string[]] argument as a value. *)
Definition str_array (l : list string) : JsVal := JArr (map JStr l).

(** [l.join(',')] for a [string[]]. *)
Definition join_comma (l : list string) : string := String.concat "," l.

(** [if (s)] for an optional string argument. *)
Definition given_str (o : option string) : bool :=
  match o with
  | Some s => negb (String.eqb s "")
  | None => false
  end.

(** [if (n)] for an optional number argument. *)
Definition given_num (o : option Z) : bool :=
  match o with
  | Some n => negb (n =? 0)
  | None => false
  end.

(** The value of an optional argument inside a branch that tested it. *)
Definition the_str (o : option string) : string :=
  match o with Some s => s | None => "undefined" end.

Definition the_num (o : option Z) : Z :=
  match o with Some n => n | None => 0 end.

(** A parameter with a default value, [x = d]. *)
Definition default {A} (d : A) (o : option A) : A :=
  match o with Some a => a | None => d end.

(** An optional argument as a value. *)
Definition opt_str (o : option string) : JsVal :=
  match o with Some s => JStr s | None => JUndefined end.

Definition opt_bool (o : option bool) : JsVal :=
  match o with Some b => JBool b | None => JUndefined end.

Definition opt_str_array (o : option (list string)) : JsVal :=
  match o with Some l => str_array l | None => JUndefined end.

(** [if (c) ps.set(k, v)] *)
Definition set_if (c : bool) (k v : string) (ps : URLSearchParams) : URLSearchParams :=
  if c then params_set k v ps else ps.

(** [if (c) body.k = v] *)
Definition assign_if (c : bool) (k : string) (v : JsVal)
           (fs : list (string * JsVal)) : list (string * JsVal) :=
  if c then assoc_set k v fs else fs.

(** [{ items: r || [], count: r?.length || 0, hasMore: more }] *)
Definition page_of (r : JsVal) (more : JsVal) : JsVal :=
  JObj [("items", js_or r (JArr []));
        ("count", js_or (js_get_opt r "length") (JNum 0));
        ("hasMore", more)].

(* ---------------------------------------------------------------- *)
(** ** Connection *)

(** The message text of an exception, [error.message]: for a classified
    error the message it was constructed with, as text; the texts of the
    engine's own errors, and of a message that has no text, are left to
    the engine. *)
Variable engine_message : Exn -> string.

Definition exn_message (x : Exn) : string :=
  match x with
  | Classified (AuthenticationError m) => m
  | Classified (RateLimitError m _) => m
  | Classified (SendGridApiError m _) =>
      match js_to_string m with
      | Return text => text
      | Throw _ => engine_message x
      end
  | _ => engine_message x
  end.

Definition testConnection : Async JsVal :=
  try_catch
    (request "/user/profile" no_options ;;;
     ret (JObj [("connected", JBool true);
                ("message", JStr "Successfully connected to SendGrid API")]))
    (fun error =>
       ret (JObj [("connected", JBool false);
                  ("message", JStr (exn_message error))])).

(* ---------------------------------------------------------------- *)
(** ** Mail send *)

Definition sendEmail (input : JsVal) : Async JsVal :=
  request "/mail/send" (with_body "POST" (JSON_stringify input)) ;;;
  ret (JObj [("messageId", JUndefined)]).

(* ---------------------------------------------------------------- *)
(** ** Contacts *)

Definition listContacts (params : JsVal) : Async JsVal :=
  let queryParams : URLSearchParams := [] in
  let queryParams :=
    set_if (truthy (js_get_opt params "pageToken"))
           "page_token" (text_of (prop params "pageToken")) queryParams in
  result <- request ("/marketing/contacts" ++ query_suffix queryParams) no_options ;;
  items <- lift (js_get result "result") ;;
  total <- lift (js_get result "contact_count") ;;
  metadata <- lift (js_get result "_metadata") ;;
  ret (JObj [("items", js_or items (JArr []));
             ("count", js_or (js_get_opt items "length") (JNum 0));
             ("total", total);
             ("hasMore", js_bool (js_get_opt metadata "next"));
             ("nextPageToken", js_get_opt metadata "next")]).

Definition getContact (id : string) : Async JsVal :=
  request ("/marketing/contacts/" ++ id) no_options.

Definition addOrUpdateContacts (contacts : JsVal) (listIds : option (list string))
  : Async JsVal :=
  let body := [("contacts", contacts)] in
  let body :=
    match listIds with
    | Some l => assoc_set "list_ids" (str_array l) body
    | None => body
    end in
  result <- request "/marketing/contacts"
                    (with_body "PUT" (JSON_stringify (JObj body))) ;;
  job_id <- lift (js_get result "job_id") ;;
  ret (JObj [("jobId", job_id)]).

Definition deleteContacts (ids : list string) (deleteAllContacts : option bool)
  : Async JsVal :=
  let deleteAllContacts := default false deleteAllContacts in
  let queryParams : URLSearchParams := [] in
  let queryParams :=
    if deleteAllContacts
    then params_set "delete_all_contacts" "true" queryParams
    else params_set "ids" (join_comma ids) queryParams in
  result <- request ("/marketing/contacts?" ++ params_toString queryParams)
                    (with_method "DELETE") ;;
  job_id <- lift (js_get result "job_id") ;;
  ret (JObj [("jobId", job_id)]).

Definition searchContacts (query : string) : Async JsVal :=
  result <- request "/marketing/contacts/search"
                    (with_body "POST" (JSON_stringify (JObj [("query", JStr query)]))) ;;
  items <- lift (js_get result "result") ;;
  total <- lift (js_get result "contact_count") ;;
  ret (JObj [("items", js_or items (JArr []));
             ("count", js_or (js_get_opt items "length") (JNum 0));
             ("total", total);
             ("hasMore", JBool false)]).

Definition getContactCount : Async JsVal :=
  result <- request "/marketing/contacts/count" no_options ;;
  contact_count <- lift (js_get result "contact_count") ;;
  billable_count <- lift (js_get result "billable_count") ;;
  ret (JObj [("contactCount", contact_count); ("billableCount", billable_count)]).

(** [result.result?.[email]] is read among the own properties of the
    result: an email address is not the name of an inherited one. *)
Definition getContactByEmail (email : string) : Async JsVal :=
  try_catch
    (result <- request "/marketing/contacts/search/emails"
                 (with_body "POST"
                    (JSON_stringify (JObj [("emails", JArr [JStr email])]))) ;;
     found <- lift (js_get result "result") ;;
     ret (js_or (js_get_opt found email) JNull))
    (fun _ => ret JNull).

(* ---------------------------------------------------------------- *)
(** ** Contact lists *)

Definition listContactLists : Async JsVal :=
  result <- request "/marketing/lists" no_options ;;
  items <- lift (js_get result "result") ;;
  ret (page_of items (JBool false)).

Definition getContactList (id : string) : Async JsVal :=
  request ("/marketing/lists/" ++ id) no_options.

Definition createContactList (input : JsVal) : Async JsVal :=
  request "/marketing/lists" (with_body "POST" (JSON_stringify input)).

Definition updateContactList (id : string) (input : JsVal) : Async JsVal :=
  request ("/marketing/lists/" ++ id) (with_body "PATCH" (JSON_stringify input)).

Definition deleteContactList (id : string) (deleteContacts : option bool) : Async JsVal :=
  let deleteContacts := default false deleteContacts in
  let queryParams : URLSearchParams := [] in
  let queryParams := set_if deleteContacts "delete_contacts" "true" queryParams in
  void (request ("/marketing/lists/" ++ id ++ query_suffix queryParams)
                (with_method "DELETE")).

Definition getContactListCount (id : string) : Async JsVal :=
  result <- request ("/marketing/lists/" ++ id ++ "/contacts/count") no_options ;;
  contact_count <- lift (js_get result "contact_count") ;;
  billable_count <- lift (js_get result "billable_count") ;;
  ret (JObj [("contactCount", contact_count); ("billableCount", billable_count)]).

Definition addContactsToList (listId : string) (contactIds : list string) : Async JsVal :=
  result <- request ("/marketing/lists/" ++ listId ++ "/contacts")
              (with_body "POST"
                 (JSON_stringify (JObj [("contact_ids", str_array contactIds)]))) ;;
  job_id <- lift (js_get result "job_id") ;;
  ret (JObj [("jobId", job_id)]).

Definition removeContactsFromList (listId : string) (contactIds : list string)
  : Async JsVal :=
  let queryParams : URLSearchParams := [] in
  let queryParams := params_set "contact_ids" (join_comma contactIds) queryParams in
  result <- request ("/marketing/lists/" ++ listId ++ "/contacts?"
                       ++ params_toString queryParams)
              (with_method "DELETE") ;;
  job_id <- lift (js_get result "job_id") ;;
  ret (JObj [("jobId", job_id)]).

(* ---------------------------------------------------------------- *)
(** ** Segments *)

Definition listSegments (parentListIds : option (list string)) : Async JsVal :=
  let queryParams : URLSearchParams := [] in
  let queryParams :=
    match parentListIds with
    | Some l => params_set "parent_list_ids" (join_comma l) queryParams
    | None => queryParams
    end in
  result <- request ("/marketing/segments/2.0" ++ query_suffix queryParams) no_options ;;
  items <- lift (js_get result "results") ;;
  ret (page_of items (JBool false)).

Definition getSegment (id : string) : Async JsVal :=
  request ("/marketing/segments/2.0/" ++ id) no_options.

(** The payload of [createSegment]. *)
Definition createSegment_body (input : JsVal) : JsVal :=
  JObj [("name", prop input "name");
        ("query_dsl", prop input "queryDsl");
        ("parent_list_ids", prop input "parentListIds")].

Definition createSegment (input : JsVal) : Async JsVal :=
  request "/marketing/segments/2.0"
          (with_body "POST" (JSON_stringify (createSegment_body input))).

Definition updateSegment (id : string) (input : JsVal) : Async JsVal :=
  let body : list (string * JsVal) := [] in
  let body := assign_if (truthy (prop input "name")) "name" (prop input "name") body in
  let body := assign_if (truthy (prop input "queryDsl"))
                        "query_dsl" (prop input "queryDsl") body in
  request ("/marketing/segments/2.0/" ++ id)
          (with_body "PATCH" (JSON_stringify (JObj body))).

Definition deleteSegment (id : string) : Async JsVal :=
  void (request ("/marketing/segments/2.0/" ++ id) (with_method "DELETE")).

(* ---------------------------------------------------------------- *)
(** ** Custom fields *)

Definition listCustomFields : Async JsVal :=
  result <- request "/marketing/field_definitions" no_options ;;
  custom_fields <- lift (js_get result "custom_fields") ;;
  ret (js_or custom_fields (JArr [])).

Definition createCustomField (input : JsVal) : Async JsVal :=
  request "/marketing/field_definitions"
          (with_body "POST"
             (JSON_stringify (JObj [("name", prop input "name");
                                    ("field_type", prop input "fieldType")]))).

Definition updateCustomField (id name : string) : Async JsVal :=
  request ("/marketing/field_definitions/" ++ id)
          (with_body "PATCH" (JSON_stringify (JObj [("name", JStr name)]))).

Definition deleteCustomField (id : string) : Async JsVal :=
  void (request ("/marketing/field_definitions/" ++ id) (with_method "DELETE")).

(* ---------------------------------------------------------------- *)
(** ** Templates *)

Definition listTemplates (generations : option string) (pageSize : option Z)
           (pageToken : option string) : Async JsVal :=
  let pageSize := default 50 pageSize in
  let queryParams : URLSearchParams := [] in
  let queryParams :=
    set_if (given_str generations) "generations" (the_str generations) queryParams in
  let queryParams := params_set "page_size" (string_of_Z pageSize) queryParams in
  let queryParams :=
    set_if (given_str pageToken) "page_token" (the_str pageToken) queryParams in
  result <- request ("/templates?" ++ params_toString queryParams) no_options ;;
  items <- lift (js_get result "result") ;;
  metadata <- lift (js_get result "_metadata") ;;
  ret (JObj [("items", js_or items (JArr []));
             ("count", js_or (js_get_opt items "length") (JNum 0));
             ("hasMore", js_bool (js_get_opt metadata "next"));
             ("nextPageToken", js_get_opt metadata "next")]).

Definition getTemplate (id : string) : Async JsVal :=
  request ("/templates/" ++ id) no_options.

Definition createTemplate (input : JsVal) : Async JsVal :=
  request "/templates" (with_body "POST" (JSON_stringify input)).

Definition updateTemplate (id name : string) : Async JsVal :=
  request ("/templates/" ++ id)
          (with_body "PATCH" (JSON_stringify (JObj [("name", JStr name)]))).

Definition deleteTemplate (id : string) : Async JsVal :=
  void (request ("/templates/" ++ id) (with_method "DELETE")).

Definition duplicateTemplate (id : string) (name : option string) : Async JsVal :=
  request ("/templates/" ++ id)
          (with_body "POST"
             (if given_str name
              then JSON_stringify (JObj [("name", JStr (the_str name))])
              else None)).

(* ---------------------------------------------------------------- *)
(** ** Template versions *)

(** [b ? 1 : 0] *)
Definition one_or_zero (b : JsVal) : JsVal := if truthy b then JNum 1 else JNum 0.

Definition createTemplateVersion (templateId : string) (input : JsVal) : Async JsVal :=
  request ("/templates/" ++ templateId ++ "/versions")
          (with_body "POST"
             (JSON_stringify
                (JObj [("name", prop input "name");
                       ("subject", prop input "subject");
                       ("html_content", prop input "htmlContent");
                       ("plain_content", prop input "plainContent");
                       ("active", one_or_zero (prop input "active"));
                       ("editor", prop input "editor");
                       ("generate_plain_content", prop input "generatePlainContent");
                       ("test_data", prop input "testData")]))).

Definition getTemplateVersion (templateId versionId : string) : Async JsVal :=
  request ("/templates/" ++ templateId ++ "/versions/" ++ versionId) no_options.

(** [v !== undefined] *)
Definition defined (v : JsVal) : bool :=
  match v with JUndefined => false | _ => true end.

Definition updateTemplateVersion (templateId versionId : string) (input : JsVal)
  : Async JsVal :=
  let body : list (string * JsVal) := [] in
  let body := assign_if (truthy (prop input "name")) "name" (prop input "name") body in
  let body := assign_if (truthy (prop input "subject"))
                        "subject" (prop input "subject") body in
  let body := assign_if (truthy (prop input "htmlContent"))
                        "html_content" (prop input "htmlContent") body in
  let body := assign_if (truthy (prop input "plainContent"))
                        "plain_content" (prop input "plainContent") body in
  let body := assign_if (defined (prop input "active"))
                        "active" (one_or_zero (prop input "active")) body in
  let body := assign_if (truthy (prop input "editor"))
                        "editor" (prop input "editor") body in
  let body := assign_if (defined (prop input "generatePlainContent"))
                        "generate_plain_content"
                        (prop input "generatePlainContent") body in
  request ("/templates/" ++ templateId ++ "/versions/" ++ versionId)
          (with_body "PATCH" (JSON_stringify (JObj body))).

Definition deleteTemplateVersion (templateId versionId : string) : Async JsVal :=
  void (request ("/templates/" ++ templateId ++ "/versions/" ++ versionId)
                (with_method "DELETE")).

Definition activateTemplateVersion (templateId versionId : string) : Async JsVal :=
  request ("/templates/" ++ templateId ++ "/versions/" ++ versionId ++ "/activate")
          (with_method "POST").

(* ---------------------------------------------------------------- *)
(** ** Single sends (marketing campaigns) *)

Definition listSingleSends (status : option string) : Async JsVal :=
  let queryParams : URLSearchParams := [] in
  let queryParams := set_if (given_str status) "status" (the_str status) queryParams in
  result <- request ("/marketing/singlesends" ++ query_suffix queryParams) no_options ;;
  items <- lift (js_get result "result") ;;
  ret (page_of items (JBool false)).

Definition getSingleSend (id : string) : Async JsVal :=
  request ("/marketing/singlesends/" ++ id) no_options.

Definition createSingleSend (input : JsVal) : Async JsVal :=
  request "/marketing/singlesends" (with_body "POST" (JSON_stringify input)).

Definition updateSingleSend (id : string) (input : JsVal) : Async JsVal :=
  request ("/marketing/singlesends/" ++ id) (with_body "PATCH" (JSON_stringify input)).

Definition deleteSingleSend (id : string) : Async JsVal :=
  void (request ("/marketing/singlesends/" ++ id) (with_method "DELETE")).

Definition scheduleSingleSend (id sendAt : string) : Async JsVal :=
  request ("/marketing/singlesends/" ++ id ++ "/schedule")
          (with_body "PUT" (JSON_stringify (JObj [("send_at", JStr sendAt)]))).

Definition cancelScheduledSingleSend (id : string) : Async JsVal :=
  void (request ("/marketing/singlesends/" ++ id ++ "/schedule") (with_method "DELETE")).

Definition sendSingleSendNow (id : string) : Async JsVal :=
  request ("/marketing/singlesends/" ++ id ++ "/schedule")
          (with_body "PUT" (JSON_stringify (JObj [("send_at", JStr "now")]))).

(* ---------------------------------------------------------------- *)
(** ** Sender identities *)

Definition listSenderIdentities : Async JsVal :=
  result <- request "/senders" no_options ;;
  ret (page_of result (JBool false)).

Definition getSenderIdentity (id : Z) : Async JsVal :=
  request ("/senders/" ++ string_of_Z id) no_options.

Definition createSenderIdentity (input : JsVal) : Async JsVal :=
  request "/senders" (with_body "POST" (JSON_stringify input)).

Definition updateSenderIdentity (id : Z) (input : JsVal) : Async JsVal :=
  request ("/senders/" ++ string_of_Z id) (with_body "PATCH" (JSON_stringify input)).

Definition deleteSenderIdentity (id : Z) : Async JsVal :=
  void (request ("/senders/" ++ string_of_Z id) (with_method "DELETE")).

Definition resendSenderVerification (id : Z) : Async JsVal :=
  void (request ("/senders/" ++ string_of_Z id ++ "/resend_verification")
                (with_method "POST")).

(* ---------------------------------------------------------------- *)
(** ** Statistics *)

Definition getGlobalStats (startDate : string) (endDate aggregatedBy : option string)
  : Async JsVal :=
  let queryParams : URLSearchParams := [] in
  let queryParams := params_set "start_date" startDate queryParams in
  let queryParams := set_if (given_str endDate) "end_date" (the_str endDate) queryParams in
  let queryParams :=
    set_if (given_str aggregatedBy) "aggregated_by" (the_str aggregatedBy) queryParams in
  request ("/stats?" ++ params_toString queryParams) no_options.

Definition getCategoryStats (categories : list string) (startDate : string)
           (endDate aggregatedBy : option string) : Async JsVal :=
  let queryParams : URLSearchParams := [] in
  let queryParams := params_set "start_date" startDate queryParams in
  let queryParams := params_set "categories" (join_comma categories) queryParams in
  let queryParams := set_if (given_str endDate) "end_date" (the_str endDate) queryParams in
  let queryParams :=
    set_if (given_str aggregatedBy) "aggregated_by" (the_str aggregatedBy) queryParams in
  request ("/categories/stats?" ++ params_toString queryParams) no_options.

Definition getMailboxProviderStats (startDate : string) (endDate : option string)
           (mailboxProviders : option (list string)) : Async JsVal :=
  let queryParams : URLSearchParams := [] in
  let queryParams := params_set "start_date" startDate queryParams in
  let queryParams := set_if (given_str endDate) "end_date" (the_str endDate) queryParams in
  let queryParams :=
    match mailboxProviders with
    | Some l => params_set "mailbox_providers" (join_comma l) queryParams
    | None => queryParams
    end in
  request ("/mailbox_providers/stats?" ++ params_toString queryParams) no_options.

Definition getBrowserStats (startDate : string) (endDate : option string) : Async JsVal :=
  let queryParams : URLSearchParams := [] in
  let queryParams := params_set "start_date" startDate queryParams in
  let queryParams := set_if (given_str endDate) "end_date" (the_str endDate) queryParams in
  request ("/browsers/stats?" ++ params_toString queryParams) no_options.

Definition getDeviceStats (startDate : string) (endDate : option string) : Async JsVal :=
  let queryParams : URLSearchParams := [] in
  let queryParams := params_set "start_date" startDate queryParams in
  let queryParams := set_if (given_str endDate) "end_date" (the_str endDate) queryParams in
  request ("/devices/stats?" ++ params_toString queryParams) no_options.

Definition getGeographyStats (startDate : string) (endDate country : option string)
  : Async JsVal :=
  let queryParams : URLSearchParams := [] in
  let queryParams := params_set "start_date" startDate queryParams in
  let queryParams := set_if (given_str endDate) "end_date" (the_str endDate) queryParams in
  let queryParams := set_if (given_str country) "country" (the_str country) queryParams in
  request ("/geo/stats?" ++ params_toString queryParams) no_options.

(* ---------------------------------------------------------------- *)
(** ** Suppressions: bounces *)

Definition listBounces (startTime endTime limit offset : option Z) : Async JsVal :=
  let limit := default 500 limit in
  let offset := default 0 offset in
  let queryParams : URLSearchParams := [] in
  let queryParams :=
    set_if (given_num startTime) "start_time" (string_of_Z (the_num startTime))
           queryParams in
  let queryParams :=
    set_if (given_num endTime) "end_time" (string_of_Z (the_num endTime)) queryParams in
  let queryParams := params_set "limit" (string_of_Z limit) queryParams in
  let queryParams := params_set "offset" (string_of_Z offset) queryParams in
  result <- request ("/suppression/bounces?" ++ params_toString queryParams) no_options ;;
  ret (page_of result (JBool (strict_eq_num (js_get_opt result "length") limit))).

Definition getBounce (email : string) : Async JsVal :=
  request ("/suppression/bounces/" ++ email) no_options.

Definition deleteBounce (email : string) : Async JsVal :=
  void (request ("/suppression/bounces/" ++ email) (with_method "DELETE")).

Definition deleteBounces (emails : list string) (deleteAll : option bool) : Async JsVal :=
  let deleteAll := default false deleteAll in
  if deleteAll then
    void (request "/suppression/bounces"
            (with_body "DELETE" (JSON_stringify (JObj [("delete_all", JBool true)]))))
  else
    void (request "/suppression/bounces"
            (with_body "DELETE" (JSON_stringify (JObj [("emails", str_array emails)])))).

(* ---------------------------------------------------------------- *)
(** ** Suppressions: blocks *)

Definition listBlocks (startTime endTime limit offset : option Z) : Async JsVal :=
  let limit := default 500 limit in
  let offset := default 0 offset in
  let queryParams : URLSearchParams := [] in
  let queryParams :=
    set_if (given_num startTime) "start_time" (string_of_Z (the_num startTime))
           queryParams in
  let queryParams :=
    set_if (given_num endTime) "end_time" (string_of_Z (the_num endTime)) queryParams in
  let queryParams := params_set "limit" (string_of_Z limit) queryParams in
  let queryParams := params_set "offset" (string_of_Z offset) queryParams in
  result <- request ("/suppression/blocks?" ++ params_toString queryParams) no_options ;;
  ret (page_of result (JBool (strict_eq_num (js_get_opt result "length") limit))).

Definition getBlock (email : string) : Async JsVal :=
  request ("/suppression/blocks/" ++ email) no_options.

Definition deleteBlock (email : string) : Async JsVal :=
  void (request ("/suppression/blocks/" ++ email) (with_method "DELETE")).

Definition deleteBlocks (emails : list string) (deleteAll : option bool) : Async JsVal :=
  let deleteAll := default false deleteAll in
  if deleteAll then
    void (request "/suppression/blocks"
            (with_body "DELETE" (JSON_stringify (JObj [("delete_all", JBool true)]))))
  else
    void (request "/suppression/blocks"
            (with_body "DELETE" (JSON_stringify (JObj [("emails", str_array emails)])))).

(* ---------------------------------------------------------------- *)
(** ** Suppressions: spam reports *)

Definition listSpamReports (startTime endTime limit offset : option Z) : Async JsVal :=
  let limit := default 500 limit in
  let offset := default 0 offset in
  let queryParams : URLSearchParams := [] in
  let queryParams :=
    set_if (given_num startTime) "start_time" (string_of_Z (the_num startTime))
           queryParams in
  let queryParams :=
    set_if (given_num endTime) "end_time" (string_of_Z (the_num endTime)) queryParams in
  let queryParams := params_set "limit" (string_of_Z limit) queryParams in
  let queryParams := params_set "offset" (string_of_Z offset) queryParams in
  result <- request ("/suppression/spam_reports?" ++ params_toString queryParams) no_options ;;
  ret (page_of result (JBool (strict_eq_num (js_get_opt result "length") limit))).

Definition getSpamReport (email : string) : Async JsVal :=
  request ("/suppression/spam_reports/" ++ email) no_options.

Definition deleteSpamReport (email : string) : Async JsVal :=
  void (request ("/suppression/spam_reports/" ++ email) (with_method "DELETE")).

Definition deleteSpamReports (emails : list string) (deleteAll : option bool) : Async JsVal :=
  let deleteAll := default false deleteAll in
  if deleteAll then
    void (request "/suppression/spam_reports"
            (with_body "DELETE" (JSON_stringify (JObj [("delete_all", JBool true)]))))
  else
    void (request "/suppression/spam_reports"
            (with_body "DELETE" (JSON_stringify (JObj [("emails", str_array emails)])))).

(* ---------------------------------------------------------------- *)
(** ** Suppressions: invalid emails *)

Definition listInvalidEmails (startTime endTime limit offset : option Z) : Async JsVal :=
  let limit := default 500 limit in
  let offset := default 0 offset in
  let queryParams : URLSearchParams := [] in
  let queryParams :=
    set_if (given_num startTime) "start_time" (string_of_Z (the_num startTime))
           queryParams in
  let queryParams :=
    set_if (given_num endTime) "end_time" (string_of_Z (the_num endTime)) queryParams in
  let queryParams := params_set "limit" (string_of_Z limit) queryParams in
  let queryParams := params_set "offset" (string_of_Z offset) queryParams in
  result <- request ("/suppression/invalid_emails?" ++ params_toString queryParams) no_options ;;
  ret (page_of result (JBool (strict_eq_num (js_get_opt result "length") limit))).

Definition getInvalidEmail (email : string) : Async JsVal :=
  request ("/suppression/invalid_emails/" ++ email) no_options.

Definition deleteInvalidEmail (email : string) : Async JsVal :=
  void (request ("/suppression/invalid_emails/" ++ email) (with_method "DELETE")).

Definition deleteInvalidEmails (emails : list string) (deleteAll : option bool) : Async JsVal :=
  let deleteAll := default false deleteAll in
  if deleteAll then
    void (request "/suppression/invalid_emails"
            (with_body "DELETE" (JSON_stringify (JObj [("delete_all", JBool true)]))))
  else
    void (request "/suppression/invalid_emails"
            (with_body "DELETE" (JSON_stringify (JObj [("emails", str_array emails)])))).

(* ---------------------------------------------------------------- *)
(** ** Global suppressions *)

Definition listGlobalSuppressions (startTime endTime limit offset : option Z)
  : Async JsVal :=
  let limit := default 500 limit in
  let offset := default 0 offset in
  let queryParams : URLSearchParams := [] in
  let queryParams :=
    set_if (given_num startTime) "start_time" (string_of_Z (the_num startTime))
           queryParams in
  let queryParams :=
    set_if (given_num endTime) "end_time" (string_of_Z (the_num endTime)) queryParams in
  let queryParams := params_set "limit" (string_of_Z limit) queryParams in
  let queryParams := params_set "offset" (string_of_Z offset) queryParams in
  result <- request ("/suppression/unsubscribes?" ++ params_toString queryParams)
                    no_options ;;
  ret (page_of result (JBool (strict_eq_num (js_get_opt result "length") limit))).

Definition getGlobalSuppression (email : string) : Async JsVal :=
  try_catch
    (result <- request ("/suppression/unsubscribes/" ++ email) no_options ;;
     ret (js_or (js_first_opt result) JNull))
    (fun _ => ret JNull).

Definition addGlobalSuppression (emails : list string) : Async JsVal :=
  void (request "/asm/suppressions/global"
          (with_body "POST"
             (JSON_stringify (JObj [("recipient_emails", str_array emails)])))).

Definition deleteGlobalSuppression (email : string) : Async JsVal :=
  void (request ("/asm/suppressions/global/" ++ email) (with_method "DELETE")).

(* ---------------------------------------------------------------- *)
(** ** Unsubscribe groups *)

Definition listUnsubscribeGroups : Async JsVal :=
  request "/asm/groups" no_options.

Definition getUnsubscribeGroup (id : Z) : Async JsVal :=
  request ("/asm/groups/" ++ string_of_Z id) no_options.

Definition createUnsubscribeGroup (input : JsVal) : Async JsVal :=
  request "/asm/groups" (with_body "POST" (JSON_stringify input)).

Definition updateUnsubscribeGroup (id : Z) (input : JsVal) : Async JsVal :=
  request ("/asm/groups/" ++ string_of_Z id) (with_body "PATCH" (JSON_stringify input)).

Definition deleteUnsubscribeGroup (id : Z) : Async JsVal :=
  void (request ("/asm/groups/" ++ string_of_Z id) (with_method "DELETE")).

(* ---------------------------------------------------------------- *)
(** ** Group suppressions *)

Definition listGroupSuppressions (groupId : Z) : Async JsVal :=
  result <- request ("/asm/groups/" ++ string_of_Z groupId ++ "/suppressions")
                    no_options ;;
  ret (js_or result (JArr [])).

Definition addGroupSuppressions (groupId : Z) (emails : list string) : Async JsVal :=
  void (request ("/asm/groups/" ++ string_of_Z groupId ++ "/suppressions")
          (with_body "POST"
             (JSON_stringify (JObj [("recipient_emails", str_array emails)])))).

Definition deleteGroupSuppression (groupId : Z) (email : string) : Async JsVal :=
  void (request ("/asm/groups/" ++ string_of_Z groupId ++ "/suppressions/" ++ email)
                (with_method "DELETE")).

Definition searchGroupSuppressions (email : string) : Async JsVal :=
  result <- request ("/asm/suppressions/" ++ email) no_options ;;
  suppressions <- lift (js_get result "suppressions") ;;
  ret (js_or suppressions (JArr [])).

(* ---------------------------------------------------------------- *)
(** ** API keys *)

Definition listApiKeys : Async JsVal :=
  result <- request "/api_keys" no_options ;;
  items <- lift (js_get result "result") ;;
  ret (page_of items (JBool false)).

Definition getApiKey (id : string) : Async JsVal :=
  request ("/api_keys/" ++ id) no_options.

Definition createApiKey (input : JsVal) : Async JsVal :=
  request "/api_keys" (with_body "POST" (JSON_stringify input)).

Definition updateApiKey (id name : string) (scopes : option (list string)) : Async JsVal :=
  let body := [("name", JStr name)] in
  let body :=
    match scopes with
    | Some l => assoc_set "scopes" (str_array l) body
    | None => body
    end in
  request ("/api_keys/" ++ id)
          (with_body (match scopes with Some _ => "PUT" | None => "PATCH" end)
                     (JSON_stringify (JObj body))).

Definition deleteApiKey (id : string) : Async JsVal :=
  void (request ("/api_keys/" ++ id) (with_method "DELETE")).

(* ---------------------------------------------------------------- *)
(** ** Event webhooks *)

Definition getEventWebhook : Async JsVal :=
  request "/user/webhooks/event/settings" no_options.

Definition updateEventWebhook (input : JsVal) : Async JsVal :=
  request "/user/webhooks/event/settings" (with_body "PATCH" (JSON_stringify input)).

Definition testEventWebhook (url : string) : Async JsVal :=
  void (request "/user/webhooks/event/test"
          (with_body "POST" (JSON_stringify (JObj [("url", JStr url)])))).

(* ---------------------------------------------------------------- *)
(** ** Domain authentication *)

Definition listAuthenticatedDomains : Async JsVal :=
  request "/whitelabel/domains" no_options.

Definition getAuthenticatedDomain (id : Z) : Async JsVal :=
  request ("/whitelabel/domains/" ++ string_of_Z id) no_options.

Definition authenticateDomain (input : JsVal) : Async JsVal :=
  request "/whitelabel/domains" (with_body "POST" (JSON_stringify input)).

Definition deleteAuthenticatedDomain (id : Z) : Async JsVal :=
  void (request ("/whitelabel/domains/" ++ string_of_Z id) (with_method "DELETE")).

Definition validateDomain (id : Z) : Async JsVal :=
  result <- request ("/whitelabel/domains/" ++ string_of_Z id ++ "/validate")
                    (with_method "POST") ;;
  valid <- lift (js_get result "valid") ;;
  validation_results <- lift (js_get result "validation_results") ;;
  ret (JObj [("valid", valid); ("validationResults", validation_results)]).

(* ---------------------------------------------------------------- *)
(** ** Link branding *)

Definition listBrandedLinks : Async JsVal :=
  request "/whitelabel/links" no_options.

Definition getBrandedLink (id : Z) : Async JsVal :=
  request ("/whitelabel/links/" ++ string_of_Z id) no_options.

Definition createBrandedLink (input : JsVal) : Async JsVal :=
  request "/whitelabel/links" (with_body "POST" (JSON_stringify input)).

Definition deleteBrandedLink (id : Z) : Async JsVal :=
  void (request ("/whitelabel/links/" ++ string_of_Z id) (with_method "DELETE")).

Definition validateBrandedLink (id : Z) : Async JsVal :=
  result <- request ("/whitelabel/links/" ++ string_of_Z id ++ "/validate")
                    (with_method "POST") ;;
  valid <- lift (js_get result "valid") ;;
  validation_results <- lift (js_get result "validation_results") ;;
  ret (JObj [("valid", valid); ("validationResults", validation_results)]).

(* ---------------------------------------------------------------- *)
(** ** IP management and warmup *)

Definition listIpAddresses : Async JsVal := request "/ips" no_options.

Definition getIpAddress (ip : string) : Async JsVal :=
  request ("/ips/" ++ ip) no_options.

Definition listIpPools : Async JsVal := request "/ips/pools" no_options.

Definition getIpPool (name : string) : Async JsVal :=
  request ("/ips/pools/" ++ name) no_options.

Definition createIpPool (input : JsVal) : Async JsVal :=
  request "/ips/pools" (with_body "POST" (JSON_stringify input)).

Definition updateIpPool (name newName : string) : Async JsVal :=
  request ("/ips/pools/" ++ name)
          (with_body "PUT" (JSON_stringify (JObj [("name", JStr newName)]))).

Definition deleteIpPool (name : string) : Async JsVal :=
  void (request ("/ips/pools/" ++ name) (with_method "DELETE")).

Definition addIpToPool (poolName ip : string) : Async JsVal :=
  void (request ("/ips/pools/" ++ poolName ++ "/ips")
          (with_body "POST" (JSON_stringify (JObj [("ip", JStr ip)])))).

Definition removeIpFromPool (poolName ip : string) : Async JsVal :=
  void (request ("/ips/pools/" ++ poolName ++ "/ips/" ++ ip) (with_method "DELETE")).

Definition listIpWarmup : Async JsVal := request "/ips/warmup" no_options.

Definition startIpWarmup (ip : string) : Async JsVal :=
  request "/ips/warmup" (with_body "POST" (JSON_stringify (JObj [("ip", JStr ip)]))).

Definition stopIpWarmup (ip : string) : Async JsVal :=
  void (request ("/ips/warmup/" ++ ip) (with_method "DELETE")).

(* ---------------------------------------------------------------- *)
(** ** Subusers *)

Definition listSubusers (limit offset : option Z) : Async JsVal :=
  let limit := default 500 limit in
  let offset := default 0 offset in
  let queryParams : URLSearchParams := [] in
  let queryParams := params_set "limit" (string_of_Z limit) queryParams in
  let queryParams := params_set "offset" (string_of_Z offset) queryParams in
  request ("/subusers?" ++ params_toString queryParams) no_options.

Definition getSubuser (username : string) : Async JsVal :=
  request ("/subusers/" ++ username) no_options.

Definition createSubuser (input : JsVal) : Async JsVal :=
  request "/subusers" (with_body "POST" (JSON_stringify input)).

Definition deleteSubuser (username : string) : Async JsVal :=
  void (request ("/subusers/" ++ username) (with_method "DELETE")).

Definition enableSubuser (username : string) : Async JsVal :=
  void (request ("/subusers/" ++ username)
          (with_body "PATCH" (JSON_stringify (JObj [("disabled", JBool false)])))).

Definition disableSubuser (username : string) : Async JsVal :=
  void (request ("/subusers/" ++ username)
          (with_body "PATCH" (JSON_stringify (JObj [("disabled", JBool true)])))).

(* ---------------------------------------------------------------- *)
(** ** Teammates *)

Definition listTeammates (limit offset : option Z) : Async JsVal :=
  let limit := default 500 limit in
  let offset := default 0 offset in
  let queryParams : URLSearchParams := [] in
  let queryParams := params_set "limit" (string_of_Z limit) queryParams in
  let queryParams := params_set "offset" (string_of_Z offset) queryParams in
  result <- request ("/teammates?" ++ params_toString queryParams) no_options ;;
  items <- lift (js_get result "result") ;;
  ret (js_or items (JArr [])).

Definition getTeammate (username : string) : Async JsVal :=
  request ("/teammates/" ++ username) no_options.

Definition inviteTeammate (input : JsVal) : Async JsVal :=
  request "/teammates" (with_body "POST" (JSON_stringify input)).

(** The payload of [updateTeammatePermissions]. *)
Definition updateTeammatePermissions_body (scopes : list string) (isAdmin : option bool)
  : JsVal :=
  JObj [("scopes", str_array scopes); ("is_admin", opt_bool isAdmin)].

Definition updateTeammatePermissions (username : string) (scopes : list string)
           (isAdmin : option bool) : Async JsVal :=
  request ("/teammates/" ++ username)
          (with_body "PATCH"
             (JSON_stringify (updateTeammatePermissions_body scopes isAdmin))).

Definition deleteTeammate (username : string) : Async JsVal :=
  void (request ("/teammates/" ++ username) (with_method "DELETE")).

(* ---------------------------------------------------------------- *)
(** ** Inbound parse *)

Definition listInboundParseWebhooks : Async JsVal :=
  result <- request "/user/webhooks/parse/settings" no_options ;;
  items <- lift (js_get result "result") ;;
  ret (js_or items (JArr [])).

Definition getInboundParseWebhook (hostname : string) : Async JsVal :=
  request ("/user/webhooks/parse/settings/" ++ hostname) no_options.

Definition createInboundParseWebhook (input : JsVal) : Async JsVal :=
  request "/user/webhooks/parse/settings" (with_body "POST" (JSON_stringify input)).

Definition updateInboundParseWebhook (hostname : string) (input : JsVal) : Async JsVal :=
  request ("/user/webhooks/parse/settings/" ++ hostname)
          (with_body "PATCH" (JSON_stringify input)).

Definition deleteInboundParseWebhook (hostname : string) : Async JsVal :=
  void (request ("/user/webhooks/parse/settings/" ++ hostname) (with_method "DELETE")).

(* ---------------------------------------------------------------- *)
(** ** Email validation *)

(** The object that [validateEmail] serialises. *)
Definition validateEmail_body (email : string) (source : option string) : JsVal :=
  let body := [("email", JStr email)] in
  let body := assign_if (given_str source) "source" (JStr (the_str source)) body in
  JObj body.

Definition validateEmail (email : string) (source : option string) : Async JsVal :=
  request "/validations/email"
          (with_body "POST" (JSON_stringify (validateEmail_body email source))).

(* ---------------------------------------------------------------- *)
(** ** Scheduled sends *)

Definition createBatchId : Async JsVal :=
  result <- request "/mail/batch" (with_method "POST") ;;
  batch_id <- lift (js_get result "batch_id") ;;
  ret (JObj [("batchId", batch_id)]).

Definition validateBatchId (batchId : string) : Async JsVal :=
  try_catch
    (request ("/mail/batch/" ++ batchId) no_options ;;;
     ret (JObj [("valid", JBool true)]))
    (fun _ => ret (JObj [("valid", JBool false)])).

Definition listScheduledSends : Async JsVal :=
  request "/user/scheduled_sends" no_options.

Definition getScheduledSend (batchId : string) : Async JsVal :=
  result <- request ("/user/scheduled_sends/" ++ batchId) no_options ;;
  lift (js_first result).

Definition cancelScheduledSend (batchId : string) : Async JsVal :=
  void (request ("/user/scheduled_sends/" ++ batchId)
          (with_body "POST"
             (JSON_stringify (JObj [("batch_id", JStr batchId);
                                    ("status", JStr "cancel")])))).

Definition pauseScheduledSend (batchId : string) : Async JsVal :=
  void (request ("/user/scheduled_sends/" ++ batchId)
          (with_body "POST"
             (JSON_stringify (JObj [("batch_id", JStr batchId);
                                    ("status", JStr "pause")])))).

(* ---------------------------------------------------------------- *)
(** ** Alerts *)

Definition listAlerts : Async JsVal := request "/alerts" no_options.

Definition getAlert (id : Z) : Async JsVal :=
  request ("/alerts/" ++ string_of_Z id) no_options.

Definition createAlert (input : JsVal) : Async JsVal :=
  request "/alerts" (with_body "POST" (JSON_stringify input)).

Definition updateAlert (id : Z) (input : JsVal) : Async JsVal :=
  request ("/alerts/" ++ string_of_Z id) (with_body "PATCH" (JSON_stringify input)).

Definition deleteAlert (id : Z) : Async JsVal :=
  void (request ("/alerts/" ++ string_of_Z id) (with_method "DELETE")).

(* ---------------------------------------------------------------- *)
(** ** Design library *)

Definition listDesigns (pageSize : option Z) (pageToken : option string) : Async JsVal :=
  let pageSize := default 50 pageSize in
  let queryParams : URLSearchParams := [] in
  let queryParams := params_set "page_size" (string_of_Z pageSize) queryParams in
  let queryParams :=
    set_if (given_str pageToken) "page_token" (the_str pageToken) queryParams in
  result <- request ("/designs?" ++ params_toString queryParams) no_options ;;
  items <- lift (js_get result "result") ;;
  metadata <- lift (js_get result "_metadata") ;;
  ret (JObj [("items", js_or items (JArr []));
             ("count", js_or (js_get_opt items "length") (JNum 0));
             ("hasMore", js_bool (js_get_opt metadata "next"));
             ("nextPageToken", js_get_opt metadata "next")]).

Definition getDesign (id : string) : Async JsVal :=
  request ("/designs/" ++ id) no_options.

Definition createDesign (input : JsVal) : Async JsVal :=
  request "/designs" (with_body "POST" (JSON_stringify input)).

Definition updateDesign (id : string) (input : JsVal) : Async JsVal :=
  request ("/designs/" ++ id) (with_body "PATCH" (JSON_stringify input)).

Definition deleteDesign (id : string) : Async JsVal :=
  void (request ("/designs/" ++ id) (with_method "DELETE")).

Definition duplicateDesign (id : string) (name : option string) : Async JsVal :=
  request ("/designs/" ++ id)
          (with_body "POST"
             (if given_str name
              then JSON_stringify (JObj [("name", JStr (the_str name))])
              else None)).

(* ---------------------------------------------------------------- *)
(** ** The client interface

    One constructor for each method of the [SendGridClient] interface,
    with its arguments; [perform] runs the method. *)

Inductive Operation : Type :=
| TestConnection
| SendEmail (input : JsVal)
| ListContacts (params : JsVal)
| GetContact (id : string)
| AddOrUpdateContacts (contacts : JsVal) (listIds : option (list string))
| DeleteContacts (ids : list string) (deleteAllContacts : option bool)
| SearchContacts (query : string)
| GetContactCount
| GetContactByEmail (email : string)
| ListContactLists
| GetContactList (id : string)
| CreateContactList (input : JsVal)
| UpdateContactList (id : string) (input : JsVal)
| DeleteContactList (id : string) (deleteContacts : option bool)
| GetContactListCount (id : string)
| AddContactsToList (listId : string) (contactIds : list string)
| RemoveContactsFromList (listId : string) (contactIds : list string)
| ListSegments (parentListIds : option (list string))
| GetSegment (id : string)
| CreateSegment (input : JsVal)
| UpdateSegment (id : string) (input : JsVal)
| DeleteSegment (id : string)
| ListCustomFields
| CreateCustomField (input : JsVal)
| UpdateCustomField (id name : string)
| DeleteCustomField (id : string)
| ListTemplates (generations : option string) (pageSize : option Z) (pageToken : option string)
| GetTemplate (id : string)
| CreateTemplate (input : JsVal)
| UpdateTemplate (id name : string)
| DeleteTemplate (id : string)
| DuplicateTemplate (id : string) (name : option string)
| CreateTemplateVersion (templateId : string) (input : JsVal)
| GetTemplateVersion (templateId versionId : string)
| UpdateTemplateVersion (templateId versionId : string) (input : JsVal)
| DeleteTemplateVersion (templateId versionId : string)
| ActivateTemplateVersion (templateId versionId : string)
| ListSingleSends (status : option string)
| GetSingleSend (id : string)
| CreateSingleSend (input : JsVal)
| UpdateSingleSend (id : string) (input : JsVal)
| DeleteSingleSend (id : string)
| ScheduleSingleSend (id sendAt : string)
| CancelScheduledSingleSend (id : string)
| SendSingleSendNow (id : string)
| ListSenderIdentities
| GetSenderIdentity (id : Z)
| CreateSenderIdentity (input : JsVal)
| UpdateSenderIdentity (id : Z) (input : JsVal)
| DeleteSenderIdentity (id : Z)
| ResendSenderVerification (id : Z)
| GetGlobalStats (startDate : string) (endDate aggregatedBy : option string)
| GetCategoryStats (categories : list string) (startDate : string) (endDate aggregatedBy : option string)
| GetMailboxProviderStats (startDate : string) (endDate : option string) (mailboxProviders : option (list string))
| GetBrowserStats (startDate : string) (endDate : option string)
| GetDeviceStats (startDate : string) (endDate : option string)
| GetGeographyStats (startDate : string) (endDate country : option string)
| ListBounces (startTime endTime limit offset : option Z)
| GetBounce (email : string)
| DeleteBounce (email : string)
| DeleteBounces (emails : list string) (deleteAll : option bool)
| ListBlocks (startTime endTime limit offset : option Z)
| GetBlock (email : string)
| DeleteBlock (email : string)
| DeleteBlocks (emails : list string) (deleteAll : option bool)
| ListSpamReports (startTime endTime limit offset : option Z)
| GetSpamReport (email : string)
| DeleteSpamReport (email : string)
| DeleteSpamReports (emails : list string) (deleteAll : option bool)
| ListInvalidEmails (startTime endTime limit offset : option Z)
| GetInvalidEmail (email : string)
| DeleteInvalidEmail (email : string)
| DeleteInvalidEmails (emails : list string) (deleteAll : option bool)
| ListGlobalSuppressions (startTime endTime limit offset : option Z)
| GetGlobalSuppression (email : string)
| AddGlobalSuppression (emails : list string)
| DeleteGlobalSuppression (email : string)
| ListUnsubscribeGroups
| GetUnsubscribeGroup (id : Z)
| CreateUnsubscribeGroup (input : JsVal)
| UpdateUnsubscribeGroup (id : Z) (input : JsVal)
| DeleteUnsubscribeGroup (id : Z)
| ListGroupSuppressions (groupId : Z)
| AddGroupSuppressions (groupId : Z) (emails : list string)
| DeleteGroupSuppression (groupId : Z) (email : string)
| SearchGroupSuppressions (email : string)
| ListApiKeys
| GetApiKey (id : string)
| CreateApiKey (input : JsVal)
| UpdateApiKey (id name : string) (scopes : option (list string))
| DeleteApiKey (id : string)
| GetEventWebhook
| UpdateEventWebhook (input : JsVal)
| TestEventWebhook (url : string)
| ListAuthenticatedDomains
| GetAuthenticatedDomain (id : Z)
| AuthenticateDomain (input : JsVal)
| DeleteAuthenticatedDomain (id : Z)
| ValidateDomain (id : Z)
| ListBrandedLinks
| GetBrandedLink (id : Z)
| CreateBrandedLink (input : JsVal)
| DeleteBrandedLink (id : Z)
| ValidateBrandedLink (id : Z)
| ListIpAddresses
| GetIpAddress (ip : string)
| ListIpPools
| GetIpPool (name : string)
| CreateIpPool (input : JsVal)
| UpdateIpPool (name newName : string)
| DeleteIpPool (name : string)
| AddIpToPool (poolName ip : string)
| RemoveIpFromPool (poolName ip : string)
| ListIpWarmup
| StartIpWarmup (ip : string)
| StopIpWarmup (ip : string)
| ListSubusers (limit offset : option Z)
| GetSubuser (username : string)
| CreateSubuser (input : JsVal)
| DeleteSubuser (username : string)
| EnableSubuser (username : string)
| DisableSubuser (username : string)
| ListTeammates (limit offset : option Z)
| GetTeammate (username : string)
| InviteTeammate (input : JsVal)
| UpdateTeammatePermissions (username : string) (scopes : list string) (isAdmin : option bool)
| DeleteTeammate (username : string)
| ListInboundParseWebhooks
| GetInboundParseWebhook (hostname : string)
| CreateInboundParseWebhook (input : JsVal)
| UpdateInboundParseWebhook (hostname : string) (input : JsVal)
| DeleteInboundParseWebhook (hostname : string)
| ValidateEmail (email : string) (source : option string)
| CreateBatchId
| ValidateBatchId (batchId : string)
| ListScheduledSends
| GetScheduledSend (batchId : string)
| CancelScheduledSend (batchId : string)
| PauseScheduledSend (batchId : string)
| ListAlerts
| GetAlert (id : Z)
| CreateAlert (input : JsVal)
| UpdateAlert (id : Z) (input : JsVal)
| DeleteAlert (id : Z)
| ListDesigns (pageSize : option Z) (pageToken : option string)
| GetDesign (id : string)
| CreateDesign (input : JsVal)
| UpdateDesign (id : string) (input : JsVal)
| DeleteDesign (id : string)
| DuplicateDesign (id : string) (name : option string).

Definition perform (op : Operation) : Async JsVal :=
  match op with
  | TestConnection => testConnection
  | SendEmail input => sendEmail input
  | ListContacts params => listContacts params
  | GetContact id => getContact id
  | AddOrUpdateContacts contacts listIds => addOrUpdateContacts contacts listIds
  | DeleteContacts ids deleteAllContacts => deleteContacts ids deleteAllContacts
  | SearchContacts query => searchContacts query
  | GetContactCount => getContactCount
  | GetContactByEmail email => getContactByEmail email
  | ListContactLists => listContactLists
  | GetContactList id => getContactList id
  | CreateContactList input => createContactList input
  | UpdateContactList id input => updateContactList id input
  | DeleteContactList id deleteContacts => deleteContactList id deleteContacts
  | GetContactListCount id => getContactListCount id
  | AddContactsToList listId contactIds => addContactsToList listId contactIds
  | RemoveContactsFromList listId contactIds => removeContactsFromList listId contactIds
  | ListSegments parentListIds => listSegments parentListIds
  | GetSegment id => getSegment id
  | CreateSegment input => createSegment input
  | UpdateSegment id input => updateSegment id input
  | DeleteSegment id => deleteSegment id
  | ListCustomFields => listCustomFields
  | CreateCustomField input => createCustomField input
  | UpdateCustomField id name => updateCustomField id name
  | DeleteCustomField id => deleteCustomField id
  | ListTemplates generations pageSize pageToken => listTemplates generations pageSize pageToken
  | GetTemplate id => getTemplate id
  | CreateTemplate input => createTemplate input
  | UpdateTemplate id name => updateTemplate id name
  | DeleteTemplate id => deleteTemplate id
  | DuplicateTemplate id name => duplicateTemplate id name
  | CreateTemplateVersion templateId input => createTemplateVersion templateId input
  | GetTemplateVersion templateId versionId => getTemplateVersion templateId versionId
  | UpdateTemplateVersion templateId versionId input => updateTemplateVersion templateId versionId input
  | DeleteTemplateVersion templateId versionId => deleteTemplateVersion templateId versionId
  | ActivateTemplateVersion templateId versionId => activateTemplateVersion templateId versionId
  | ListSingleSends status => listSingleSends status
  | GetSingleSend id => getSingleSend id
  | CreateSingleSend input => createSingleSend input
  | UpdateSingleSend id input => updateSingleSend id input
  | DeleteSingleSend id => deleteSingleSend id
  | ScheduleSingleSend id sendAt => scheduleSingleSend id sendAt
  | CancelScheduledSingleSend id => cancelScheduledSingleSend id
  | SendSingleSendNow id => sendSingleSendNow id
  | ListSenderIdentities => listSenderIdentities
  | GetSenderIdentity id => getSenderIdentity id
  | CreateSenderIdentity input => createSenderIdentity input
  | UpdateSenderIdentity id input => updateSenderIdentity id input
  | DeleteSenderIdentity id => deleteSenderIdentity id
  | ResendSenderVerification id => resendSenderVerification id
  | GetGlobalStats startDate endDate aggregatedBy => getGlobalStats startDate endDate aggregatedBy
  | GetCategoryStats categories startDate endDate aggregatedBy => getCategoryStats categories startDate endDate aggregatedBy
  | GetMailboxProviderStats startDate endDate mailboxProviders => getMailboxProviderStats startDate endDate mailboxProviders
  | GetBrowserStats startDate endDate => getBrowserStats startDate endDate
  | GetDeviceStats startDate endDate => getDeviceStats startDate endDate
  | GetGeographyStats startDate endDate country => getGeographyStats startDate endDate country
  | ListBounces startTime endTime limit offset => listBounces startTime endTime limit offset
  | GetBounce email => getBounce email
  | DeleteBounce email => deleteBounce email
  | DeleteBounces emails deleteAll => deleteBounces emails deleteAll
  | ListBlocks startTime endTime limit offset => listBlocks startTime endTime limit offset
  | GetBlock email => getBlock email
  | DeleteBlock email => deleteBlock email
  | DeleteBlocks emails deleteAll => deleteBlocks emails deleteAll
  | ListSpamReports startTime endTime limit offset => listSpamReports startTime endTime limit offset
  | GetSpamReport email => getSpamReport email
  | DeleteSpamReport email => deleteSpamReport email
  | DeleteSpamReports emails deleteAll => deleteSpamReports emails deleteAll
  | ListInvalidEmails startTime endTime limit offset => listInvalidEmails startTime endTime limit offset
  | GetInvalidEmail email => getInvalidEmail email
  | DeleteInvalidEmail email => deleteInvalidEmail email
  | DeleteInvalidEmails emails deleteAll => deleteInvalidEmails emails deleteAll
  | ListGlobalSuppressions startTime endTime limit offset => listGlobalSuppressions startTime endTime limit offset
  | GetGlobalSuppression email => getGlobalSuppression email
  | AddGlobalSuppression emails => addGlobalSuppression emails
  | DeleteGlobalSuppression email => deleteGlobalSuppression email
  | ListUnsubscribeGroups => listUnsubscribeGroups
  | GetUnsubscribeGroup id => getUnsubscribeGroup id
  | CreateUnsubscribeGroup input => createUnsubscribeGroup input
  | UpdateUnsubscribeGroup id input => updateUnsubscribeGroup id input
  | DeleteUnsubscribeGroup id => deleteUnsubscribeGroup id
  | ListGroupSuppressions groupId => listGroupSuppressions groupId
  | AddGroupSuppressions groupId emails => addGroupSuppressions groupId emails
  | DeleteGroupSuppression groupId email => deleteGroupSuppression groupId email
  | SearchGroupSuppressions email => searchGroupSuppressions email
  | ListApiKeys => listApiKeys
  | GetApiKey id => getApiKey id
  | CreateApiKey input => createApiKey input
  | UpdateApiKey id name scopes => updateApiKey id name scopes
  | DeleteApiKey id => deleteApiKey id
  | GetEventWebhook => getEventWebhook
  | UpdateEventWebhook input => updateEventWebhook input
  | TestEventWebhook url => testEventWebhook url
  | ListAuthenticatedDomains => listAuthenticatedDomains
  | GetAuthenticatedDomain id => getAuthenticatedDomain id
  | AuthenticateDomain input => authenticateDomain input
  | DeleteAuthenticatedDomain id => deleteAuthenticatedDomain id
  | ValidateDomain id => validateDomain id
  | ListBrandedLinks => listBrandedLinks
  | GetBrandedLink id => getBrandedLink id
  | CreateBrandedLink input => createBrandedLink input
  | DeleteBrandedLink id => deleteBrandedLink id
  | ValidateBrandedLink id => validateBrandedLink id
  | ListIpAddresses => listIpAddresses
  | GetIpAddress ip => getIpAddress ip
  | ListIpPools => listIpPools
  | GetIpPool name => getIpPool name
  | CreateIpPool input => createIpPool input
  | UpdateIpPool name newName => updateIpPool name newName
  | DeleteIpPool name => deleteIpPool name
  | AddIpToPool poolName ip => addIpToPool poolName ip
  | RemoveIpFromPool poolName ip => removeIpFromPool poolName ip
  | ListIpWarmup => listIpWarmup
  | StartIpWarmup ip => startIpWarmup ip
  | StopIpWarmup ip => stopIpWarmup ip
  | ListSubusers limit offset => listSubusers limit offset
  | GetSubuser username => getSubuser username
  | CreateSubuser input => createSubuser input
  | DeleteSubuser username => deleteSubuser username
  | EnableSubuser username => enableSubuser username
  | DisableSubuser username => disableSubuser username
  | ListTeammates limit offset => listTeammates limit offset
  | GetTeammate username => getTeammate username
  | InviteTeammate input => inviteTeammate input
  | UpdateTeammatePermissions username scopes isAdmin => updateTeammatePermissions username scopes isAdmin
  | DeleteTeammate username => deleteTeammate username
  | ListInboundParseWebhooks => listInboundParseWebhooks
  | GetInboundParseWebhook hostname => getInboundParseWebhook hostname
  | CreateInboundParseWebhook input => createInboundParseWebhook input
  | UpdateInboundParseWebhook hostname input => updateInboundParseWebhook hostname input
  | DeleteInboundParseWebhook hostname => deleteInboundParseWebhook hostname
  | ValidateEmail email source => validateEmail email source
  | CreateBatchId => createBatchId
  | ValidateBatchId batchId => validateBatchId batchId
  | ListScheduledSends => listScheduledSends
  | GetScheduledSend batchId => getScheduledSend batchId
  | CancelScheduledSend batchId => cancelScheduledSend batchId
  | PauseScheduledSend batchId => pauseScheduledSend batchId
  | ListAlerts => listAlerts
  | GetAlert id => getAlert id
  | CreateAlert input => createAlert input
  | UpdateAlert id input => updateAlert id input
  | DeleteAlert id => deleteAlert id
  | ListDesigns pageSize pageToken => listDesigns pageSize pageToken
  | GetDesign id => getDesign id
  | CreateDesign input => createDesign input
  | UpdateDesign id input => updateDesign id input
  | DeleteDesign id => deleteDesign id
  | DuplicateDesign id name => duplicateDesign id name
  end.

End Client.

(* ================================================================== *)
(** * Tool responses ([utils/formatters.ts]) and the bulk-delete tools *)
(* ================================================================== *)

(** A text block of a tool response.  The text is always produced by
    [JSON.stringify(v, null, 2)] in the handlers modelled here, and is
    represented by the JSON value it denotes. *)
Record TextContent : Type := {
  type : string;
  text : option JsVal
}.

Record ToolResponse : Type := {
  content : list TextContent;
  isError : option bool
}.

(** [{ content: [{ type: 'text', text: JSON.stringify(v, null, 2) }] }] *)
Definition json_response (v : JsVal) : ToolResponse :=
  {| content := [ {| type := "text"; text := JSON_stringify v |} ];
     isError := None |}.

(** The same with [isError: true]. *)
Definition json_error_response (v : JsVal) : ToolResponse :=
  {| content := [ {| type := "text"; text := JSON_stringify v |} ];
     isError := Some true |}.

(** Modelled from the spec: the [retryable] flag of the error classes of
    [utils/errors.ts]; the rate-limit error is the retryable one. *)
Definition retryable (x : Exn) : bool :=
  match x with
  | Classified (RateLimitError _ _) => true
  | _ => false
  end.

Section Tools.

Variable credentials : TenantCredentials.
Variable engine_message : Exn -> string.

(** [formatErrorForLogging] of [utils/errors.ts], which builds the
    [details] of an error response. *)
Variable formatErrorForLogging : Exn -> JsVal.

Definition formatError (error : Exn) : ToolResponse :=
  let errorInfo := formatErrorForLogging error in
  let message := "Error: " ++ exn_message engine_message error in
  let message := if retryable error then message ++ " (retryable)" else message in
  json_error_response (JObj [("error", JStr message); ("details", errorInfo)]).

(** [`${xs?.length}`] *)
Definition length_text (xs : option (list string)) : string :=
  match xs with
  | Some l => string_of_Z (Zlength_of l)
  | None => "undefined"
  end.

(** [!xs && !deleteAll] *)
Definition neither_given (xs : option (list string)) (deleteAll : option bool) : bool :=
  negb (match xs with Some _ => true | None => false end)
  && negb (default false deleteAll).

(** [sendgrid_delete_contacts] ([tools/contacts.ts]) *)
Definition sendgrid_delete_contacts (ids : option (list string)) (deleteAll : option bool)
  : Async ToolResponse :=
  try_catch
    (if neither_given ids deleteAll then
       ret (json_error_response
              (JObj [("error", JStr "Either ids or deleteAll must be provided")]))
     else
       result <- deleteContacts credentials (default [] ids)
                                (Some (default false deleteAll)) ;;
       ret (json_response
              (JObj (spread
                       [("success", JBool true);
                        ("message",
                         JStr (if default false deleteAll
                               then "All contacts queued for deletion"
                               else length_text ids ++ " contact(s) queued for deletion"))]
                       (own_fields result)))))
    (fun error => ret (formatError error)).

(** [sendgrid_delete_bounces] ([tools/suppressions.ts]) *)
Definition sendgrid_delete_bounces (emails : option (list string)) (deleteAll : option bool)
  : Async ToolResponse :=
  try_catch
    (if neither_given emails deleteAll then
       ret (json_error_response
              (JObj [("error", JStr "Either emails or deleteAll must be provided")]))
     else
       deleteBounces credentials (default [] emails) (Some (default false deleteAll)) ;;;
       ret (json_response
              (JObj [("success", JBool true);
                     ("message",
                      JStr (if default false deleteAll
                            then "All bounces deleted"
                            else length_text emails ++ " bounce(s) deleted"))])))
    (fun error => ret (formatError error)).

(** [sendgrid_delete_blocks] *)
Definition sendgrid_delete_blocks (emails : option (list string)) (deleteAll : option bool)
  : Async ToolResponse :=
  try_catch
    (if neither_given emails deleteAll then
       ret (json_error_response
              (JObj [("error", JStr "Either emails or deleteAll required")]))
     else
       deleteBlocks credentials (default [] emails) (Some (default false deleteAll)) ;;;
       ret (json_response
              (JObj [("success", JBool true); ("message", JStr "Blocks deleted")])))
    (fun error => ret (formatError error)).

(** [sendgrid_delete_spam_reports] *)
Definition sendgrid_delete_spam_reports (emails : option (list string))
           (deleteAll : option bool) : Async ToolResponse :=
  try_catch
    (if neither_given emails deleteAll then
       ret (json_error_response
              (JObj [("error", JStr "Either emails or deleteAll required")]))
     else
       deleteSpamReports credentials (default [] emails)
                         (Some (default false deleteAll)) ;;;
       ret (json_response
              (JObj [("success", JBool true); ("message", JStr "Spam reports deleted")])))
    (fun error => ret (formatError error)).

(** [sendgrid_delete_invalid_emails] *)
Definition sendgrid_delete_invalid_emails (emails : option (list string))
           (deleteAll : option bool) : Async ToolResponse :=
  try_catch
    (if neither_given emails deleteAll then
       ret (json_error_response
              (JObj [("error", JStr "Either emails or deleteAll required")]))
     else
       deleteInvalidEmails credentials (default [] emails)
                           (Some (default false deleteAll)) ;;;
       ret (json_response
              (JObj [("success", JBool true); ("message", JStr "Invalid emails deleted")])))
    (fun error => ret (formatError error)).

(** The destructive bulk-delete tools, by name. *)
Inductive BulkDeleteTool : Type :=
| DeleteContactsTool
| DeleteBouncesTool
| DeleteBlocksTool
| DeleteSpamReportsTool
| DeleteInvalidEmailsTool.

Definition run_bulk_delete (tool : BulkDeleteTool) (targets : option (list string))
           (deleteAll : option bool) : Async ToolResponse :=
  match tool with
  | DeleteContactsTool => sendgrid_delete_contacts targets deleteAll
  | DeleteBouncesTool => sendgrid_delete_bounces targets deleteAll
  | DeleteBlocksTool => sendgrid_delete_blocks targets deleteAll
  | DeleteSpamReportsTool => sendgrid_delete_spam_reports targets deleteAll
  | DeleteInvalidEmailsTool => sendgrid_delete_invalid_emails targets deleteAll
  end.

End Tools.

(* ================================================================== *)
(** * Vocabulary of the properties, and example data

    The predicates that single out the operations a property speaks
    about, the messages as the specification words them, and the concrete
    credentials, inputs and upstream responses used in the examples. *)
(* ================================================================== *)

(** The upstream that answers every request with [response]. *)
Definition answering (response : HttpResponse) : Upstream :=
  fun _ => Responded response.

(** The request that [request] hands to [fetch] for a tenant key. *)
Definition issued (key endpoint : string) (options : RequestInit) : HttpRequest :=
  {| req_url := API_BASE_URL ++ endpoint;
     req_method := init_method options;
     req_headers := ([("Authorization", ("Bearer " ++ key)%string);
                      ("Content-Type", "application/json")]
                     ++ init_headers options)%list;
     req_body := init_body options |}.

Definition demo_credentials : TenantCredentials := {| apiKey := Some "SG.demo-key" |}.

(** The fallback message, [`API error: ${response.status}`]. *)
Definition fallback_message (response : HttpResponse) : JsVal :=
  JStr ("API error: " ++ string_of_Z (status response)).

(** The message of the generic error as the specification words it: the
    join of the entries' messages when the parsed body has an [errors]
    array, else the top-level [message] field when the body has one, else
    the fallback. *)
Definition spec_error_message (response : HttpResponse) : JsVal :=
  match body response with
  | Parsed (JObj fs) =>
      match assoc "errors" fs with
      | Some (JArr es) =>
          match js_join ", " (map (fun e => prop e "message") es) with
          | Return joined => JStr joined
          | Throw _ => fallback_message response
          end
      | _ =>
          match assoc "message" fs with
          | Some m => m
          | None => fallback_message response
          end
      end
  | _ => fallback_message response
  end.

(** The values whose text the embedding gives exactly: strings,
    booleans, [null], [undefined], the integers below [2^53] in magnitude,
    arrays of such values, and objects without a [toString] property of
    their own. *)
Fixpoint has_text (v : JsVal) : bool :=
  match v with
  | JNum n => Z.abs n <? 9007199254740992
  | JArr l =>
      (fix all (l : list JsVal) : bool :=
         match l with
         | [] => true
         | x :: r => has_text x && all r
         end) l
  | JObj fs =>
      match assoc "toString" fs with
      | Some _ => false
      | None => true
      end
  | _ => true
  end.

(** [l.join(sep)] when it has a text. *)
Definition joined_text (sep : string) (l : list JsVal) : string :=
  match js_join sep l with
  | Return joined => joined
  | Throw _ => ""
  end.

Definition unprintable_error_response : HttpResponse :=
  {| status := 400; retry_after := None;
     body := Parsed (JObj [("errors",
               JArr [JObj [("message", JObj [("toString", JNum 1)])]])]) |}.

Definition huge_retry_response : HttpResponse :=
  {| status := 429; retry_after := Some "9007199254740993"; body := EmptyText |}.

Definition dated_retry_response : HttpResponse :=
  {| status := 429; retry_after := Some "Wed, 21 Oct 2015 07:28:00 GMT";
     body := EmptyText |}.

Definition object_result_response : HttpResponse :=
  {| status := 200; retry_after := None;
     body := Parsed (JObj [("result", JObj [("a", JNum 1)])]) |}.

Definition empty_message_response : HttpResponse :=
  {| status := 400; retry_after := None;
     body := Parsed (JObj [("message", JStr "")]) |}.

Definition two_errors_response : HttpResponse :=
  {| status := 400; retry_after := None;
     body := Parsed (JObj [("errors",
               JArr [JObj [("message", JStr "Bad from address")];
                     JObj [("message", JStr "Missing subject")]])]) |}.

(** The operations that return a Paginated Result. *)
Definition paginated (op : Operation) : bool :=
  match op with
  | ListContacts _ | SearchContacts _ | ListContactLists | ListSegments _
  | ListTemplates _ _ _ | ListSingleSends _ | ListSenderIdentities
  | ListBounces _ _ _ _ | ListBlocks _ _ _ _ | ListSpamReports _ _ _ _
  | ListInvalidEmails _ _ _ _ | ListGlobalSuppressions _ _ _ _
  | ListApiKeys | ListDesigns _ _ => true
  | _ => false
  end.

Definition two_contacts : list JsVal :=
  [JObj [("id", JStr "c1"); ("email", JStr "a@example.com")];
   JObj [("id", JStr "c2"); ("email", JStr "b@example.com")]].

Definition two_contacts_response : HttpResponse :=
  {| status := 200; retry_after := None;
     body := Parsed (JObj [("result", JArr two_contacts); ("contact_count", JNum 2)]) |}.

Definition two_contacts_page : JsVal :=
  JObj [("items", JArr two_contacts); ("count", JNum 2); ("total", JNum 2);
        ("hasMore", JBool false); ("nextPageToken", JUndefined)].

Definition no_engine_message : Exn -> string := fun _ => "".

(** The list operations without a cursor that report no further page. *)
Definition plain_list (op : Operation) : bool :=
  match op with
  | ListContactLists | ListSegments _ | ListSingleSends _ | SearchContacts _
  | ListApiKeys | ListSenderIdentities => true
  | _ => false
  end.

(** The suppression list operations, paged by [limit] and [offset], with
    the limit in force. *)
Definition page_limit (op : Operation) : option Z :=
  match op with
  | ListBounces _ _ limit _ | ListBlocks _ _ limit _ | ListSpamReports _ _ limit _
  | ListInvalidEmails _ _ limit _ | ListGlobalSuppressions _ _ limit _ =>
      Some (default 500 limit)
  | _ => None
  end.

Definition one_bounce_response : HttpResponse :=
  {| status := 200; retry_after := None;
     body := Parsed (JArr [JObj [("email", JStr "a@example.com");
                                 ("created", JNum 1700000000);
                                 ("reason", JStr "550 mailbox unavailable");
                                 ("status", JStr "5.1.1")]]) |}.

(** The operations whose whole body sits in a [try] with a bare [catch]. *)
Definition catches_everything (op : Operation) : bool :=
  match op with
  | TestConnection | GetContactByEmail _ | GetGlobalSuppression _
  | ValidateBatchId _ => true
  | _ => false
  end.

Definition unauthorized_response : HttpResponse :=
  {| status := 401; retry_after := None;
     body := Parsed (JObj [("errors",
               JArr [JObj [("message", JStr "The provided authorization grant is invalid")]])]) |}.

Definition throttled_response : HttpResponse :=
  {| status := 429; retry_after := Some "30"; body := EmptyText |}.

Definition is_lower_snake_char (c : ascii) : bool :=
  let n := nat_of_ascii c in
  (((97 <=? n) && (n <=? 122)) || ((48 <=? n) && (n <=? 57)) || (n =? 95))%nat.

(** A name in the upstream convention: lower-case letters, digits and
    underscores. *)
Fixpoint is_lower_snake (s : string) : bool :=
  match s with
  | EmptyString => true
  | String c r => is_lower_snake_char c && is_lower_snake r
  end.

(** A name in the callers' convention: no underscore. *)
Fixpoint is_camel (s : string) : bool :=
  match s with
  | EmptyString => true
  | String c r => negb (Ascii.eqb c "_") && is_camel r
  end.

Definition teammate_invitation : JsVal :=
  JObj [("email", JStr "new@example.com");
        ("scopes", JArr [JStr "mail.send"]);
        ("isAdmin", JBool true)].

Definition templated_email : JsVal :=
  JObj [("personalizations",
         JArr [JObj [("to", JArr [JObj [("email", JStr "a@example.com")]])]]);
        ("from", JObj [("email", JStr "b@example.com"); ("name", JUndefined)]);
        ("subject", JUndefined);
        ("content", JUndefined);
        ("templateId", JStr "d-0123456789");
        ("replyTo", JUndefined);
        ("categories", JUndefined);
        ("sendAt", JNum 1700000000);
        ("attachments", JUndefined)].

Definition accepted_response : HttpResponse :=
  {| status := 202; retry_after := None; body := EmptyText |}.

Definition segment_input : JsVal :=
  JObj [("name", JStr "VIP"); ("queryDsl", JStr "SELECT contact_id FROM contact_data");
        ("parentListIds", JUndefined)].

Definition segment_created_response : HttpResponse :=
  {| status := 201; retry_after := None;
     body := Parsed (JObj [("id", JStr "seg-1"); ("name", JStr "VIP");
                           ("contacts_count", JNum 0);
                           ("query_dsl", JStr "SELECT contact_id FROM contact_data")]) |}.

Definition empty_body_response : HttpResponse :=
  {| status := 200; retry_after := None; body := EmptyText |}.

Definition empty_array_response : HttpResponse :=
  {| status := 200; retry_after := None; body := Parsed (JArr []) |}.

(** The text of the local validation error of each tool. *)
Definition validation_message (tool : BulkDeleteTool) : string :=
  match tool with
  | DeleteContactsTool => "Either ids or deleteAll must be provided"
  | DeleteBouncesTool => "Either emails or deleteAll must be provided"
  | DeleteBlocksTool | DeleteSpamReportsTool | DeleteInvalidEmailsTool =>
      "Either emails or deleteAll required"
  end.

(** The text that the specification gives for all of them, with the name
    of the tool's own argument. *)
Definition spec_validation_message (tool : BulkDeleteTool) : string :=
  match tool with
  | DeleteContactsTool => "Either ids or deleteAll must be provided"
  | _ => "Either emails or deleteAll must be provided"
  end.

Definition no_details : Exn -> JsVal := fun _ => JUndefined.

(* ================================================================== *)
(** * Further vocabulary for the client operations *)
(* ================================================================== *)

(** The message of the error raised when the tenant has no API key. *)
Definition no_key_error : Exn :=
  Classified (AuthenticationError
                "No API key provided. Include X-SendGrid-API-Key header.").

(** The list operations that surface the upstream cursor. *)
Definition cursor_list (op : Operation) : bool :=
  match op with
  | ListContacts _ | ListTemplates _ _ _ | ListDesigns _ _ => true
  | _ => false
  end.

(** The four suppression lists with a bulk delete. *)
Inductive SuppressionList : Type :=
| Bounces
| Blocks
| SpamReports
| InvalidEmails.

Definition suppression_path (k : SuppressionList) : string :=
  match k with
  | Bounces => "/suppression/bounces"
  | Blocks => "/suppression/blocks"
  | SpamReports => "/suppression/spam_reports"
  | InvalidEmails => "/suppression/invalid_emails"
  end.

(** [deleteBounces], [deleteBlocks], [deleteSpamReports], [deleteInvalidEmails]. *)
Definition delete_suppressions (creds : TenantCredentials) (k : SuppressionList)
  : list string -> option bool -> Async JsVal :=
  match k with
  | Bounces => deleteBounces creds
  | Blocks => deleteBlocks creds
  | SpamReports => deleteSpamReports creds
  | InvalidEmails => deleteInvalidEmails creds
  end.

(** The operations that read a field of the parsed response without a
    guard ([result.job_id], [result.result], ...). *)
Definition reads_result_field (op : Operation) : bool :=
  match op with
  | ListContacts _ | AddOrUpdateContacts _ _ | DeleteContacts _ _ | SearchContacts _
  | GetContactCount | ListContactLists | GetContactListCount _
  | AddContactsToList _ _ | RemoveContactsFromList _ _ | ListSegments _
  | ListCustomFields | ListTemplates _ _ _ | ListSingleSends _
  | SearchGroupSuppressions _ | ListApiKeys | ValidateDomain _
  | ValidateBrandedLink _ | ListTeammates _ _ | ListInboundParseWebhooks
  | CreateBatchId | GetScheduledSend _ | ListDesigns _ _ => true
  | _ => false
  end.

(** The list operations that guard the whole response ([result || []]). *)
Definition guards_whole_result (op : Operation) : bool :=
  match op with
  | ListSenderIdentities | ListBounces _ _ _ _ | ListBlocks _ _ _ _
  | ListSpamReports _ _ _ _ | ListInvalidEmails _ _ _ _
  | ListGlobalSuppressions _ _ _ _ | ListGroupSuppressions _ => true
  | _ => false
  end.

(** An asynchronous computation that issues no request. *)
Definition silent {A} (m : Async A) : Prop := forall up, requests_of (m up) = [].

Definition no_content_response : HttpResponse :=
  {| status := 204; retry_after := None; body := EmptyText |}.

Definition forbidden_response : HttpResponse :=
  {| status := 403; retry_after := Some "5";
     body := Parsed (JObj [("errors", JArr [JObj [("message", JStr "access forbidden")]])]) |}.

Definition no_credentials : TenantCredentials := {| apiKey := None |}.

Definition next_page_response : HttpResponse :=
  {| status := 200; retry_after := None;
     body := Parsed (JObj [("result", JArr two_contacts);
                           ("_metadata", JObj [("next", JStr "tok-2")])]) |}.

(** The bytes that the query-string serialiser leaves as they are. *)
Definition unreserved_byte (c : ascii) : bool :=
  let n := nat_of_ascii c in
  (((48 <=? n) && (n <=? 57)) || ((65 <=? n) && (n <=? 90))
   || ((97 <=? n) && (n <=? 122))
   || (n =? 42) || (n =? 45) || (n =? 46) || (n =? 95))%nat.

Fixpoint unreserved (s : string) : bool :=
  match s with
  | EmptyString => true
  | String c r => unreserved_byte c && unreserved r
  end.

(* ================================================================== *)
(** * Environment bindings and the Worker entry point *)
(* ================================================================== *)

(** What the entry point reads of an incoming [Request]: the path of its
    URL, its method and its headers ([request.headers.get]). *)
Record WorkerRequest : Type := {
  pathname : string;
  request_method : string;
  header : string -> option string
}.

(** [parseTenantCredentials]: [headers.get('X-SendGrid-API-Key') ||
    undefined]. *)
Definition parseTenantCredentials (request : WorkerRequest) : TenantCredentials :=
  {| apiKey := match header request "X-SendGrid-API-Key" with
               | Some v => if String.eqb v "" then None else Some v
               | None => None
               end |}.

(** The outcome of a check that returns nothing or throws a plain
    [Error], given by its message. *)
Inductive Checked : Type :=
| Passed
| Failed (message : string).

(** [validateCredentials] *)
Definition validateCredentials (credentials : TenantCredentials) : Checked :=
  match apiKey credentials with
  | Some key =>
      if String.eqb key ""
      then Failed "Missing credentials. Provide X-SendGrid-API-Key header."
      else Passed
  | None => Failed "Missing credentials. Provide X-SendGrid-API-Key header."
  end.

(** The environment of the Worker: three configuration values and the
    optional cache binding, as they are at run time. *)
Record Env : Type := {
  CHARACTER_LIMIT : JsVal;
  DEFAULT_PAGE_SIZE : JsVal;
  MAX_PAGE_SIZE : JsVal;
  CACHE_KV : JsVal
}.

Inductive EnvKey : Type :=
| Key_CHARACTER_LIMIT
| Key_DEFAULT_PAGE_SIZE
| Key_MAX_PAGE_SIZE
| Key_CACHE_KV.

(** [env[key]] *)
Definition env_get (env : Env) (key : EnvKey) : JsVal :=
  match key with
  | Key_CHARACTER_LIMIT => CHARACTER_LIMIT env
  | Key_DEFAULT_PAGE_SIZE => DEFAULT_PAGE_SIZE env
  | Key_MAX_PAGE_SIZE => MAX_PAGE_SIZE env
  | Key_CACHE_KV => CACHE_KV env
  end.

(** [getEnvNumber]; the result is a number, which [parseInt] may have
    made an infinity. *)
Definition getEnvNumber (env : Env) (key : EnvKey) (defaultValue : Z) : ParsedInt :=
  let value := env_get env key in
  match value with
  | JStr s =>
      let parsed := parseInt s in
      match parsed with
      | NaN => IntValue defaultValue
      | _ => parsed
      end
  | _ => IntValue defaultValue
  end.

Definition getCharacterLimit (env : Env) : ParsedInt :=
  getEnvNumber env Key_CHARACTER_LIMIT 50000.

Definition getDefaultPageSize (env : Env) : ParsedInt :=
  getEnvNumber env Key_DEFAULT_PAGE_SIZE 20.

Definition getMaxPageSize (env : Env) : ParsedInt :=
  getEnvNumber env Key_MAX_PAGE_SIZE 100.

Definition SERVER_NAME : string := "primrose-mcp-sendgrid".
Definition SERVER_VERSION : string := "1.0.0".

(** The text of a Worker response: that of [JSON.stringify(v)], given by
    the value it denotes, or a plain text. *)
Inductive ResponseText : Type :=
| JsonOf (v : option JsVal)
| PlainText (s : string).

Record WorkerResponse : Type := {
  response_status : Z;
  response_content_type : option string;
  response_text : ResponseText
}.

(** The document that describes the server, returned for every other
    path. *)
Definition server_info : JsVal :=
  JObj
    [("name", JStr "primrose-mcp-sendgrid");
     ("version", JStr "1.0.0");
     ("description", JStr "SendGrid MCP Server - Comprehensive email API integration");
     ("endpoints", JObj
        [("mcp", JStr "/mcp (POST) - Streamable HTTP MCP endpoint");
         ("health", JStr "/health - Health check")]);
     ("authentication", JObj
        [("description", JStr "Pass SendGrid API key via request header");
         ("required_headers", JObj [("X-SendGrid-API-Key", JStr "Your SendGrid API key")])]);
     ("tools", JObj
        [("mail", JArr
            [JStr "sendgrid_send_email";
             JStr "sendgrid_send_batch_email";
             JStr "sendgrid_create_batch_id";
             JStr "sendgrid_validate_batch_id";
             JStr "sendgrid_list_scheduled_sends";
             JStr "sendgrid_cancel_scheduled_send";
             JStr "sendgrid_pause_scheduled_send"]);
         ("contacts", JArr
            [JStr "sendgrid_list_contacts";
             JStr "sendgrid_get_contact";
             JStr "sendgrid_get_contact_by_email";
             JStr "sendgrid_add_contacts";
             JStr "sendgrid_delete_contacts";
             JStr "sendgrid_search_contacts";
             JStr "sendgrid_get_contact_count"]);
         ("lists", JArr
            [JStr "sendgrid_list_contact_lists";
             JStr "sendgrid_get_contact_list";
             JStr "sendgrid_create_contact_list";
             JStr "sendgrid_update_contact_list";
             JStr "sendgrid_delete_contact_list";
             JStr "sendgrid_get_list_contact_count";
             JStr "sendgrid_add_contacts_to_list";
             JStr "sendgrid_remove_contacts_from_list"]);
         ("segments", JArr
            [JStr "sendgrid_list_segments";
             JStr "sendgrid_get_segment";
             JStr "sendgrid_create_segment";
             JStr "sendgrid_update_segment";
             JStr "sendgrid_delete_segment"]);
         ("templates", JArr
            [JStr "sendgrid_list_templates";
             JStr "sendgrid_get_template";
             JStr "sendgrid_create_template";
             JStr "sendgrid_update_template";
             JStr "sendgrid_delete_template";
             JStr "sendgrid_duplicate_template";
             JStr "sendgrid_create_template_version";
             JStr "sendgrid_get_template_version";
             JStr "sendgrid_update_template_version";
             JStr "sendgrid_delete_template_version";
             JStr "sendgrid_activate_template_version"]);
         ("campaigns", JArr
            [JStr "sendgrid_list_single_sends";
             JStr "sendgrid_get_single_send";
             JStr "sendgrid_create_single_send";
             JStr "sendgrid_update_single_send";
             JStr "sendgrid_delete_single_send";
             JStr "sendgrid_schedule_single_send";
             JStr "sendgrid_cancel_single_send_schedule";
             JStr "sendgrid_send_single_send_now"]);
         ("stats", JArr
            [JStr "sendgrid_get_stats";
             JStr "sendgrid_get_category_stats";
             JStr "sendgrid_get_mailbox_provider_stats";
             JStr "sendgrid_get_browser_stats";
             JStr "sendgrid_get_device_stats";
             JStr "sendgrid_get_geography_stats"]);
         ("suppressions", JArr
            [JStr "sendgrid_list_bounces";
             JStr "sendgrid_get_bounce";
             JStr "sendgrid_delete_bounces";
             JStr "sendgrid_list_blocks";
             JStr "sendgrid_delete_blocks";
             JStr "sendgrid_list_spam_reports";
             JStr "sendgrid_delete_spam_reports";
             JStr "sendgrid_list_invalid_emails";
             JStr "sendgrid_delete_invalid_emails";
             JStr "sendgrid_list_global_unsubscribes";
             JStr "sendgrid_add_global_unsubscribe";
             JStr "sendgrid_delete_global_unsubscribe"]);
         ("unsubscribeGroups", JArr
            [JStr "sendgrid_list_unsubscribe_groups";
             JStr "sendgrid_get_unsubscribe_group";
             JStr "sendgrid_create_unsubscribe_group";
             JStr "sendgrid_update_unsubscribe_group";
             JStr "sendgrid_delete_unsubscribe_group";
             JStr "sendgrid_list_group_suppressions";
             JStr "sendgrid_add_group_suppressions";
             JStr "sendgrid_delete_group_suppression";
             JStr "sendgrid_search_group_suppressions"]);
         ("senders", JArr
            [JStr "sendgrid_list_senders";
             JStr "sendgrid_get_sender";
             JStr "sendgrid_create_sender";
             JStr "sendgrid_update_sender";
             JStr "sendgrid_delete_sender";
             JStr "sendgrid_resend_sender_verification"]);
         ("apiKeys", JArr
            [JStr "sendgrid_list_api_keys";
             JStr "sendgrid_get_api_key";
             JStr "sendgrid_create_api_key";
             JStr "sendgrid_update_api_key";
             JStr "sendgrid_delete_api_key"]);
         ("webhooks", JArr
            [JStr "sendgrid_get_event_webhook";
             JStr "sendgrid_update_event_webhook";
             JStr "sendgrid_test_event_webhook";
             JStr "sendgrid_list_inbound_parse_webhooks";
             JStr "sendgrid_get_inbound_parse_webhook";
             JStr "sendgrid_create_inbound_parse_webhook";
             JStr "sendgrid_update_inbound_parse_webhook";
             JStr "sendgrid_delete_inbound_parse_webhook"]);
         ("domainAuth", JArr
            [JStr "sendgrid_list_authenticated_domains";
             JStr "sendgrid_get_authenticated_domain";
             JStr "sendgrid_authenticate_domain";
             JStr "sendgrid_validate_domain";
             JStr "sendgrid_delete_authenticated_domain";
             JStr "sendgrid_list_branded_links";
             JStr "sendgrid_get_branded_link";
             JStr "sendgrid_create_branded_link";
             JStr "sendgrid_validate_branded_link";
             JStr "sendgrid_delete_branded_link"]);
         ("ipManagement", JArr
            [JStr "sendgrid_list_ips";
             JStr "sendgrid_get_ip";
             JStr "sendgrid_list_ip_pools";
             JStr "sendgrid_get_ip_pool";
             JStr "sendgrid_create_ip_pool";
             JStr "sendgrid_update_ip_pool";
             JStr "sendgrid_delete_ip_pool";
             JStr "sendgrid_add_ip_to_pool";
             JStr "sendgrid_remove_ip_from_pool";
             JStr "sendgrid_list_ip_warmup";
             JStr "sendgrid_start_ip_warmup";
             JStr "sendgrid_stop_ip_warmup"]);
         ("subusers", JArr
            [JStr "sendgrid_list_subusers";
             JStr "sendgrid_get_subuser";
             JStr "sendgrid_create_subuser";
             JStr "sendgrid_delete_subuser";
             JStr "sendgrid_enable_subuser";
             JStr "sendgrid_disable_subuser"]);
         ("teammates", JArr
            [JStr "sendgrid_list_teammates";
             JStr "sendgrid_get_teammate";
             JStr "sendgrid_invite_teammate";
             JStr "sendgrid_update_teammate_permissions";
             JStr "sendgrid_delete_teammate"]);
         ("validation", JArr [JStr "sendgrid_validate_email"]);
         ("alerts", JArr
            [JStr "sendgrid_list_alerts";
             JStr "sendgrid_get_alert";
             JStr "sendgrid_create_alert";
             JStr "sendgrid_update_alert";
             JStr "sendgrid_delete_alert"]);
         ("designs", JArr
            [JStr "sendgrid_list_designs";
             JStr "sendgrid_get_design";
             JStr "sendgrid_create_design";
             JStr "sendgrid_update_design";
             JStr "sendgrid_delete_design";
             JStr "sendgrid_duplicate_design"]);
         ("customFields", JArr
            [JStr "sendgrid_list_custom_fields";
             JStr "sendgrid_create_custom_field";
             JStr "sendgrid_update_custom_field";
             JStr "sendgrid_delete_custom_field"]);
         ("utility", JArr [JStr "sendgrid_test_connection"])])].

Section Worker.

(** [createMcpHandler(createStatelessServer(credentials))], of the MCP
    SDK: what the protocol handler answers to a request, for the server
    built with the tenant's credentials. *)
Variable mcp_handler : TenantCredentials -> WorkerRequest -> WorkerResponse.

(** The [fetch] handler of the Worker. *)
Definition worker_fetch (request : WorkerRequest) : WorkerResponse :=
  if String.eqb (pathname request) "/health" then
    {| response_status := 200;
       response_content_type := Some "application/json";
       response_text :=
         JsonOf (JSON_stringify (JObj [("status", JStr "ok");
                                       ("server", JStr SERVER_NAME)])) |}
  else if String.eqb (pathname request) "/mcp"
          && String.eqb (request_method request) "POST" then
    let credentials := parseTenantCredentials request in
    match validateCredentials credentials with
    | Failed message =>
        {| response_status := 401;
           response_content_type := Some "application/json";
           response_text :=
             JsonOf (JSON_stringify
                       (JObj [("error", JStr "Unauthorized");
                              ("message", JStr message);
                              ("required_headers",
                               JArr [JStr "X-SendGrid-API-Key"])])) |}
    | Passed => mcp_handler credentials request
    end
  else if String.eqb (pathname request) "/sse" then
    {| response_status := 501;
       response_content_type := None;
       response_text :=
         PlainText "SSE endpoint requires Durable Objects. Enable in wrangler.jsonc." |}
  else
    {| response_status := 200;
       response_content_type := Some "application/json";
       response_text := JsonOf (JSON_stringify server_info) |}.

End Worker.

(** The key that a request presents, if it presents one. *)
Definition presented_key (request : WorkerRequest) : option string :=
  apiKey (parseTenantCredentials request).

(** The requests that reach the MCP protocol handler. *)
Definition reaches_mcp (request : WorkerRequest) : bool :=
  String.eqb (pathname request) "/mcp"
  && String.eqb (request_method request) "POST"
  && match presented_key request with Some _ => true | None => false end.

Definition keyed_headers (key : string) : string -> option string :=
  fun name => if String.eqb name "X-SendGrid-API-Key" then Some key else None.

Definition mcp_post (key : string) : WorkerRequest :=
  {| pathname := "/mcp"; request_method := "POST"; header := keyed_headers key |}.

Definition echo_handler (c : TenantCredentials) (r : WorkerRequest) : WorkerResponse :=
  {| response_status := 200; response_content_type := None;
     response_text := PlainText (match apiKey c with Some k => k | None => "" end) |}.

Definition unit_handler (c : TenantCredentials) (r : WorkerRequest) : WorkerResponse :=
  {| response_status := 200; response_content_type := None; response_text := PlainText "" |}.

(* ================================================================== *)
(** * Further tool handlers: contacts, custom fields, suppressions, mail *)
(* ================================================================== *)

(** [({ email })] *)
Definition email_object (email : string) : JsVal := JObj [("email", JStr email)].

(** The [content] array that the mail tools build from [text] and
    [html]. *)
Definition mail_content (text html : option string) : list JsVal :=
  ((if given_str text
    then [JObj [("type", JStr "text/plain"); ("value", JStr (the_str text))]]
    else [])
   ++ (if given_str html
       then [JObj [("type", JStr "text/html"); ("value", JStr (the_str html))]]
       else []))%list.

(** [content.length > 0 ? content : undefined] *)
Definition content_or_undefined (content : list JsVal) : JsVal :=
  match content with
  | [] => JUndefined
  | _ => JArr content
  end.

Definition opt_num (o : option Z) : JsVal :=
  match o with Some n => JNum n | None => JUndefined end.

Definition opt_val (o : option JsVal) : JsVal :=
  match o with Some v => v | None => JUndefined end.

(** [xs?.map((email) => ({ email }))] *)
Definition opt_email_objects (o : option (list string)) : JsVal :=
  match o with
  | Some l => JArr (map email_object l)
  | None => JUndefined
  end.

(** The attachment that [sendgrid_send_email] passes on. *)
Definition attachment_object (a : JsVal) : JsVal :=
  JObj [("content", prop a "content");
        ("filename", prop a "filename");
        ("type", prop a "type");
        ("disposition", prop a "disposition")].

(** The personalization that [sendgrid_send_email] builds. *)
Definition single_personalization (to : list string) (cc bcc : option (list string))
           (dynamicTemplateData : option JsVal) : JsVal :=
  let personalization := [("to", JArr (map email_object to))] in
  let personalization :=
    match cc with
    | Some l => assoc_set "cc" (JArr (map email_object l)) personalization
    | None => personalization
    end in
  let personalization :=
    match bcc with
    | Some l => assoc_set "bcc" (JArr (map email_object l)) personalization
    | None => personalization
    end in
  let personalization :=
    assign_if (truthy (opt_val dynamicTemplateData))
              "dynamicTemplateData" (opt_val dynamicTemplateData) personalization in
  JObj personalization.

(** The input that [sendgrid_send_email] hands to [client.sendEmail]. *)
Definition send_email_input (to : list string) (from : string)
           (fromName subject text html templateId : option string)
           (dynamicTemplateData : option JsVal) (cc bcc : option (list string))
           (replyTo : option string) (categories : option (list string))
           (sendAt : option Z) (attachments : option (list JsVal)) : JsVal :=
  let content := mail_content text html in
  JObj [("personalizations",
         JArr [single_personalization to cc bcc dynamicTemplateData]);
        ("from", JObj [("email", JStr from); ("name", opt_str fromName)]);
        ("subject", opt_str subject);
        ("content", content_or_undefined content);
        ("templateId", opt_str templateId);
        ("replyTo", if given_str replyTo
                    then JObj [("email", JStr (the_str replyTo))] else JUndefined);
        ("categories", opt_str_array categories);
        ("sendAt", opt_num sendAt);
        ("attachments", match attachments with
                        | Some l => JArr (map attachment_object l)
                        | None => JUndefined
                        end)].

(** A personalization of [sendgrid_send_batch_email], as validated by the
    schema: [to], and optionally [cc], [bcc], [subject],
    [dynamicTemplateData]. *)
Record BatchPersonalization : Type := {
  p_to : list string;
  p_cc : option (list string);
  p_bcc : option (list string);
  p_subject : option string;
  p_dynamicTemplateData : option JsVal
}.

Definition batch_personalization (p : BatchPersonalization) : JsVal :=
  JObj [("to", JArr (map email_object (p_to p)));
        ("cc", opt_email_objects (p_cc p));
        ("bcc", opt_email_objects (p_bcc p));
        ("subject", opt_str (p_subject p));
        ("dynamicTemplateData", opt_val (p_dynamicTemplateData p))].

(** The input that [sendgrid_send_batch_email] hands to
    [client.sendEmail]. *)
Definition send_batch_email_input (from : string)
           (fromName subject text html templateId : option string)
           (personalizations : list BatchPersonalization)
           (categories : option (list string)) (sendAt : option Z) : JsVal :=
  let content := mail_content text html in
  JObj [("personalizations", JArr (map batch_personalization personalizations));
        ("from", JObj [("email", JStr from); ("name", opt_str fromName)]);
        ("subject", opt_str subject);
        ("content", content_or_undefined content);
        ("templateId", opt_str templateId);
        ("categories", opt_str_array categories);
        ("sendAt", opt_num sendAt)].

(** The contact that [sendgrid_add_contacts] passes on. *)
Definition contact_input (c : JsVal) : JsVal :=
  JObj [("email", prop c "email");
        ("firstName", prop c "firstName");
        ("lastName", prop c "lastName");
        ("phone", prop c "phone");
        ("addressLine1", prop c "addressLine1");
        ("addressLine2", prop c "addressLine2");
        ("city", prop c "city");
        ("stateProvinceRegion", prop c "stateProvinceRegion");
        ("postalCode", prop c "postalCode");
        ("country", prop c "country");
        ("customFields", prop c "customFields")].

(** What a tool handler returns: an envelope whose text is a JSON text,
    or an envelope whose text is a plain string. *)
Inductive ToolOutput : Type :=
| JsonEnvelope (r : ToolResponse)
| TextEnvelope (plain : string) (error_flag : option bool).

Definition output_is_error (o : ToolOutput) : option bool :=
  match o with
  | JsonEnvelope r => isError r
  | TextEnvelope _ e => e
  end.

Section MoreTools.

Variable credentials : TenantCredentials.
Variable engine_message : Exn -> string.
Variable formatErrorForLogging : Exn -> JsVal.

(** [catch (error) { return formatError(error); }] *)
Definition caught (error : Exn) : Async ToolResponse :=
  ret (formatError engine_message formatErrorForLogging error).

(** ** Contact tools *)

Definition sendgrid_get_contact_by_email (email : string) : Async ToolResponse :=
  try_catch
    (contact <- getContactByEmail credentials email ;;
     if negb (truthy contact) then
       ret (json_response
              (JObj [("found", JBool false);
                     ("message", JStr ("No contact found with email " ++ email))]))
     else
       ret (json_response (JObj [("found", JBool true); ("contact", contact)])))
    caught.

Definition sendgrid_add_contacts (contacts : list JsVal) (listIds : option (list string))
  : Async ToolResponse :=
  try_catch
    (result <- addOrUpdateContacts credentials (JArr (map contact_input contacts)) listIds ;;
     ret (json_response
            (JObj (spread
                     [("success", JBool true);
                      ("message",
                       JStr (string_of_Z (Zlength_of contacts)
                             ++ " contact(s) queued for import"))]
                     (own_fields result)))))
    caught.

Definition sendgrid_get_contact_count : Async ToolResponse :=
  try_catch
    (result <- getContactCount credentials ;;
     ret (json_response result))
    caught.

(** ** Custom field tools *)

Definition sendgrid_list_custom_fields : Async ToolResponse :=
  try_catch
    (fields <- listCustomFields credentials ;;
     ret (json_response (JObj [("customFields", fields)])))
    caught.

Definition sendgrid_create_custom_field (name fieldType : string) : Async ToolResponse :=
  try_catch
    (field <- createCustomField credentials
                (JObj [("name", JStr name); ("fieldType", JStr fieldType)]) ;;
     ret (json_response
            (JObj [("success", JBool true);
                   ("message", JStr "Custom field created");
                   ("field", field)])))
    caught.

Definition sendgrid_update_custom_field (id name : string) : Async ToolResponse :=
  try_catch
    (field <- updateCustomField credentials id name ;;
     ret (json_response
            (JObj [("success", JBool true);
                   ("message", JStr "Custom field updated");
                   ("field", field)])))
    caught.

Definition sendgrid_delete_custom_field (id : string) : Async ToolResponse :=
  try_catch
    (deleteCustomField credentials id ;;;
     ret (json_response
            (JObj [("success", JBool true);
                   ("message", JStr ("Custom field " ++ id ++ " deleted"))])))
    caught.

(** ** Suppression tools *)

Definition sendgrid_get_bounce (email : string) : Async ToolResponse :=
  try_catch
    (bounces <- getBounce credentials email ;;
     ret (json_response (JObj [("email", JStr email); ("bounces", bounces)])))
    caught.

Definition sendgrid_add_global_unsubscribe (emails : list string) : Async ToolResponse :=
  try_catch
    (addGlobalSuppression credentials emails ;;;
     ret (json_response
            (JObj [("success", JBool true);
                   ("message",
                    JStr (string_of_Z (Zlength_of emails)
                          ++ " email(s) added to global unsubscribe"))])))
    caught.

Definition sendgrid_delete_global_unsubscribe (email : string) : Async ToolResponse :=
  try_catch
    (deleteGlobalSuppression credentials email ;;;
     ret (json_response
            (JObj [("success", JBool true);
                   ("message", JStr (email ++ " removed from global unsubscribe"))])))
    caught.

(** ** Mail tools *)

Definition sendgrid_send_email (to : list string) (from : string)
           (fromName subject text html templateId : option string)
           (dynamicTemplateData : option JsVal) (cc bcc : option (list string))
           (replyTo : option string) (categories : option (list string))
           (sendAt : option Z) (attachments : option (list JsVal)) : Async ToolResponse :=
  try_catch
    (result <- sendEmail credentials
                 (send_email_input to from fromName subject text html templateId
                                   dynamicTemplateData cc bcc replyTo categories
                                   sendAt attachments) ;;
     ret (json_response
            (JObj (spread
                     [("success", JBool true);
                      ("message", JStr "Email accepted for delivery")]
                     (own_fields result)))))
    caught.

Definition sendgrid_send_batch_email (from : string)
           (fromName subject text html templateId : option string)
           (personalizations : list BatchPersonalization)
           (categories : option (list string)) (sendAt : option Z) : Async ToolResponse :=
  try_catch
    (result <- sendEmail credentials
                 (send_batch_email_input from fromName subject text html templateId
                                         personalizations categories sendAt) ;;
     ret (json_response
            (JObj (spread
                     [("success", JBool true);
                      ("message",
                       JStr ("Batch email to "
                             ++ string_of_Z (Zlength_of personalizations)
                             ++ " recipients accepted"))]
                     (own_fields result)))))
    caught.

Definition sendgrid_create_batch_id : Async ToolResponse :=
  try_catch
    (result <- createBatchId credentials ;;
     ret (json_response (JObj (spread [("success", JBool true)] (own_fields result)))))
    caught.

Definition sendgrid_validate_batch_id (batchId : string) : Async ToolResponse :=
  try_catch
    (result <- validateBatchId credentials batchId ;;
     ret (json_response
            (JObj (spread [("success", JBool true); ("batchId", JStr batchId)]
                          (own_fields result)))))
    caught.

Definition sendgrid_list_scheduled_sends : Async ToolResponse :=
  try_catch
    (result <- listScheduledSends credentials ;;
     ret (json_response (JObj [("success", JBool true); ("scheduledSends", result)])))
    caught.

Definition sendgrid_cancel_scheduled_send (batchId : string) : Async ToolResponse :=
  try_catch
    (cancelScheduledSend credentials batchId ;;;
     ret (json_response
            (JObj [("success", JBool true);
                   ("message", JStr ("Scheduled send " ++ batchId ++ " cancelled"))])))
    caught.

Definition sendgrid_pause_scheduled_send (batchId : string) : Async ToolResponse :=
  try_catch
    (pauseScheduledSend credentials batchId ;;;
     ret (json_response
            (JObj [("success", JBool true);
                   ("message", JStr ("Scheduled send " ++ batchId ++ " paused"))])))
    caught.

(** ** The connection test of the entry point *)

Definition sendgrid_test_connection : Async ToolOutput :=
  try_catch
    (result <- testConnection credentials engine_message ;;
     ret (JsonEnvelope (json_response result)))
    (fun error =>
       ret (TextEnvelope ("Connection failed: " ++ exn_message engine_message error)
                         (Some true))).

End MoreTools.

(* ================================================================== *)
(** * Markdown rendering ([utils/formatters.ts]) *)
(* ================================================================== *)

(** The exceptions of the formatters: those of the engine, and the
    [RangeError] that [toISOString] raises for a time that is not a valid
    date. *)
Inductive Raised : Type :=
| Engine (x : Exn)
| RangeError.

Inductive Rendered (A : Type) : Type :=
| Done (a : A)
| Raise (e : Raised).
Arguments Done {A} a.
Arguments Raise {A} e.

Definition rbind {A B} (r : Rendered A) (k : A -> Rendered B) : Rendered B :=
  match r with
  | Done a => k a
  | Raise e => Raise e
  end.

Declare Scope rendered_scope.
Delimit Scope rendered_scope with rendered.
Notation "x <~ m ;; k" := (rbind m (fun x => k))
  (at level 61, m at next level, right associativity) : rendered_scope.
Local Open Scope rendered_scope.

Definition engine {A} (o : Outcome A) : Rendered A :=
  match o with
  | Return a => Done a
  | Throw x => Raise (Engine x)
  end.

(** [v.k] *)
Definition field (v : JsVal) (k : string) : Rendered JsVal := engine (js_get v k).

Definition newline : string := String (ascii_of_nat 10) EmptyString.

(** [lines.join('\n')] *)
Definition join_lines (lines : list string) : string := String.concat newline lines.

(** [`${v}`] *)
Definition tpl (v : JsVal) : Rendered string := engine (js_to_string v).

(** [`${v || '-'}`] *)
Definition or_dash (v : JsVal) : Rendered string := tpl (js_or v (JStr "-")).

(** [v ? 'Yes' : 'No'] *)
Definition yes_no (v : JsVal) : string := if truthy v then "Yes" else "No".

(** The rows that a [for ... of] loop pushes, one for each item. *)
Fixpoint each_row (row : JsVal -> Rendered string) (items : list JsVal)
  : Rendered (list string) :=
  match items with
  | [] => Done []
  | x :: r =>
      l <~ row x ;;
      ls <~ each_row row r ;;
      Done (l :: ls)
  end.

(** ** The tables of the known entities *)

Definition contact_row (contact : JsVal) : Rendered string :=
  id <~ field contact "id" ;;
  id <~ tpl id ;;
  email <~ field contact "email" ;;
  email <~ or_dash email ;;
  firstName <~ field contact "firstName" ;;
  firstName <~ or_dash firstName ;;
  lastName <~ field contact "lastName" ;;
  lastName <~ or_dash lastName ;;
  phone <~ field contact "phone" ;;
  phone <~ or_dash phone ;;
  Done ("| " ++ id ++ " | " ++ email ++ " | " ++ firstName ++ " | " ++ lastName
          ++ " | " ++ phone ++ " |").

Definition formatContactsTable_lines (contacts : list JsVal) : Rendered (list string) :=
  rows <~ each_row contact_row contacts ;;
  Done ("| ID | Email | First Name | Last Name | Phone |"
          :: "|---|---|---|---|---|" :: rows).

Definition formatContactsTable (contacts : list JsVal) : Rendered string :=
  lines <~ formatContactsTable_lines contacts ;; Done (join_lines lines).

Definition list_row (list : JsVal) : Rendered string :=
  id <~ field list "id" ;;
  id <~ tpl id ;;
  name <~ field list "name" ;;
  name <~ tpl name ;;
  contactCount <~ field list "contactCount" ;;
  contactCount <~ tpl contactCount ;;
  Done ("| " ++ id ++ " | " ++ name ++ " | " ++ contactCount ++ " |").

Definition formatListsTable_lines (lists : list JsVal) : Rendered (list string) :=
  rows <~ each_row list_row lists ;;
  Done ("| ID | Name | Contact Count |" :: "|---|---|---|" :: rows).

Definition formatListsTable (lists : list JsVal) : Rendered string :=
  lines <~ formatListsTable_lines lists ;; Done (join_lines lines).

Definition segment_row (segment : JsVal) : Rendered string :=
  id <~ field segment "id" ;;
  id <~ tpl id ;;
  name <~ field segment "name" ;;
  name <~ tpl name ;;
  contactsCount <~ field segment "contactsCount" ;;
  contactsCount <~ or_dash contactsCount ;;
  Done ("| " ++ id ++ " | " ++ name ++ " | " ++ contactsCount ++ " |").

Definition formatSegmentsTable_lines (segments : list JsVal) : Rendered (list string) :=
  rows <~ each_row segment_row segments ;;
  Done ("| ID | Name | Contact Count |" :: "|---|---|---|" :: rows).

Definition formatSegmentsTable (segments : list JsVal) : Rendered string :=
  lines <~ formatSegmentsTable_lines segments ;; Done (join_lines lines).

Definition template_row (template : JsVal) : Rendered string :=
  id <~ field template "id" ;;
  id <~ tpl id ;;
  name <~ field template "name" ;;
  name <~ tpl name ;;
  generation <~ field template "generation" ;;
  generation <~ tpl generation ;;
  updatedAt <~ field template "updatedAt" ;;
  updatedAt <~ or_dash updatedAt ;;
  Done ("| " ++ id ++ " | " ++ name ++ " | " ++ generation ++ " | " ++ updatedAt
          ++ " |").

Definition formatTemplatesTable_lines (templates : list JsVal) : Rendered (list string) :=
  rows <~ each_row template_row templates ;;
  Done ("| ID | Name | Generation | Updated |" :: "|---|---|---|---|" :: rows).

Definition formatTemplatesTable (templates : list JsVal) : Rendered string :=
  lines <~ formatTemplatesTable_lines templates ;; Done (join_lines lines).

Definition sender_row (sender : JsVal) : Rendered string :=
  id <~ field sender "id" ;;
  id <~ tpl id ;;
  nickname <~ field sender "nickname" ;;
  nickname <~ tpl nickname ;;
  from <~ field sender "from" ;;
  email <~ field from "email" ;;
  email <~ tpl email ;;
  verified <~ field sender "verified" ;;
  Done ("| " ++ id ++ " | " ++ nickname ++ " | " ++ email ++ " | " ++ yes_no verified
          ++ " |").

Definition formatSendersTable_lines (senders : list JsVal) : Rendered (list string) :=
  rows <~ each_row sender_row senders ;;
  Done ("| ID | Nickname | From Email | Verified |" :: "|---|---|---|---|" :: rows).

Definition formatSendersTable (senders : list JsVal) : Rendered string :=
  lines <~ formatSendersTable_lines senders ;; Done (join_lines lines).

Definition suppression_group_row (group : JsVal) : Rendered string :=
  id <~ field group "id" ;;
  id <~ tpl id ;;
  name <~ field group "name" ;;
  name <~ tpl name ;;
  description <~ field group "description" ;;
  description <~ tpl description ;;
  isDefault <~ field group "isDefault" ;;
  Done ("| " ++ id ++ " | " ++ name ++ " | " ++ description ++ " | "
          ++ yes_no isDefault ++ " |").

Definition formatSuppressionGroupsTable_lines (groups : list JsVal)
  : Rendered (list string) :=
  rows <~ each_row suppression_group_row groups ;;
  Done ("| ID | Name | Description | Default |" :: "|---|---|---|---|" :: rows).

Definition formatSuppressionGroupsTable (groups : list JsVal) : Rendered string :=
  lines <~ formatSuppressionGroupsTable_lines groups ;; Done (join_lines lines).

(** [key.scopes?.slice(0, 3).join(', ') || '-']: no scopes give the
    dash, an array its first three elements joined; anything else has no
    [slice] that returns an array, and the call raises a [TypeError]. *)
Definition scopes_cell (scopes : JsVal) : Rendered string :=
  match scopes with
  | JUndefined | JNull => Done "-"
  | JArr l =>
      joined <~ engine (js_join ", " (firstn 3 l)) ;;
      Done (if String.eqb joined "" then "-" else joined)
  | _ => Raise (Engine TypeError)
  end.

(** [key.scopes && key.scopes.length > 3 ? '...' : ''] *)
Definition scopes_ellipsis (scopes : JsVal) : string :=
  if truthy scopes
     && match prop scopes "length" with
        | JNum n => 3 <? n
        | _ => false
        end
  then "..." else "".

Definition api_key_row (key : JsVal) : Rendered string :=
  scopes_value <~ field key "scopes" ;;
  scopes <~ scopes_cell scopes_value ;;
  apiKeyId <~ field key "apiKeyId" ;;
  apiKeyId <~ tpl apiKeyId ;;
  name <~ field key "name" ;;
  name <~ tpl name ;;
  Done ("| " ++ apiKeyId ++ " | " ++ name ++ " | " ++ scopes
          ++ scopes_ellipsis scopes_value ++ " |").

Definition formatApiKeysTable_lines (keys : list JsVal) : Rendered (list string) :=
  rows <~ each_row api_key_row keys ;;
  Done ("| ID | Name | Scopes |" :: "|---|---|---|" :: rows).

Definition formatApiKeysTable (keys : list JsVal) : Rendered string :=
  lines <~ formatApiKeysTable_lines keys ;; Done (join_lines lines).

Definition design_row (design : JsVal) : Rendered string :=
  id <~ field design "id" ;;
  id <~ tpl id ;;
  name <~ field design "name" ;;
  name <~ tpl name ;;
  editor <~ field design "editor" ;;
  editor <~ or_dash editor ;;
  updatedAt <~ field design "updatedAt" ;;
  updatedAt <~ or_dash updatedAt ;;
  Done ("| " ++ id ++ " | " ++ name ++ " | " ++ editor ++ " | " ++ updatedAt ++ " |").

Definition formatDesignsTable_lines (designs : list JsVal) : Rendered (list string) :=
  rows <~ each_row design_row designs ;;
  Done ("| ID | Name | Editor | Updated |" :: "|---|---|---|---|" :: rows).

Definition formatDesignsTable (designs : list JsVal) : Rendered string :=
  lines <~ formatDesignsTable_lines designs ;; Done (join_lines lines).

Definition single_send_row (send : JsVal) : Rendered string :=
  id <~ field send "id" ;;
  id <~ tpl id ;;
  name <~ field send "name" ;;
  name <~ tpl name ;;
  status <~ field send "status" ;;
  status <~ tpl status ;;
  sendAt <~ field send "sendAt" ;;
  sendAt <~ or_dash sendAt ;;
  Done ("| " ++ id ++ " | " ++ name ++ " | " ++ status ++ " | " ++ sendAt ++ " |").

Definition formatSingleSendsTable_lines (sends : list JsVal) : Rendered (list string) :=
  rows <~ each_row single_send_row sends ;;
  Done ("| ID | Name | Status | Send At |" :: "|---|---|---|---|" :: rows).

Definition formatSingleSendsTable (sends : list JsVal) : Rendered string :=
  lines <~ formatSingleSendsTable_lines sends ;; Done (join_lines lines).

(** ** Object keys and members *)

Definition is_digit (c : ascii) : bool :=
  match digit_value c with Some _ => true | None => false end.

Fixpoint all_digits (s : string) : bool :=
  match s with
  | EmptyString => true
  | String c r => is_digit c && all_digits r
  end.

(** The array index that a property key denotes: a decimal numeral
    without a leading zero, below [2^32 - 1]. *)
Definition array_index (k : string) : option Z :=
  match k with
  | EmptyString => None
  | String c r =>
      if all_digits k
         && (String.eqb k "0" || negb (Ascii.eqb c "0"))
         && (parse_digits k 0 <? 4294967295)
      then Some (parse_digits k 0) else None
  end.

Fixpoint insert_index (e : Z * (string * JsVal)) (l : list (Z * (string * JsVal)))
  : list (Z * (string * JsVal)) :=
  match l with
  | [] => [e]
  | x :: r => if fst e <? fst x then e :: x :: r else x :: insert_index e r
  end.

(** The own properties of an object in the order of [Object.keys]: the
    array indices in ascending order, then the other keys in insertion
    order. *)
Definition ordered_fields (fs : list (string * JsVal)) : list (string * JsVal) :=
  let indexed :=
    fold_left (fun acc kv =>
                 match array_index (fst kv) with
                 | Some i => insert_index (i, kv) acc
                 | None => acc
                 end) fs [] in
  let named :=
    filter (fun kv => match array_index (fst kv) with Some _ => false | None => true end)
           fs in
  (map snd indexed ++ named)%list.

Fixpoint index_keys (n : nat) : list string :=
  match n with
  | O => []
  | S m => (index_keys m ++ [string_of_Z (Z.of_nat m)])%list
  end.

(** [Object.keys(v)], a [TypeError] on [undefined] and [null]. *)
Definition Object_keys (v : JsVal) : Rendered (list string) :=
  match v with
  | JUndefined | JNull => Raise (Engine TypeError)
  | JObj fs => Done (map fst (ordered_fields fs))
  | JArr l => Done (index_keys (List.length l))
  | JStr s => Done (index_keys (String.length s))
  | _ => Done []
  end.

(** The own property [k] of a value that is neither [undefined] nor
    [null], if it has one: a field of an object, an element or the length
    of an array, a character or the length of a string. *)
Definition own_member (v : JsVal) (k : string) : option JsVal :=
  match v with
  | JObj fs => assoc k fs
  | JArr l =>
      if String.eqb k "length" then Some (JNum (Zlength_of l))
      else match array_index k with
           | Some i => nth_error l (Z.to_nat i)
           | None => None
           end
  | JStr s =>
      if String.eqb k "length" then Some (JNum (Z.of_nat (String.length s)))
      else match array_index k with
           | Some i =>
               match String.get (Z.to_nat i) s with
               | Some c => Some (JStr (String c EmptyString))
               | None => None
               end
           | None => None
           end
  | _ => None
  end.

Section Formatters.

(** [JSON.stringify(value, null, 2)], the indented JSON text of a
    value. *)
Variable JSON_pretty : JsVal -> string.

(** [new Date(created * 1000).toISOString()]; there is no text for a
    time that is not a valid date. *)
Variable toISOString : JsVal -> option string.

(** [String(v[k])] for a key [k] that [v] does not have as a property of
    its own: the text that the engine gives for the value that [v]
    inherits under [k] from its prototype chain ([constructor],
    [toString], [valueOf] and the like are inherited functions); [None]
    when [v] inherits no property [k]. *)
Variable inherited_text : JsVal -> string -> option string.

(** ** The generic table *)

(** [Object.keys(first).slice(0, 5)] *)
Definition generic_columns (first : JsVal) : Rendered (list string) :=
  keys <~ Object_keys first ;; Done (firstn 5 keys).

(** [String(record[k] ?? '-')] *)
Definition cell_text (record : JsVal) (k : string) : Rendered string :=
  if nullish record then Raise (Engine TypeError)
  else
    match own_member record k with
    | Some v => if nullish v then Done "-" else engine (js_to_string v)
    | None =>
        match inherited_text record k with
        | Some text => Done text
        | None => Done "-"
        end
    end.

(** [keys.map((k) => String(record[k] ?? '-'))] *)
Fixpoint generic_cells (keys : list string) (record : JsVal) : Rendered (list string) :=
  match keys with
  | [] => Done []
  | k :: r =>
      v <~ cell_text record k ;;
      vs <~ generic_cells r record ;;
      Done (v :: vs)
  end.

Definition generic_row (keys : list string) (item : JsVal) : Rendered string :=
  values <~ generic_cells keys item ;;
  Done ("| " ++ String.concat " | " values ++ " |").

Definition formatGenericTable_lines (items : list JsVal) : Rendered (list string) :=
  match items with
  | [] => Done ["_No items_"]
  | first :: _ =>
      keys <~ generic_columns first ;;
      rows <~ each_row (generic_row keys) items ;;
      Done (("| " ++ String.concat " | " keys ++ " |")
              :: ("|" ++ String.concat "|" (map (fun _ => "---") keys) ++ "|")
              :: rows)
  end.

Definition formatGenericTable (items : list JsVal) : Rendered string :=
  lines <~ formatGenericTable_lines items ;; Done (join_lines lines).

(** ** Statistics *)

(** The values that [for (const s of v)] runs over; a [TypeError] when
    [v] is not iterable. *)
Definition iterate (v : JsVal) : Rendered (list JsVal) :=
  match v with
  | JArr l => Done l
  | JStr s => Done (map (fun c => JStr (String c EmptyString))
                          (list_ascii_of_string s))
  | _ => Raise (Engine TypeError)
  end.

(** [if (metrics.k !== undefined) lines.push(`| Label | ${metrics.k} |`)] *)
Definition metric_line (metrics : JsVal) (k label : string) : Rendered (list string) :=
  value <~ field metrics k ;;
  match value with
  | JUndefined => Done []
  | _ =>
      text <~ tpl value ;;
      Done [("| " ++ label ++ " | " ++ text ++ " |")%string]
  end.

Definition metrics_lines (s : JsVal) : Rendered (list string) :=
  metrics <~ field s "metrics" ;;
  requests <~ metric_line metrics "requests" "Requests" ;;
  delivered <~ metric_line metrics "delivered" "Delivered" ;;
  opens <~ metric_line metrics "opens" "Opens" ;;
  uniqueOpens <~ metric_line metrics "uniqueOpens" "Unique Opens" ;;
  clicks <~ metric_line metrics "clicks" "Clicks" ;;
  uniqueClicks <~ metric_line metrics "uniqueClicks" "Unique Clicks" ;;
  bounces <~ metric_line metrics "bounces" "Bounces" ;;
  blocks <~ metric_line metrics "blocks" "Blocks" ;;
  spamReports <~ metric_line metrics "spamReports" "Spam Reports" ;;
  unsubscribes <~ metric_line metrics "unsubscribes" "Unsubscribes" ;;
  Done (requests ++ delivered ++ opens ++ uniqueOpens ++ clicks ++ uniqueClicks
        ++ bounces ++ blocks ++ spamReports ++ unsubscribes)%list.

Fixpoint each_lines {A} (f : A -> Rendered (list string)) (items : list A)
  : Rendered (list string) :=
  match items with
  | [] => Done []
  | x :: r =>
      l <~ f x ;;
      ls <~ each_lines f r ;;
      Done (l ++ ls)%list
  end.

Definition stat_lines (stat : JsVal) : Rendered (list string) :=
  date <~ field stat "date" ;;
  date <~ tpl date ;;
  stats <~ field stat "stats" ;;
  entries <~ iterate stats ;;
  body <~ each_lines metrics_lines entries ;;
  Done (("### " ++ date)%string :: "" :: "| Metric | Value |" :: "|---|---|"
          :: body ++ [""])%list.

Definition formatStatsAsMarkdown_lines (stats : list JsVal) : Rendered (list string) :=
  body <~ each_lines stat_lines stats ;;
  Done ("## Email Statistics" :: "" :: body).

Definition formatStatsAsMarkdown (stats : list JsVal) : Rendered string :=
  lines <~ formatStatsAsMarkdown_lines stats ;; Done (join_lines lines).

(** [formatArrayAsMarkdown] *)
Definition formatArrayAsMarkdown (data : list JsVal) (entityType : string)
  : Rendered string :=
  if String.eqb entityType "stats" then formatStatsAsMarkdown data
  else formatGenericTable data.

(** ** Single objects

    The case functions below are those of ASCII text: the entity types
    are ASCII literals of the callers, and the keys are those of the
    upstream objects. *)

Definition is_upper (c : ascii) : bool :=
  let n := nat_of_ascii c in ((65 <=? n) && (n <=? 90))%nat.

Definition is_lower (c : ascii) : bool :=
  let n := nat_of_ascii c in ((97 <=? n) && (n <=? 122))%nat.

(** [c.toUpperCase()] *)
Definition to_upper (c : ascii) : ascii :=
  if is_lower c then ascii_of_nat (nat_of_ascii c - 32) else c.

(** [capitalize] *)
Definition capitalize (str : string) : string :=
  match str with
  | EmptyString => EmptyString
  | String c r => String (to_upper c) r
  end.

(** [key.replace(/([A-Z])/g, ' $1')] *)
Fixpoint space_capitals (key : string) : string :=
  match key with
  | EmptyString => EmptyString
  | String c r =>
      if is_upper c then String " " (String c (space_capitals r))
      else String c (space_capitals r)
  end.

Definition is_line_terminator (c : ascii) : bool :=
  let n := nat_of_ascii c in ((n =? 10) || (n =? 13))%nat.

(** [s.replace(/^./, (str) => str.toUpperCase())] *)
Definition upper_first (s : string) : string :=
  match s with
  | EmptyString => EmptyString
  | String c r => if is_line_terminator c then s else String (to_upper c) r
  end.

Fixpoint trim_end (s : string) : string :=
  match s with
  | EmptyString => EmptyString
  | String c r =>
      match trim_end r with
      | EmptyString => if is_whitespace c then EmptyString else String c EmptyString
      | r' => String c r'
      end
  end.

(** [s.trim()] *)
Definition trim (s : string) : string := trim_end (skip_whitespace s).

(** [formatKey] *)
Definition formatKey (key : string) : string :=
  trim (upper_first (space_capitals key)).

(** [entityType.replace(/s$/, '')] *)
Fixpoint drop_final_s (s : string) : string :=
  match s with
  | EmptyString => EmptyString
  | String c EmptyString => if Ascii.eqb c "s" then EmptyString else s
  | String c r => String c (drop_final_s r)
  end.

(** [typeof v === 'object'] for a value that is not [null]. *)
Definition is_object (v : JsVal) : bool :=
  match v with
  | JArr _ | JObj _ => true
  | _ => false
  end.

Definition created_iso (created : JsVal) : Rendered string :=
  match toISOString created with
  | Some iso => Done iso
  | None => Raise RangeError
  end.

Definition bounce_row (bounce : JsVal) : Rendered string :=
  created_value <~ field bounce "created" ;;
  created <~ created_iso created_value ;;
  email <~ field bounce "email" ;;
  email <~ tpl email ;;
  reason <~ field bounce "reason" ;;
  reason <~ tpl reason ;;
  status <~ field bounce "status" ;;
  status <~ tpl status ;;
  Done ("| " ++ email ++ " | " ++ reason ++ " | " ++ status ++ " | " ++ created ++ " |").

Definition formatBouncesTable_lines (bounces : list JsVal) : Rendered (list string) :=
  rows <~ each_row bounce_row bounces ;;
  Done ("| Email | Reason | Status | Created |" :: "|---|---|---|---|" :: rows).

Definition formatBouncesTable (bounces : list JsVal) : Rendered string :=
  lines <~ formatBouncesTable_lines bounces ;; Done (join_lines lines).

Definition formatBlocksTable_lines (blocks : list JsVal) : Rendered (list string) :=
  rows <~ each_row bounce_row blocks ;;
  Done ("| Email | Reason | Status | Created |" :: "|---|---|---|---|" :: rows).

Definition formatBlocksTable (blocks : list JsVal) : Rendered string :=
  lines <~ formatBlocksTable_lines blocks ;; Done (join_lines lines).

Definition spam_report_row (report : JsVal) : Rendered string :=
  created_value <~ field report "created" ;;
  created <~ created_iso created_value ;;
  email <~ field report "email" ;;
  email <~ tpl email ;;
  ip <~ field report "ip" ;;
  ip <~ or_dash ip ;;
  Done ("| " ++ email ++ " | " ++ ip ++ " | " ++ created ++ " |").

Definition formatSpamReportsTable_lines (reports : list JsVal) : Rendered (list string) :=
  rows <~ each_row spam_report_row reports ;;
  Done ("| Email | IP | Created |" :: "|---|---|---|" :: rows).

Definition formatSpamReportsTable (reports : list JsVal) : Rendered string :=
  lines <~ formatSpamReportsTable_lines reports ;; Done (join_lines lines).

(** The lines that [formatObjectAsMarkdown] pushes for one entry. *)
Definition entry_lines (entry : string * JsVal) : Rendered (list string) :=
  let '(key, value) := entry in
  if nullish value then Done []
  else if is_object value then
    Done [ "**" ++ formatKey key ++ ":**"; "```json"; JSON_pretty value; "```" ]
  else
    text <~ tpl value ;;
    Done [ "**" ++ formatKey key ++ ":** " ++ text ].

Definition formatObjectAsMarkdown_lines (data : list (string * JsVal))
           (entityType : string) : Rendered (list string) :=
  entries <~ each_lines entry_lines (ordered_fields data) ;;
  Done (("## " ++ capitalize (drop_final_s entityType)) :: "" :: entries).

Definition formatObjectAsMarkdown (data : list (string * JsVal)) (entityType : string)
  : Rendered string :=
  lines <~ formatObjectAsMarkdown_lines data entityType ;; Done (join_lines lines).

(** The table of the [switch] of [formatPaginatedAsMarkdown]. *)
Definition entity_table (entityType : string) (items : list JsVal) : Rendered string :=
  if String.eqb entityType "contacts" then formatContactsTable items
  else if String.eqb entityType "lists" then formatListsTable items
  else if String.eqb entityType "segments" then formatSegmentsTable items
  else if String.eqb entityType "templates" then formatTemplatesTable items
  else if String.eqb entityType "senders" then formatSendersTable items
  else if String.eqb entityType "suppressionGroups" then formatSuppressionGroupsTable items
  else if String.eqb entityType "bounces" then formatBouncesTable items
  else if String.eqb entityType "blocks" then formatBlocksTable items
  else if String.eqb entityType "spamReports" then formatSpamReportsTable items
  else if String.eqb entityType "apiKeys" then formatApiKeysTable items
  else if String.eqb entityType "designs" then formatDesignsTable items
  else if String.eqb entityType "singleSends" then formatSingleSendsTable items
  else formatGenericTable items.

(** The lines before the table: the title, the counts, the hint that
    more is available. *)
Definition page_header_lines (data : JsVal) (entityType : string)
  : Rendered (list string) :=
  counts <~ match prop data "total" with
            | JUndefined =>
                count <~ tpl (prop data "count") ;;
                Done ("**Showing:** " ++ count)
            | total =>
                total <~ tpl total ;;
                count <~ tpl (prop data "count") ;;
                Done ("**Total:** " ++ total ++ " | **Showing:** " ++ count)
            end ;;
  more <~ (if truthy (prop data "hasMore") && truthy (prop data "nextPageToken")
           then
             token <~ tpl (prop data "nextPageToken") ;;
             Done ["**More available:** Yes (token: `" ++ token ++ "`)"]
           else Done []) ;;
  Done ([("## " ++ capitalize entityType)%string; ""] ++ [counts] ++ more ++ [""])%list.

(** [formatPaginatedAsMarkdown], for a value that [isPaginatedResponse]
    accepted. *)
Definition formatPaginatedAsMarkdown_lines (data : JsVal) (entityType : string)
  : Rendered (list string) :=
  lines <~ page_header_lines data entityType ;;
  match elements (prop data "items") with
  | [] => Done (lines ++ ["_No items found._"])%list
  | items =>
      table <~ entity_table entityType items ;;
      Done (lines ++ [table])%list
  end.

Definition formatPaginatedAsMarkdown (data : JsVal) (entityType : string)
  : Rendered string :=
  lines <~ formatPaginatedAsMarkdown_lines data entityType ;; Done (join_lines lines).

(** [isPaginatedResponse] *)
Definition isPaginatedResponse (data : JsVal) : bool :=
  match data with
  | JObj fs =>
      match assoc "items" fs with
      | Some items => isArray items
      | None => false
      end
  | _ => false
  end.

(** [formatAsMarkdown] *)
Definition formatAsMarkdown (data : JsVal) (entityType : string) : Rendered string :=
  if isPaginatedResponse data then formatPaginatedAsMarkdown data entityType
  else
    match data with
    | JArr l => formatArrayAsMarkdown l entityType
    | JObj fs => formatObjectAsMarkdown fs entityType
    | _ => engine (js_to_string data)
    end.

(** [formatResponse]; the format is ['markdown'] or ['json']. *)
Definition formatResponse (data : JsVal) (format entityType : string)
  : Rendered ToolOutput :=
  if String.eqb format "markdown" then
    text <~ formatAsMarkdown data entityType ;;
    Done (TextEnvelope text None)
  else
    Done (JsonEnvelope (json_response data)).

End Formatters.

(* ---------------------------------------------------------------- *)
(** ** Vocabulary of the rendering properties *)

(** The array [lines] of the table that [formatPaginatedAsMarkdown]
    pushes for an entity type, before it is joined. *)
Definition entity_table_lines (toISOString : JsVal -> option string)
           (inherited_text : JsVal -> string -> option string)
           (entityType : string) (items : list JsVal) : Rendered (list string) :=
  if String.eqb entityType "contacts" then formatContactsTable_lines items
  else if String.eqb entityType "lists" then formatListsTable_lines items
  else if String.eqb entityType "segments" then formatSegmentsTable_lines items
  else if String.eqb entityType "templates" then formatTemplatesTable_lines items
  else if String.eqb entityType "senders" then formatSendersTable_lines items
  else if String.eqb entityType "suppressionGroups"
  then formatSuppressionGroupsTable_lines items
  else if String.eqb entityType "bounces" then formatBouncesTable_lines toISOString items
  else if String.eqb entityType "blocks" then formatBlocksTable_lines toISOString items
  else if String.eqb entityType "spamReports"
  then formatSpamReportsTable_lines toISOString items
  else if String.eqb entityType "apiKeys" then formatApiKeysTable_lines items
  else if String.eqb entityType "designs" then formatDesignsTable_lines items
  else if String.eqb entityType "singleSends" then formatSingleSendsTable_lines items
  else formatGenericTable_lines inherited_text items.

(** The entity types whose rows read nothing but properties of the
    item itself. *)
Definition plain_table (entityType : string) : bool :=
  existsb (String.eqb entityType)
          ["contacts"; "lists"; "segments"; "templates"; "suppressionGroups";
           "designs"; "singleSends"].

(** The values that [String] turns into text. *)
Definition printable (v : JsVal) : bool :=
  match js_to_string v with
  | Return _ => true
  | Throw _ => false
  end.

(** The items all of whose own fields are printable. *)
Definition printable_fields (item : JsVal) : bool :=
  match item with
  | JObj fs => forallb (fun kv => printable (snd kv)) fs
  | _ => true
  end.

(** The items all of whose own fields have a text that the embedding
    gives exactly. *)
Definition plain_fields (item : JsVal) : bool :=
  match item with
  | JObj fs => forallb (fun kv => has_text (snd kv)) fs
  | _ => true
  end.

(** The text of a cell of the generic table, for an object with plain
    fields that inherits nothing under the key. *)
Definition generic_cell (fields : list (string * JsVal)) (k : string) : string :=
  match assoc k fields with
  | Some v => if nullish v then "-" else text_of v
  | None => "-"
  end.

(** The properties that every object inherits from [Object.prototype],
    with the text that V8 gives for their values. *)
Definition object_prototype_names : list string :=
  ["constructor"; "__defineGetter__"; "__defineSetter__"; "hasOwnProperty";
   "__lookupGetter__"; "__lookupSetter__"; "isPrototypeOf"; "propertyIsEnumerable";
   "toString"; "valueOf"; "__proto__"; "toLocaleString"].

Definition object_inherited (v : JsVal) (k : string) : option string :=
  match v with
  | JObj _ =>
      if existsb (String.eqb k) object_prototype_names then
        Some (if String.eqb k "__proto__" then "[object Object]"
              else if String.eqb k "constructor"
                   then "function Object() { [native code] }"
                   else "function " ++ k ++ "() { [native code] }")
      else None
  | _ => None
  end.

Definition no_date : JsVal -> option string := fun _ => None.

Definition no_pretty : JsVal -> string := fun _ => "".

Definition two_lists : list JsVal :=
  [ JObj [("id", JStr "l1"); ("name", JStr "News"); ("contactCount", JNum 3)];
    JObj [("id", JStr "l2"); ("name", JStr "Trial"); ("contactCount", JNum 0)] ].

Definition wide_item : JsVal :=
  JObj [("a", JNum 1); ("b", JNum 2); ("c", JNum 3); ("d", JNum 4); ("e", JNum 5);
        ("f", JNum 6)].

(* ================================================================== *)
(** * Tool handlers that render their result with [formatResponse] *)
(* ================================================================== *)

Section RenderingTools.

Variable credentials : TenantCredentials.
Variable engine_message : Exn -> string.
Variable formatErrorForLogging : Exn -> JsVal.
Variable JSON_pretty : JsVal -> string.
Variable toISOString : JsVal -> option string.
Variable inherited_text : JsVal -> string -> option string.

(** The message of the [RangeError] of [toISOString], and what
    [formatErrorForLogging] makes of that error. *)
Variable range_error_message : string.
Variable range_error_details : JsVal.

(** [formatError] on what a formatter raised. *)
Definition formatRaised (error : Raised) : ToolResponse :=
  match error with
  | Engine x => formatError engine_message formatErrorForLogging x
  | RangeError =>
      json_error_response
        (JObj [("error", JStr ("Error: " ++ range_error_message));
               ("details", range_error_details)])
  end.

(** The handler
    [try { const data = await call; return formatResponse(data, format, entityType); }
     catch (error) { return formatError(error); }]. *)
Definition responding (call : Async JsVal) (format entityType : string)
  : Async ToolOutput :=
  fun upstream =>
    let (requests, outcome) := call upstream in
    (requests,
     Return match outcome with
            | Return data =>
                match formatResponse JSON_pretty toISOString inherited_text
                                     data format entityType with
                | Done output => output
                | Raise error => JsonEnvelope (formatRaised error)
                end
            | Throw x => JsonEnvelope (formatError engine_message formatErrorForLogging x)
            end).

(** ** [tools/contacts.ts] *)

Definition sendgrid_list_contacts (pageToken : option string) (format : string)
  : Async ToolOutput :=
  responding (listContacts credentials (JObj [("pageToken", opt_str pageToken)]))
             format "contacts".

Definition sendgrid_get_contact (id format : string) : Async ToolOutput :=
  responding (getContact credentials id) format "contact".

Definition sendgrid_search_contacts (query format : string) : Async ToolOutput :=
  responding (searchContacts credentials query) format "contacts".

(** ** [tools/templates.ts] *)

Definition sendgrid_list_templates (generations : option string) (pageSize : Z)
           (pageToken : option string) (format : string) : Async ToolOutput :=
  responding (listTemplates credentials generations (Some pageSize) pageToken)
             format "templates".

Definition sendgrid_get_template (id format : string) : Async ToolOutput :=
  responding (getTemplate credentials id) format "template".

(** ** [tools/suppressions.ts] *)

Definition sendgrid_list_bounces (startTime endTime : option Z) (limit offset : Z)
           (format : string) : Async ToolOutput :=
  responding (listBounces credentials startTime endTime (Some limit) (Some offset))
             format "bounces".

Definition sendgrid_list_blocks (startTime endTime : option Z) (limit offset : Z)
           (format : string) : Async ToolOutput :=
  responding (listBlocks credentials startTime endTime (Some limit) (Some offset))
             format "blocks".

Definition sendgrid_list_spam_reports (startTime endTime : option Z) (limit offset : Z)
           (format : string) : Async ToolOutput :=
  responding (listSpamReports credentials startTime endTime (Some limit) (Some offset))
             format "spamReports".

Definition sendgrid_list_invalid_emails (startTime endTime : option Z) (limit offset : Z)
           (format : string) : Async ToolOutput :=
  responding (listInvalidEmails credentials startTime endTime (Some limit) (Some offset))
             format "invalidEmails".

Definition sendgrid_list_global_unsubscribes (startTime endTime : option Z)
           (limit offset : Z) (format : string) : Async ToolOutput :=
  responding (listGlobalSuppressions credentials startTime endTime
                                     (Some limit) (Some offset))
             format "globalUnsubscribes".

(** ** [tools/unsubscribe-groups.ts], [tools/api-keys.ts], [tools/stats.ts] *)

Definition sendgrid_list_unsubscribe_groups (format : string) : Async ToolOutput :=
  responding
    (groups <- listUnsubscribeGroups credentials ;;
     count <- lift (js_get groups "length") ;;
     ret (JObj [("items", groups); ("count", count); ("hasMore", JBool false)]))
    format "suppressionGroups".

Definition sendgrid_list_api_keys (format : string) : Async ToolOutput :=
  responding (listApiKeys credentials) format "apiKeys".

Definition sendgrid_get_stats (startDate : string) (endDate aggregatedBy : option string)
           (format : string) : Async ToolOutput :=
  responding (getGlobalStats credentials startDate endDate aggregatedBy) format "stats".

(** ** The handlers modelled, as one family *)

(** A handler whose envelope always holds JSON text. *)
Definition as_output (handler : Async ToolResponse) : Async ToolOutput :=
  r <- handler ;; ret (JsonEnvelope r).

Inductive ToolCall : Type :=
| CallBulkDelete (tool : BulkDeleteTool) (targets : option (list string))
                 (deleteAll : option bool)
| CallGetContactByEmail (email : string)
| CallAddContacts (contacts : list JsVal) (listIds : option (list string))
| CallGetContactCount
| CallListCustomFields
| CallCreateCustomField (name fieldType : string)
| CallUpdateCustomField (id name : string)
| CallDeleteCustomField (id : string)
| CallGetBounce (email : string)
| CallAddGlobalUnsubscribe (emails : list string)
| CallDeleteGlobalUnsubscribe (email : string)
| CallSendEmail (to : list string) (from : string)
                (fromName subject text html templateId : option string)
                (dynamicTemplateData : option JsVal) (cc bcc : option (list string))
                (replyTo : option string) (categories : option (list string))
                (sendAt : option Z) (attachments : option (list JsVal))
| CallSendBatchEmail (from : string)
                     (fromName subject text html templateId : option string)
                     (personalizations : list BatchPersonalization)
                     (categories : option (list string)) (sendAt : option Z)
| CallCreateBatchId
| CallValidateBatchId (batchId : string)
| CallListScheduledSends
| CallCancelScheduledSend (batchId : string)
| CallPauseScheduledSend (batchId : string)
| CallTestConnection
| CallListContacts (pageToken : option string) (format : string)
| CallGetContact (id format : string)
| CallSearchContacts (query format : string)
| CallListTemplates (generations : option string) (pageSize : Z)
                    (pageToken : option string) (format : string)
| CallGetTemplate (id format : string)
| CallListBounces (startTime endTime : option Z) (limit offset : Z) (format : string)
| CallListBlocks (startTime endTime : option Z) (limit offset : Z) (format : string)
| CallListSpamReports (startTime endTime : option Z) (limit offset : Z) (format : string)
| CallListInvalidEmails (startTime endTime : option Z) (limit offset : Z)
                        (format : string)
| CallListGlobalUnsubscribes (startTime endTime : option Z) (limit offset : Z)
                             (format : string)
| CallListUnsubscribeGroups (format : string)
| CallListApiKeys (format : string)
| CallGetStats (startDate : string) (endDate aggregatedBy : option string)
               (format : string).

Definition handle (call : ToolCall) : Async ToolOutput :=
  let json := as_output in
  let c := credentials in
  let em := engine_message in
  let det := formatErrorForLogging in
  match call with
  | CallBulkDelete tool targets deleteAll =>
      json (run_bulk_delete c em det tool targets deleteAll)
  | CallGetContactByEmail email => json (sendgrid_get_contact_by_email c em det email)
  | CallAddContacts contacts listIds => json (sendgrid_add_contacts c em det contacts listIds)
  | CallGetContactCount => json (sendgrid_get_contact_count c em det)
  | CallListCustomFields => json (sendgrid_list_custom_fields c em det)
  | CallCreateCustomField name fieldType =>
      json (sendgrid_create_custom_field c em det name fieldType)
  | CallUpdateCustomField id name => json (sendgrid_update_custom_field c em det id name)
  | CallDeleteCustomField id => json (sendgrid_delete_custom_field c em det id)
  | CallGetBounce email => json (sendgrid_get_bounce c em det email)
  | CallAddGlobalUnsubscribe emails => json (sendgrid_add_global_unsubscribe c em det emails)
  | CallDeleteGlobalUnsubscribe email =>
      json (sendgrid_delete_global_unsubscribe c em det email)
  | CallSendEmail to from fromName subject text html templateId dynamicTemplateData
                  cc bcc replyTo categories sendAt attachments =>
      json (sendgrid_send_email c em det to from fromName subject text html templateId
                                dynamicTemplateData cc bcc replyTo categories sendAt
                                attachments)
  | CallSendBatchEmail from fromName subject text html templateId personalizations
                       categories sendAt =>
      json (sendgrid_send_batch_email c em det from fromName subject text html templateId
                                      personalizations categories sendAt)
  | CallCreateBatchId => json (sendgrid_create_batch_id c em det)
  | CallValidateBatchId batchId => json (sendgrid_validate_batch_id c em det batchId)
  | CallListScheduledSends => json (sendgrid_list_scheduled_sends c em det)
  | CallCancelScheduledSend batchId => json (sendgrid_cancel_scheduled_send c em det batchId)
  | CallPauseScheduledSend batchId => json (sendgrid_pause_scheduled_send c em det batchId)
  | CallTestConnection => sendgrid_test_connection c em
  | CallListContacts pageToken format => sendgrid_list_contacts pageToken format
  | CallGetContact id format => sendgrid_get_contact id format
  | CallSearchContacts query format => sendgrid_search_contacts query format
  | CallListTemplates generations pageSize pageToken format =>
      sendgrid_list_templates generations pageSize pageToken format
  | CallGetTemplate id format => sendgrid_get_template id format
  | CallListBounces startTime endTime limit offset format =>
      sendgrid_list_bounces startTime endTime limit offset format
  | CallListBlocks startTime endTime limit offset format =>
      sendgrid_list_blocks startTime endTime limit offset format
  | CallListSpamReports startTime endTime limit offset format =>
      sendgrid_list_spam_reports startTime endTime limit offset format
  | CallListInvalidEmails startTime endTime limit offset format =>
      sendgrid_list_invalid_emails startTime endTime limit offset format
  | CallListGlobalUnsubscribes startTime endTime limit offset format =>
      sendgrid_list_global_unsubscribes startTime endTime limit offset format
  | CallListUnsubscribeGroups format => sendgrid_list_unsubscribe_groups format
  | CallListApiKeys format => sendgrid_list_api_keys format
  | CallGetStats startDate endDate aggregatedBy format =>
      sendgrid_get_stats startDate endDate aggregatedBy format
  end.

End RenderingTools.

(* ---------------------------------------------------------------- *)
(** ** Vocabulary of the tool properties *)

(** No key occurs twice. *)
Fixpoint distinct_keys (keys : list string) : bool :=
  match keys with
  | [] => true
  | k :: r => negb (existsb (String.eqb k) r) && distinct_keys r
  end.

(** A computation that issues at most one request. *)
Definition frugal {A} (m : Async A) : Prop :=
  forall up, (List.length (requests_of (m up)) <= 1)%nat.

(** The tools that report a failed lookup as a normal result. *)
Definition masks_failures (call : ToolCall) : bool :=
  match call with
  | CallGetContactByEmail _ | CallValidateBatchId _ | CallTestConnection => true
  | _ => false
  end.

Definition one_personalization : BatchPersonalization :=
  {| p_to := ["a@example.com"; "b@example.com"]; p_cc := None; p_bcc := None;
     p_subject := None; p_dynamicTemplateData := None |}.

(* ================================================================== *)
(** * Properties *)
(* ================================================================== *)

(** ** Decimal numerals *)

Lemma small_digit (d : Z) :
  0 <= d < 10 -> exists k : nat, (k < 10)%nat /\ d = Z.of_nat k.
Proof. intros Hd. exists (Z.to_nat d). lia. Qed.

Lemma digit_value_digit_char (d : Z) :
  0 <= d < 10 -> digit_value (digit_char d) = Some d.
Proof.
  intros Hd. destruct (small_digit d Hd) as [k [Hk ->]].
  do 10 (destruct k as [| k]; [reflexivity |]). lia.
Qed.

Lemma digit_char_plain (d : Z) :
  0 <= d < 10 ->
  is_whitespace (digit_char d) = false /\
  digit_char d <> "-"%char /\ digit_char d <> "+"%char.
Proof.
  intros Hd. destruct (small_digit d Hd) as [k [Hk ->]].
  do 10 (destruct k as [| k];
         [split; [reflexivity | split; discriminate] |]).
  lia.
Qed.

Lemma digits_fuel_step (f : nat) (n : Z) (acc : string) :
  digits_fuel (S f) n acc =
  if n / 10 =? 0 then String (digit_char (n mod 10)) acc
  else digits_fuel f (n / 10) (String (digit_char (n mod 10)) acc).
Proof. reflexivity. Qed.

(** With fuel to spare, the digits written in front of [acc] are read
    back as the number they were written from. *)
Lemma parse_digits_fuel (f : nat) :
  forall n acc a,
    0 <= n < 2 ^ Z.of_nat (S f) ->
    exists k, 0 <= k /\
      parse_digits (digits_fuel (S f) n acc) a = parse_digits acc (a * 10 ^ k + n).
Proof.
  induction f as [| f IH]; intros n acc a Hn.
  - exists 1. split; [lia |].
    assert (Hq : n / 10 = 0) by (apply Z.div_small; simpl in Hn; lia).
    rewrite digits_fuel_step, Hq. cbn [Z.eqb parse_digits].
    rewrite digit_value_digit_char by (apply Z.mod_pos_bound; lia).
    f_equal. rewrite Z.mod_small by (simpl in Hn; lia). lia.
  - rewrite digits_fuel_step.
    destruct (n / 10 =? 0) eqn:Hq.
    + apply Z.eqb_eq in Hq. exists 1. split; [lia |].
      cbn [parse_digits].
      rewrite digit_value_digit_char by (apply Z.mod_pos_bound; lia).
      f_equal. pose proof (Z.div_mod n 10 ltac:(lia)). lia.
    + assert (Hbound : 0 <= n / 10 < 2 ^ Z.of_nat (S f)).
      { split; [apply Z.div_pos; lia |].
        apply Z.div_lt_upper_bound; [lia |].
        replace (Z.of_nat (S (S f))) with (Z.of_nat (S f) + 1) in Hn by lia.
        rewrite Z.pow_add_r in Hn by lia.
        assert (0 < 2 ^ Z.of_nat (S f)) by (apply Z.pow_pos_nonneg; lia).
        lia. }
      destruct (IH (n / 10) (String (digit_char (n mod 10)) acc) a Hbound)
        as [k [Hk Heq]].
      exists (k + 1). split; [lia |].
      rewrite Heq. cbn [parse_digits].
      rewrite digit_value_digit_char by (apply Z.mod_pos_bound; lia).
      f_equal. rewrite Z.pow_add_r by lia.
      pose proof (Z.div_mod n 10 ltac:(lia)). lia.
Qed.

Lemma log2_fuel (n : Z) : 0 <= n -> 0 <= n < 2 ^ Z.of_nat (S (Z.to_nat (Z.log2 n))).
Proof.
  intros Hn. split; [exact Hn |].
  destruct (Z.eq_dec n 0) as [-> | Hnz]; [reflexivity |].
  replace (Z.of_nat (S (Z.to_nat (Z.log2 n)))) with (Z.succ (Z.log2 n))
    by (pose proof (Z.log2_nonneg n); lia).
  apply Z.log2_spec. lia.
Qed.

Lemma parse_string_of_nonneg (n : Z) :
  0 <= n -> parse_digits (string_of_nonneg n) 0 = n.
Proof.
  intros Hn. unfold string_of_nonneg.
  destruct (parse_digits_fuel (Z.to_nat (Z.log2 n)) n "" 0 (log2_fuel n Hn))
    as [k [_ Heq]].
  rewrite Heq. reflexivity.
Qed.

(** A numeral starts with a digit. *)
Lemma digits_fuel_head (f : nat) :
  forall n acc, 0 <= n ->
    exists d r, 0 <= d < 10 /\ digits_fuel (S f) n acc = String (digit_char d) r.
Proof.
  induction f as [| f IH]; intros n acc Hn; rewrite digits_fuel_step.
  - destruct (n / 10 =? 0); cbn [digits_fuel];
      exists (n mod 10), acc; split; try reflexivity; apply Z.mod_pos_bound; lia.
  - destruct (n / 10 =? 0).
    + exists (n mod 10), acc; split; [apply Z.mod_pos_bound; lia | reflexivity].
    + apply IH. apply Z.div_pos; lia.
Qed.

Lemma digit_char_ascii (d : Z) :
  0 <= d < 10 -> (nat_of_ascii (digit_char d) < 128)%nat.
Proof.
  intros Hd. destruct (small_digit d Hd) as [k [Hk ->]].
  do 10 (destruct k as [| k]; [apply Nat.ltb_lt; reflexivity |]).
  lia.
Qed.

(** White space is skipped up to the first character that is none: a
    character of one byte that is no white space stays. *)
Lemma skip_whitespace_ascii (c : ascii) (r : string) :
  is_whitespace c = false -> (nat_of_ascii c < 128)%nat ->
  skip_whitespace (String c r) = String c r.
Proof.
  intros Hws Hc. cbn [skip_whitespace]. rewrite Hws.
  assert (H194 : (nat_of_ascii c =? 194)%nat = false) by (apply Nat.eqb_neq; lia).
  assert (H225 : (nat_of_ascii c =? 225)%nat = false) by (apply Nat.eqb_neq; lia).
  assert (H226 : (nat_of_ascii c =? 226)%nat = false) by (apply Nat.eqb_neq; lia).
  assert (H227 : (nat_of_ascii c =? 227)%nat = false) by (apply Nat.eqb_neq; lia).
  assert (H239 : (nat_of_ascii c =? 239)%nat = false) by (apply Nat.eqb_neq; lia).
  destruct r as [| c2 [| c3 r3]]; try reflexivity.
  - unfold two_byte_space. rewrite H194. reflexivity.
  - unfold two_byte_space, three_byte_space.
    rewrite H194, H225, H226, H227, H239. reflexivity.
Qed.

Lemma parseInt_nonneg (n : Z) :
  0 <= n -> parseInt (string_of_nonneg n) = number_of_integer false n.
Proof.
  intros Hn.
  pose proof (parse_string_of_nonneg n Hn) as Hparse.
  unfold string_of_nonneg in *.
  destruct (digits_fuel_head (Z.to_nat (Z.log2 n)) n "" Hn) as [d [r [Hd Hs]]].
  rewrite Hs in *.
  destruct (digit_char_plain d Hd) as [Hws [Hminus Hplus]].
  unfold parseInt. rewrite (skip_whitespace_ascii _ r Hws (digit_char_ascii d Hd)).
  destruct (digit_char d) as [b0 b1 b2 b3 b4 b5 b6 b7] eqn:Hc.
  assert (Hdv : digit_value (Ascii b0 b1 b2 b3 b4 b5 b6 b7) = Some d)
    by (rewrite <- Hc; apply digit_value_digit_char; exact Hd).
  destruct b0, b1, b2, b3, b4, b5, b6, b7;
    try (exfalso; apply Hminus; reflexivity);
    try (exfalso; apply Hplus; reflexivity);
    cbn [starts_with_digit]; rewrite Hdv; rewrite Hparse; reflexivity.
Qed.

(** [parseInt(String(n), 10)] is the Number value of [n]. *)
Lemma parseInt_string_of_Z (n : Z) :
  parseInt (string_of_Z n) = number_of_integer (n <? 0) (Z.abs n).
Proof.
  unfold string_of_Z. destruct (n <? 0) eqn:Hneg.
  - apply Z.ltb_lt in Hneg.
    assert (Hpos : 0 <= - n) by lia.
    pose proof (parse_string_of_nonneg (- n) Hpos) as Hparse.
    unfold string_of_nonneg in *.
    destruct (digits_fuel_head (Z.to_nat (Z.log2 (- n))) (- n) "" Hpos)
      as [d [r [Hd Hs]]].
    rewrite Hs in *.
    unfold parseInt.
    rewrite (skip_whitespace_ascii "-" _ eq_refl) by (apply Nat.ltb_lt; reflexivity).
    cbn iota.
    cbn [starts_with_digit]. rewrite (digit_value_digit_char d Hd).
    rewrite Hparse. rewrite Z.abs_neq by lia. reflexivity.
  - apply Z.ltb_ge in Hneg. rewrite Z.abs_eq by lia.
    apply parseInt_nonneg. exact Hneg.
Qed.

(** Below [2^53] in magnitude an integer is its own Number value. *)
Lemma number_of_safe_integer (n : Z) :
  - 9007199254740992 < n < 9007199254740992 ->
  number_of_integer (n <? 0) (Z.abs n) = IntValue n.
Proof.
  intros Hn. unfold number_of_integer, nearest_double.
  assert (Hs : (Z.abs n <? 9007199254740992) = true) by (apply Z.ltb_lt; lia).
  rewrite Hs.
  assert (Hbig : (Z.shiftl 1 1024 <=? Z.abs n) = false).
  { apply Z.leb_gt. rewrite Z.shiftl_1_l.
    assert (H53 : 9007199254740992 = 2 ^ 53) by reflexivity.
    assert (Hlt : 2 ^ 53 < 2 ^ 1024) by (apply Z.pow_lt_mono_r; lia).
    lia. }
  rewrite Hbig. f_equal.
  destruct (n <? 0) eqn:Hneg;
    [apply Z.ltb_lt in Hneg | apply Z.ltb_ge in Hneg]; lia.
Qed.

(** [parseInt(String(n), 10) = n] for every integer [n] below [2^53] in
    magnitude. *)
Lemma parseInt_safe_integer (n : Z) :
  - 9007199254740992 < n < 9007199254740992 ->
  parseInt (string_of_Z n) = IntValue n.
Proof.
  intros Hn. rewrite parseInt_string_of_Z. apply number_of_safe_integer. exact Hn.
Qed.

(** A numeral is not the empty string. *)
Lemma string_of_Z_nonempty (n : Z) : String.eqb (string_of_Z n) "" = false.
Proof.
  unfold string_of_Z. destruct (n <? 0) eqn:Hneg; [reflexivity |].
  apply Z.ltb_ge in Hneg. unfold string_of_nonneg.
  destruct (digits_fuel_head (Z.to_nat (Z.log2 n)) n "" Hneg) as [d [r [_ Hs]]].
  rewrite Hs. reflexivity.
Qed.

(** ** The [Async] monad *)

Lemma bind_throw {A B} (m : Async A) (k : A -> Async B) (up : Upstream) (x : Exn) :
  outcome_of (m up) = Throw x -> outcome_of (bind m k up) = Throw x.
Proof.
  unfold bind, outcome_of. destruct (m up) as [t o]. cbn [snd].
  intros ->. reflexivity.
Qed.

Lemma bind_return {A B} (m : Async A) (k : A -> Async B) (up : Upstream) (a : A) :
  outcome_of (m up) = Return a -> outcome_of (bind m k up) = outcome_of (k a up).
Proof.
  unfold bind, outcome_of. destruct (m up) as [t o]. cbn [snd].
  intros ->. destruct (k a up). reflexivity.
Qed.

Lemma try_catch_total {A} (m : Async A) (h : Exn -> Async A) (up : Upstream) :
  (forall x, exists a, outcome_of (h x up) = Return a) ->
  exists a, outcome_of (try_catch m h up) = Return a.
Proof.
  intros Hh. unfold try_catch, outcome_of. destruct (m up) as [t [a | x]].
  - exists a. reflexivity.
  - destruct (Hh x) as [a Ha]. unfold outcome_of in Ha.
    destruct (h x up) as [t2 o2]. cbn [snd] in *. exists a. exact Ha.
Qed.

(** ** The request executor *)

Lemma getAuthHeaders_key (creds : TenantCredentials) (key : string) :
  apiKey creds = Some key -> key <> "" ->
  getAuthHeaders creds = Return [("Authorization", "Bearer " ++ key);
                                 ("Content-Type", "application/json")].
Proof.
  intros Hk Hne. unfold getAuthHeaders. rewrite Hk.
  destruct (String.eqb key "") eqn:He; [| reflexivity].
  apply String.eqb_eq in He. contradiction.
Qed.

Lemma request_with_key (creds : TenantCredentials) (key ep : string)
      (opts : RequestInit) (up : Upstream) :
  apiKey creds = Some key -> key <> "" ->
  request creds ep opts up =
  ([issued key ep opts],
   match up (issued key ep opts) with
   | Rejected => Throw FetchFailure
   | Responded response => handle_response response
   end).
Proof.
  intros Hk Hne. unfold request. rewrite (getAuthHeaders_key creds key Hk Hne).
  fold (issued key ep opts).
  destruct (up (issued key ep opts)); reflexivity.
Qed.

Lemma request_answering (creds : TenantCredentials) (key ep : string)
      (opts : RequestInit) (response : HttpResponse) :
  apiKey creds = Some key -> key <> "" ->
  request creds ep opts (answering response) =
  ([issued key ep opts], handle_response response).
Proof.
  intros Hk Hne. rewrite (request_with_key creds key ep opts _ Hk Hne).
  reflexivity.
Qed.

(** Without a key no request is issued. *)
Lemma request_without_key (creds : TenantCredentials) (ep : string)
      (opts : RequestInit) (up : Upstream) :
  apiKey creds = None \/ apiKey creds = Some "" ->
  request creds ep opts up =
  ([], Throw (Classified (AuthenticationError
                "No API key provided. Include X-SendGrid-API-Key header."))).
Proof.
  intros [Hk | Hk]; unfold request, getAuthHeaders; rewrite Hk; reflexivity.
Qed.

Lemma request_outcome_cases (creds : TenantCredentials) (ep : string)
      (opts : RequestInit) (up : Upstream) :
  (requests_of (request creds ep opts up) = [] /\
   outcome_of (request creds ep opts up) =
   Throw (Classified (AuthenticationError
            "No API key provided. Include X-SendGrid-API-Key header.")))
  \/ (exists req, requests_of (request creds ep opts up) = [req] /\
        up req = Rejected /\
        outcome_of (request creds ep opts up) = Throw FetchFailure)
  \/ (exists req response, requests_of (request creds ep opts up) = [req] /\
        up req = Responded response /\
        outcome_of (request creds ep opts up) = handle_response response).
Proof.
  destruct (apiKey creds) as [key |] eqn:Hk.
  - destruct (String.eqb key "") eqn:He.
    + apply String.eqb_eq in He. subst key. left.
      rewrite request_without_key by (right; exact Hk). split; reflexivity.
    + apply String.eqb_neq in He. right.
      rewrite (request_with_key creds key ep opts up Hk He).
      destruct (up (issued key ep opts)) as [response |] eqn:Hup.
      * right. exists (issued key ep opts), response. repeat split; assumption.
      * left. exists (issued key ep opts). repeat split; assumption.
  - left. rewrite request_without_key by (left; exact Hk). split; reflexivity.
Qed.

Lemma handle_response_429 (response : HttpResponse) :
  status response = 429 ->
  handle_response response =
  Throw (Classified
    (RateLimitError "Rate limit exceeded"
       match retry_after response with
       | Some s => if negb (String.eqb s "") then parseInt s else IntValue 60
       | None => IntValue 60
       end)).
Proof. intros Hs. unfold handle_response. rewrite Hs. reflexivity. Qed.

Lemma handle_response_rate_limit_only (response : HttpResponse) (m : string)
      (ra : ParsedInt) :
  handle_response response = Throw (Classified (RateLimitError m ra)) ->
  status response = 429.
Proof.
  unfold handle_response.
  destruct (status response =? 429) eqn:H429; [intros _; apply Z.eqb_eq; exact H429 |].
  destruct ((status response =? 401) || (status response =? 403)); [discriminate |].
  destruct (negb (response_ok response)); [discriminate |].
  destruct ((status response =? 204) || (status response =? 202)); [discriminate |].
  destruct (body response); discriminate.
Qed.

(** C4, the claim as stated fails: the retry-after is what [parseInt]
    makes of the header, a double.  A header that holds the numeral of
    [2^53 + 1] gives the retry-after [2^53], which is not the integer
    written in the header; and a header that holds an HTTP date, which
    is present but holds no integer, gives [NaN]. *)
Lemma retry_after_rounded_counterexample :
  outcome_of (request demo_credentials "/user/profile" no_options
                (answering huge_retry_response))
  = Throw (Classified (RateLimitError "Rate limit exceeded"
                                      (IntValue 9007199254740992)))
  /\ retry_after huge_retry_response = Some (string_of_Z 9007199254740993)
  /\ 9007199254740992 <> 9007199254740993
  /\ outcome_of (request demo_credentials "/user/profile" no_options
                   (answering dated_retry_response))
     = Throw (Classified (RateLimitError "Rate limit exceeded" NaN)).
Proof.
  split; [vm_compute; reflexivity |].
  split; [vm_compute; reflexivity |].
  split; [discriminate |].
  vm_compute. reflexivity.
Qed.

(** C4, amended.  Every response with status 429 makes the request
    executor raise the RateLimitError [Rate limit exceeded].  Its
    retry-after is [parseInt] of the [Retry-After] header when the header
    is present and not empty: the integer written in the header when the
    header is the decimal numeral of an integer below [2^53] in
    magnitude, and the Number value (the nearest double) of that integer
    for any numeral; it is 60 when the header is absent or empty.  A
    RateLimitError is raised for no other status (nor when no response
    was received at all). *)
Theorem rate_limit_classification
        (creds : TenantCredentials) (ep : string) (opts : RequestInit) (up : Upstream) :
  (forall key response,
      apiKey creds = Some key -> key <> "" ->
      up (issued key ep opts) = Responded response ->
      status response = 429 ->
      (exists retryAfter,
          outcome_of (request creds ep opts up) =
          Throw (Classified (RateLimitError "Rate limit exceeded" retryAfter)))
      /\ (forall s, retry_after response = Some s -> s <> "" ->
                    outcome_of (request creds ep opts up) =
                    Throw (Classified (RateLimitError "Rate limit exceeded"
                                                      (parseInt s))))
      /\ (forall n, retry_after response = Some (string_of_Z n) ->
                    - 9007199254740992 < n < 9007199254740992 ->
                    outcome_of (request creds ep opts up) =
                    Throw (Classified (RateLimitError "Rate limit exceeded"
                                                      (IntValue n))))
      /\ (forall n, retry_after response = Some (string_of_Z n) ->
                    outcome_of (request creds ep opts up) =
                    Throw (Classified
                             (RateLimitError "Rate limit exceeded"
                                (number_of_integer (n <? 0) (Z.abs n)))))
      /\ (retry_after response = None \/ retry_after response = Some "" ->
          outcome_of (request creds ep opts up) =
          Throw (Classified (RateLimitError "Rate limit exceeded" (IntValue 60)))))
  /\ (forall m ra,
        outcome_of (request creds ep opts up) = Throw (Classified (RateLimitError m ra)) ->
        exists req response,
          requests_of (request creds ep opts up) = [req] /\
          up req = Responded response /\ status response = 429).
Proof.
  split.
  - intros key response Hk Hne Hup H429.
    rewrite (request_with_key creds key ep opts up Hk Hne), Hup.
    unfold outcome_of; cbn [snd].
    rewrite (handle_response_429 response H429).
    split; [eexists; reflexivity |].
    split.
    { intros s Hs Hnes. rewrite Hs. apply String.eqb_neq in Hnes. rewrite Hnes.
      reflexivity. }
    split.
    { intros n Hn Hsafe. rewrite Hn, string_of_Z_nonempty. cbn [negb].
      rewrite (parseInt_safe_integer n Hsafe). reflexivity. }
    split.
    { intros n Hn. rewrite Hn, string_of_Z_nonempty. cbn [negb].
      rewrite parseInt_string_of_Z. reflexivity. }
    intros [Hn | Hn]; rewrite Hn; reflexivity.
  - intros m ra Hout.
    destruct (request_outcome_cases creds ep opts up)
      as [[_ Ho] | [[req [_ [_ Ho]]] | [req [response [Hreq [Hup Ho]]]]]].
    + rewrite Ho in Hout. discriminate.
    + rewrite Ho in Hout. discriminate.
    + exists req, response. repeat split; try assumption.
      rewrite Ho in Hout. eapply handle_response_rate_limit_only; exact Hout.
Qed.

Lemma rate_limit_classification_witness :
  outcome_of (request demo_credentials "/user/profile" no_options
                (answering {| status := 429; retry_after := Some "120"; body := EmptyText |}))
  = Throw (Classified (RateLimitError "Rate limit exceeded" (IntValue 120)))
  /\ outcome_of (request demo_credentials "/user/profile" no_options
                (answering {| status := 429; retry_after := None; body := EmptyText |}))
  = Throw (Classified (RateLimitError "Rate limit exceeded" (IntValue 60))).
Proof.
  split.
  - apply (proj1 (proj2 (proj2
             (proj1 (rate_limit_classification demo_credentials "/user/profile" no_options
                       (answering {| status := 429; retry_after := Some "120";
                                     body := EmptyText |}))
                "SG.demo-key" _ eq_refl ltac:(discriminate) eq_refl eq_refl)))
             120 eq_refl).
    lia.
  - apply (proj2 (proj2 (proj2 (proj2
             (proj1 (rate_limit_classification demo_credentials "/user/profile" no_options
                       (answering {| status := 429; retry_after := None;
                                     body := EmptyText |}))
                "SG.demo-key" _ eq_refl ltac:(discriminate) eq_refl eq_refl))))).
    left. reflexivity.
Defined.

(** ** Texts *)

(** The text of an array is the join of its elements with a comma. *)
Lemma js_to_string_array (l : list JsVal) :
  js_to_string (JArr l) = js_join "," l.
Proof. reflexivity. Qed.

Lemma join_elems_return (l : list JsVal) :
  (forall y, In y l -> has_text y = true -> exists s, js_to_string y = Return s) ->
  forallb has_text l = true ->
  exists ss, join_elems l = Return ss.
Proof.
  induction l as [| y r IH]; intros Hall Hl; [eexists; reflexivity |].
  cbn [forallb] in Hl. apply andb_true_iff in Hl. destruct Hl as [Hy Hr].
  cbn [join_elems].
  assert (Hj : exists s, join_elem y = Return s).
  { unfold join_elem.
    destruct y; try (eexists; reflexivity);
      apply (Hall _ (or_introl eq_refl) Hy). }
  destruct Hj as [s Hs]. rewrite Hs. cbn [obind].
  destruct (IH (fun y' Hin => Hall y' (or_intror Hin)) Hr) as [ss Hss].
  rewrite Hss. cbn [obind]. eexists. reflexivity.
Qed.

(** A value with a text is turned into text without an exception. *)
Lemma has_text_returns : forall v : JsVal,
    has_text v = true -> exists s, js_to_string v = Return s.
Proof.
  fix IH 1. intros v. destruct v as [| | b | n | s | items | fs]; intro Hv.
  - eexists; reflexivity.
  - eexists; reflexivity.
  - destruct b; eexists; reflexivity.
  - eexists; reflexivity.
  - eexists; reflexivity.
  - rewrite js_to_string_array. unfold js_join.
    change (forallb has_text items = true) in Hv.
    assert (Hel : forall y, In y items -> has_text y = true ->
                            exists s, js_to_string y = Return s).
    { clear Hv. revert items. fix IHl 1.
      intros [| y r] y' Hin; [contradiction |].
      destruct Hin as [<- | Hin]; [apply IH | apply (IHl r y' Hin)]. }
    destruct (join_elems_return items Hel Hv) as [ss Hss].
    rewrite Hss. cbn [obind]. eexists. reflexivity.
  - cbn [has_text] in Hv. cbn [js_to_string].
    destruct (assoc "toString" fs); [discriminate |]. eexists. reflexivity.
Qed.

Lemma js_join_has_text (sep : string) (l : list JsVal) :
  forallb has_text l = true -> js_join sep l = Return (joined_text sep l).
Proof.
  intro Hl. unfold joined_text.
  destruct (join_elems_return l (fun y _ => has_text_returns y) Hl) as [ss Hss].
  unfold js_join. rewrite Hss. reflexivity.
Qed.

(** ** The generic API error *)

Lemma map_get_defined (k : string) (es : list JsVal) :
  existsb nullish es = false ->
  map_get k es = Return (map (fun e => prop e k) es).
Proof.
  induction es as [| e es IH]; intros Hes; [reflexivity |].
  cbn [existsb] in Hes. apply orb_false_elim in Hes. destruct Hes as [He Hrest].
  cbn [map_get map]. unfold js_get at 1. rewrite He. cbn [obind].
  rewrite (IH Hrest). reflexivity.
Qed.

Lemma map_get_nullish (k : string) (es : list JsVal) :
  existsb nullish es = true -> map_get k es = Throw TypeError.
Proof.
  induction es as [| e es IH]; intros Hes; [discriminate |].
  cbn [existsb] in Hes. cbn [map_get]. unfold js_get at 1.
  destruct (nullish e); [reflexivity |].
  cbn [orb] in Hes. cbn [obind]. rewrite (IH Hes). reflexivity.
Qed.

Lemma handle_response_generic (response : HttpResponse) :
  response_ok response = false ->
  status response <> 429 -> status response <> 401 -> status response <> 403 ->
  handle_response response =
  Throw (Classified (SendGridApiError (error_message response) (status response))).
Proof.
  intros Hok H429 H401 H403. unfold handle_response.
  apply Z.eqb_neq in H429, H401, H403.
  rewrite H429, H401, H403, Hok. reflexivity.
Qed.

(** C5, the claim as stated fails: a 400 response whose body is
    [{"message": ""}] has a top-level message field, yet the error carries
    the fallback message, because the field is tested for truthiness. *)
Lemma generic_error_message_counterexample :
  outcome_of (request demo_credentials "/mail/send" no_options
                (answering empty_message_response))
  = Throw (Classified (SendGridApiError (JStr "API error: 400") 400))
  /\ spec_error_message empty_message_response = JStr ""
  /\ error_message empty_message_response <> spec_error_message empty_message_response.
Proof.
  split; [reflexivity | split; [reflexivity |]].
  vm_compute. discriminate.
Qed.

(** A message that [join] cannot turn into text leaves the default
    message. *)
Example unprintable_message_falls_back :
  outcome_of (request demo_credentials "/mail/send" no_options
                (answering unprintable_error_response))
  = Throw (Classified (SendGridApiError (JStr "API error: 400") 400)).
Proof. reflexivity. Qed.

(** C5, amended.  A response whose status is not 2xx and is none of 429,
    401, 403 makes the request executor raise the generic API error with
    the response status, and with this message: when the body parses to a
    value whose [errors] is an array without [null] entries whose
    [message] fields all have a text (strings, missing fields, [null],
    booleans, integers below [2^53] in magnitude, arrays of such, objects
    without a [toString] property of their own), the join with [", "] of
    these fields; when [errors] is not an array and the top-level
    [message] field is truthy, that field; and the text
    [API error: <status>] when the body is empty or unparsable, when the
    [errors] array has a [null] entry, when [join] raises an exception on
    a [message] (an object with a [toString] property of its own), and
    when [errors] is not an array and [message] is missing or falsy. *)
Theorem generic_error_classification
        (creds : TenantCredentials) (key ep : string) (opts : RequestInit)
        (up : Upstream) (response : HttpResponse) :
  apiKey creds = Some key -> key <> "" ->
  up (issued key ep opts) = Responded response ->
  response_ok response = false ->
  status response <> 429 -> status response <> 401 -> status response <> 403 ->
  outcome_of (request creds ep opts up) =
    Throw (Classified (SendGridApiError (error_message response) (status response)))
  /\ (forall j es,
        body response = Parsed j -> prop j "errors" = JArr es ->
        existsb nullish es = false ->
        forallb has_text (map (fun e => prop e "message") es) = true ->
        error_message response
        = JStr (joined_text ", " (map (fun e => prop e "message") es)))
  /\ (forall j es x,
        body response = Parsed j -> prop j "errors" = JArr es ->
        existsb nullish es = false ->
        js_join ", " (map (fun e => prop e "message") es) = Throw x ->
        error_message response = fallback_message response)
  /\ (forall j,
        body response = Parsed j -> isArray (prop j "errors") = false ->
        truthy (prop j "message") = true ->
        error_message response = prop j "message")
  /\ (forall j es,
        body response = Parsed j -> prop j "errors" = JArr es ->
        existsb nullish es = true ->
        error_message response = fallback_message response)
  /\ (forall j,
        body response = Parsed j -> isArray (prop j "errors") = false ->
        truthy (prop j "message") = false ->
        error_message response = fallback_message response)
  /\ (body response = EmptyText \/ body response = Unparsable ->
      error_message response = fallback_message response).
Proof.
  intros Hk Hne Hup Hok H429 H401 H403.
  split.
  { rewrite (request_with_key creds key ep opts up Hk Hne), Hup.
    unfold outcome_of; cbn [snd].
    apply handle_response_generic; assumption. }
  unfold error_message, fallback_message.
  repeat split.
  - intros j es Hb He Hes Htext. rewrite Hb. unfold extract_message, js_get.
    destruct (nullish j) eqn:Hj; [destruct j; discriminate |].
    cbn [obind]. rewrite He. cbn [truthy isArray andb elements].
    rewrite (map_get_defined "message" es Hes). cbn [obind].
    rewrite (js_join_has_text ", " _ Htext). reflexivity.
  - intros j es x Hb He Hes Hjoin. rewrite Hb. unfold extract_message, js_get.
    destruct (nullish j) eqn:Hj; [destruct j; discriminate |].
    cbn [obind]. rewrite He. cbn [truthy isArray andb elements].
    rewrite (map_get_defined "message" es Hes). cbn [obind].
    rewrite Hjoin. reflexivity.
  - intros j Hb He Hm. rewrite Hb. unfold extract_message, js_get.
    destruct (nullish j) eqn:Hj; [destruct j; discriminate |].
    cbn [obind]. rewrite He, andb_false_r, Hm. reflexivity.
  - intros j es Hb He Hes. rewrite Hb. unfold extract_message, js_get.
    destruct (nullish j) eqn:Hj; [reflexivity |].
    cbn [obind]. rewrite He. cbn [truthy isArray andb elements].
    rewrite (map_get_nullish "message" es Hes). reflexivity.
  - intros j Hb He Hm. rewrite Hb. unfold extract_message, js_get.
    destruct (nullish j) eqn:Hj; [reflexivity |].
    cbn [obind]. rewrite He, andb_false_r, Hm. reflexivity.
  - intros [Hb | Hb]; rewrite Hb; reflexivity.
Qed.

Lemma generic_error_classification_witness :
  outcome_of (request demo_credentials "/mail/send" (with_method "POST")
                (answering two_errors_response))
  = Throw (Classified (SendGridApiError (error_message two_errors_response) 400))
  /\ error_message two_errors_response = JStr "Bad from address, Missing subject".
Proof.
  pose proof (generic_error_classification demo_credentials "SG.demo-key" "/mail/send"
                (with_method "POST") (answering two_errors_response) two_errors_response
                eq_refl ltac:(discriminate) eq_refl eq_refl
                ltac:(discriminate) ltac:(discriminate) ltac:(discriminate))
    as [Hout [Hjoin _]].
  split; [exact Hout |].
  exact (Hjoin _ _ eq_refl eq_refl eq_refl eq_refl).
Defined.

(** ** Inversion of [Async] computations *)

Lemma bind_inv {A B} (m : Async A) (k : A -> Async B) (up : Upstream) (b : B) :
  outcome_of (bind m k up) = Return b ->
  exists a, outcome_of (m up) = Return a /\ outcome_of (k a up) = Return b.
Proof.
  unfold bind, outcome_of. destruct (m up) as [t [a | x]]; cbn [snd].
  - destruct (k a up) as [t2 o2] eqn:Hk. cbn [snd]. intros ->.
    exists a. split; [reflexivity |]. rewrite Hk. reflexivity.
  - discriminate.
Qed.

Lemma lift_outcome {A} (o : Outcome A) (up : Upstream) : outcome_of (lift o up) = o.
Proof. reflexivity. Qed.

Lemma ret_outcome {A} (a : A) (up : Upstream) : outcome_of (ret a up) = Return a.
Proof. reflexivity. Qed.

Ltac invert_async H :=
  repeat
    (match type of H with
     | outcome_of (bind _ _ _) = Return _ =>
         let a := fresh "v" in
         let Ha := fresh "Hv" in
         apply bind_inv in H; destruct H as [a [Ha H]]
     | outcome_of (lift _ _) = Return _ => rewrite lift_outcome in H
     | outcome_of (ret _ _) = Return _ => rewrite ret_outcome in H
     end);
  try (injection H as H).

(** ** Paginated results *)

(** [count] is the length of [items] whenever [items] came out as an
    array, whatever the upstream put in the result field. *)
Lemma page_items_count (r : JsVal) (l : list JsVal) :
  js_or r (JArr []) = JArr l ->
  js_or (js_get_opt r "length") (JNum 0) = JNum (Zlength_of l).
Proof.
  unfold js_or. destruct r as [| | b | n | s | l' | fs]; cbn [truthy].
  - intros H; injection H as <-. reflexivity.
  - intros H; injection H as <-. reflexivity.
  - destruct b; [discriminate |]. intros H; injection H as <-. reflexivity.
  - destruct (n =? 0); cbn [negb]; [| discriminate].
    intros H; injection H as <-. reflexivity.
  - destruct (String.eqb s "") eqn:Hs; cbn [negb]; [| discriminate].
    apply String.eqb_eq in Hs. subst s. intros H; injection H as <-. reflexivity.
  - intros H; injection H as ->.
    cbn [js_get_opt nullish prop String.eqb Ascii.eqb Bool.eqb].
    change (String.eqb "length" "length") with true. cbn iota.
    cbn [truthy]. destruct (Zlength_of l =? 0) eqn:Hz; cbn [negb]; [| reflexivity].
    apply Z.eqb_eq in Hz. rewrite Hz. reflexivity.
  - discriminate.
Qed.

(** Every Paginated Result is built from one value [r], the upstream's
    result field: its [items] is [r || []] and its [count] is
    [r?.length || 0]. *)
Lemma paginated_shape (creds : TenantCredentials) (em : Exn -> string)
      (op : Operation) (up : Upstream) (p : JsVal) :
  paginated op = true ->
  outcome_of (perform creds em op up) = Return p ->
  exists r, prop p "items" = js_or r (JArr []) /\
            prop p "count" = js_or (js_get_opt r "length") (JNum 0).
Proof.
  intros Hop H.
  destruct op; try discriminate Hop; cbn [perform] in H;
    match type of H with
    | outcome_of (?f _ _ _ _ _ _) = _ => unfold f in H
    | outcome_of (?f _ _ _ _ _) = _ => unfold f in H
    | outcome_of (?f _ _ _ _) = _ => unfold f in H
    | outcome_of (?f _ _ _) = _ => unfold f in H
    | outcome_of (?f _ _) = _ => unfold f in H
    end;
    cbv zeta in H; invert_async H; subst p;
    eexists; split; reflexivity.
Qed.

(** C7, the claim as stated fails: when the upstream's [result] is an
    object and not an array, [listContactLists] returns it as [items] with
    [count] 0, although [items] is no array and has no length. *)
Lemma count_items_length_counterexample :
  outcome_of (listContactLists demo_credentials (answering object_result_response))
  = Return (JObj [("items", JObj [("a", JNum 1)]); ("count", JNum 0);
                  ("hasMore", JBool false)])
  /\ isArray (JObj [("a", JNum 1)]) = false
  /\ prop (JObj [("a", JNum 1)]) "length" = JUndefined.
Proof. repeat split. Qed.

(** C7, amended.  In every Paginated Result that a client operation
    constructs, for every upstream response: when [items] is an array
    (the upstream's list is an array, or is missing, [null] or falsy in
    another way, which gives the empty array), [count] is its length;
    when [items] is not an array (the upstream's list is a truthy value
    of another kind, which is passed on as it is), [count] is
    [items.length || 0]. *)
Theorem paginated_count_is_items_length
        (creds : TenantCredentials) (em : Exn -> string)
        (op : Operation) (up : Upstream) (p : JsVal) :
  paginated op = true ->
  outcome_of (perform creds em op up) = Return p ->
  (forall l, prop p "items" = JArr l -> prop p "count" = JNum (Zlength_of l))
  /\ (isArray (prop p "items") = false ->
      prop p "count" = js_or (prop (prop p "items") "length") (JNum 0)).
Proof.
  intros Hop Hout.
  destruct (paginated_shape creds em op up p Hop Hout) as [r [Hi Hc]].
  split.
  - intros l Hitems. rewrite Hc. apply page_items_count. rewrite <- Hi. exact Hitems.
  - intro Hna. rewrite Hc, Hi in *. unfold js_or in *.
    destruct (truthy r) eqn:Hr; [| discriminate Hna].
    unfold js_get_opt. destruct r; try discriminate Hr; reflexivity.
Qed.

Lemma paginated_count_is_items_length_witness :
  outcome_of (perform demo_credentials no_engine_message (ListContacts JUndefined)
                (answering two_contacts_response)) = Return two_contacts_page
  /\ prop two_contacts_page "count" = JNum (Zlength_of two_contacts).
Proof.
  split; [reflexivity |].
  exact (proj1 (paginated_count_is_items_length demo_credentials no_engine_message
                  (ListContacts JUndefined) (answering two_contacts_response)
                  two_contacts_page eq_refl eq_refl)
           two_contacts eq_refl).
Defined.

(** A missing result field gives the empty page. *)
Example listContactLists_missing_result :
  outcome_of (listContactLists demo_credentials
                (answering {| status := 200; retry_after := None;
                              body := Parsed (JObj []) |}))
  = Return (JObj [("items", JArr []); ("count", JNum 0); ("hasMore", JBool false)]).
Proof. reflexivity. Qed.

Lemma strict_eq_count (v : JsVal) (limit : Z) :
  limit <> 0 ->
  strict_eq_num (js_or v (JNum 0)) limit = strict_eq_num v limit.
Proof.
  intros Hl. apply Z.eqb_neq in Hl. rewrite Z.eqb_sym in Hl.
  unfold js_or. destruct v as [| | b | n | s | l | fs]; cbn [truthy strict_eq_num];
    try exact Hl; try reflexivity.
  - destruct b; [reflexivity | exact Hl].
  - destruct (n =? 0) eqn:Hn; cbn [negb strict_eq_num]; [| reflexivity].
    apply Z.eqb_eq in Hn. subst n. reflexivity.
  - destruct (String.eqb s ""); cbn [negb strict_eq_num]; [exact Hl | reflexivity].
Qed.

(** C1, the claim as stated fails: [listBounces] with [limit = 1], answered
    with one bounce, returns [hasMore: true]. *)
Lemma no_cursor_hasMore_counterexample :
  exists p,
    outcome_of (listBounces demo_credentials None None (Some 1) None
                  (answering one_bounce_response)) = Return p
    /\ prop p "hasMore" = JBool true.
Proof. eexists. split; reflexivity. Qed.

(** C1, amended.  For every upstream response, the Paginated Result of
    listContactLists, listSegments, listSingleSends, searchContacts,
    listApiKeys and listSenderIdentities has [hasMore] false and no
    [nextPageToken]; that of listBounces, listBlocks, listSpamReports,
    listInvalidEmails and listGlobalSuppressions has no [nextPageToken],
    and its [hasMore] says whether [count] equals the limit in force (500
    by default), for a limit other than 0. *)
Theorem no_cursor_pagination
        (creds : TenantCredentials) (em : Exn -> string)
        (op : Operation) (up : Upstream) (p : JsVal) :
  outcome_of (perform creds em op up) = Return p ->
  (plain_list op = true ->
   prop p "hasMore" = JBool false /\ assoc "nextPageToken" (own_fields p) = None)
  /\ (forall limit,
        page_limit op = Some limit ->
        assoc "nextPageToken" (own_fields p) = None
        /\ (limit <> 0 ->
            prop p "hasMore" = JBool (strict_eq_num (prop p "count") limit))).
Proof.
  intros H. split.
  - intros Hop.
    destruct op; try discriminate Hop; cbn [perform] in H;
      match type of H with
      | outcome_of (?f _ _ _) = _ => unfold f in H
      | outcome_of (?f _ _) = _ => unfold f in H
      end;
      cbv zeta in H; invert_async H; subst p; split; reflexivity.
  - intros lim Hop.
    destruct op; try discriminate Hop; cbn [perform] in H;
      cbn [page_limit] in Hop; injection Hop as <-;
      match type of H with
      | outcome_of (?f _ _ _ _ _ _) = _ => unfold f in H
      end;
      cbv zeta in H; invert_async H; subst p;
      (split; [reflexivity |]);
      intros Hl; unfold page_of;
      cbn [prop assoc String.eqb Ascii.eqb Bool.eqb];
      rewrite (strict_eq_count _ _ Hl); reflexivity.
Qed.

Lemma no_cursor_pagination_witness :
  (exists p,
     outcome_of (perform demo_credentials no_engine_message ListContactLists
                   (answering two_contacts_response)) = Return p
     /\ prop p "hasMore" = JBool false
     /\ assoc "nextPageToken" (own_fields p) = None)
  /\ (exists p,
        outcome_of (perform demo_credentials no_engine_message
                      (ListBounces None None (Some 1) None)
                      (answering one_bounce_response)) = Return p
        /\ prop p "hasMore" = JBool (strict_eq_num (prop p "count") 1)).
Proof.
  split.
  - eexists. split; [reflexivity |].
    exact (proj1 (no_cursor_pagination demo_credentials no_engine_message
                    ListContactLists (answering two_contacts_response) _ eq_refl)
             eq_refl).
  - eexists. split; [reflexivity |].
    refine (proj2 (proj2 (no_cursor_pagination demo_credentials no_engine_message
                            (ListBounces None None (Some 1) None)
                            (answering one_bounce_response) _ eq_refl) 1 eq_refl) _).
    discriminate.
Defined.

(** ** Propagation of errors *)

Lemma try_catch_throw {A} (m : Async A) (h : Exn -> Async A) (up : Upstream) (x : Exn) :
  outcome_of (m up) = Throw x ->
  outcome_of (try_catch m h up) = outcome_of (h x up).
Proof.
  unfold try_catch, outcome_of. destruct (m up) as [t o]. cbn [snd].
  intros ->. destruct (h x up). reflexivity.
Qed.

Ltac head_of t :=
  match t with
  | ?f _ => head_of f
  | _ => t
  end.

Ltac unfold_performed :=
  match goal with
  | |- context [perform ?c ?e ?o] =>
      let t := eval cbn [perform] in (perform c e o) in
      let h := head_of t in
      cbn [perform]; unfold h
  end.

(** C2, the claim as stated fails: [getContactByEmail] turns an
    authentication failure and a rate limit into [null], and
    [validateBatchId] turns them into [{valid: false}]. *)
Lemma lookup_swallows_errors_counterexample :
  outcome_of (request demo_credentials "/marketing/contacts/search/emails"
                (with_body "POST"
                   (JSON_stringify (JObj [("emails", JArr [JStr "a@example.com"])])))
                (answering unauthorized_response))
  = Throw (Classified (AuthenticationError "Authentication failed. Check your API key."))
  /\ outcome_of (getContactByEmail demo_credentials "a@example.com"
                   (answering unauthorized_response)) = Return JNull
  /\ outcome_of (getContactByEmail demo_credentials "a@example.com"
                   (answering throttled_response)) = Return JNull
  /\ outcome_of (validateBatchId demo_credentials "batch-1"
                   (answering throttled_response))
     = Return (JObj [("valid", JBool false)]).
Proof. repeat split. Qed.

(** C2, amended.  Every client operation calls the request executor, and
    whatever exception that call raises (classified or not), every
    operation other than testConnection, getContactByEmail,
    getGlobalSuppression and validateBatchId raises that same exception;
    those four catch every exception and return, in its place,
    [{connected: false, message}], [null], [null] and [{valid: false}]. *)
Theorem errors_propagate
        (creds : TenantCredentials) (em : Exn -> string) (op : Operation) :
  exists ep opts, forall up x,
    outcome_of (request creds ep opts up) = Throw x ->
    (catches_everything op = false ->
     outcome_of (perform creds em op up) = Throw x)
    /\ (catches_everything op = true ->
        outcome_of (perform creds em op up) =
        Return match op with
               | TestConnection =>
                   JObj [("connected", JBool false);
                         ("message", JStr (exn_message em x))]
               | ValidateBatchId _ => JObj [("valid", JBool false)]
               | _ => JNull
               end).
Proof.
  destruct op; cbn [catches_everything]; unfold_performed; cbv zeta;
    repeat match goal with
           | |- context [if ?b then _ else _] => destruct b
           end;
    unfold void;
    eexists; eexists; intros up x H;
    (split; intros Hop; try discriminate Hop);
    try (rewrite (try_catch_throw _ _ up x); [reflexivity |]);
    repeat apply bind_throw; exact H.
Qed.

Lemma errors_propagate_witness :
  outcome_of (perform demo_credentials no_engine_message (GetSegment "seg-1")
                (answering unauthorized_response))
  = Throw (Classified (AuthenticationError "Authentication failed. Check your API key."))
  /\ outcome_of (perform demo_credentials no_engine_message (GetContactByEmail "a@example.com")
                   (answering unauthorized_response))
     = Return JNull.
Proof.
  split.
  - destruct (errors_propagate demo_credentials no_engine_message (GetSegment "seg-1"))
      as [ep [opts H]].
    exact (proj1 (H (answering unauthorized_response) _ eq_refl) eq_refl).
  - destruct (errors_propagate demo_credentials no_engine_message
                (GetContactByEmail "a@example.com")) as [ep [opts H]].
    exact (proj2 (H (answering unauthorized_response) _ eq_refl) eq_refl).
Defined.

(** ** Field names of payloads and results *)

(** [createSegment] renames its fields and leaves the absent one out. *)
Example createSegment_payload :
  map req_body (requests_of (createSegment demo_credentials segment_input
                               (answering segment_created_response)))
  = [Some (JObj [("name", JStr "VIP");
                 ("query_dsl", JStr "SELECT contact_id FROM contact_data")])].
Proof. reflexivity. Qed.

(** C3, the code at the failing inputs.  [inviteTeammate] and [sendEmail]
    serialise their camel-style input as it is, so the payloads carry the
    keys [isAdmin], [templateId] and [sendAt], where the sibling
    [updateTeammatePermissions] sends [is_admin]; and [createSegment]
    returns the upstream object as it is, with its key [contacts_count]. *)
Lemma field_naming_failing_inputs :
  (map req_body (requests_of (inviteTeammate demo_credentials teammate_invitation
                                (answering accepted_response)))
   = [Some teammate_invitation]
   /\ json_keys teammate_invitation = ["email"; "scopes"; "isAdmin"]
   /\ forallb is_lower_snake (json_keys teammate_invitation) = false)
  /\ json_keys (updateTeammatePermissions_body ["mail.send"] (Some true))
     = ["scopes"; "is_admin"]
  /\ (map (option_map json_keys)
          (map req_body (requests_of (sendEmail demo_credentials templated_email
                                        (answering accepted_response))))
      = [Some ["personalizations"; "from"; "templateId"; "sendAt"]]
      /\ forallb is_lower_snake ["personalizations"; "from"; "templateId"; "sendAt"] = false)
  /\ (exists segment,
        outcome_of (createSegment demo_credentials segment_input
                      (answering segment_created_response)) = Return segment
        /\ json_keys segment = ["id"; "name"; "contacts_count"; "query_dsl"]
        /\ forallb is_camel (json_keys segment) = false).
Proof.
  repeat split.
  eexists. repeat split.
Qed.

(** ** Email validation *)

(** C8.  When [validateEmail] is called without a source, every request
    it issues has the body [{email}], with no [source] key; and with a
    tenant key it issues exactly one request. *)
Theorem validateEmail_omits_source
        (creds : TenantCredentials) (email : string) (up : Upstream) :
  (forall req, In req (requests_of (validateEmail creds email None up)) ->
               req_body req = Some (JObj [("email", JStr email)]))
  /\ (forall key, apiKey creds = Some key -> key <> "" ->
        exists req, requests_of (validateEmail creds email None up) = [req]
                    /\ req_body req = Some (JObj [("email", JStr email)]))
  /\ json_keys (validateEmail_body email None) = ["email"].
Proof.
  unfold validateEmail.
  repeat split.
  - intros req Hin.
    destruct (request_outcome_cases creds "/validations/email"
                (with_body "POST" (JSON_stringify (validateEmail_body email None))) up)
      as [[Hreq _] | [[r [Hreq _]] | [r [response [Hreq _]]]]].
    + rewrite Hreq in Hin. destruct Hin.
    + pose proof Hin as Hin'. rewrite Hreq in Hin'. destruct Hin' as [<- | []].
      clear Hin. revert Hreq. unfold request.
      destruct (getAuthHeaders creds); [| discriminate].
      match goal with |- context [up ?q] => destruct (up q) end;
        intros Hreq; injection Hreq as <-; reflexivity.
    + pose proof Hin as Hin'. rewrite Hreq in Hin'. destruct Hin' as [<- | []].
      clear Hin. revert Hreq. unfold request.
      destruct (getAuthHeaders creds); [| discriminate].
      match goal with |- context [up ?q] => destruct (up q) end;
        intros Hreq; injection Hreq as <-; reflexivity.
  - intros key Hk Hne. rewrite (request_with_key creds key _ _ up Hk Hne).
    eexists. split; reflexivity.
Qed.

Lemma validateEmail_omits_source_witness :
  exists req,
    requests_of (validateEmail demo_credentials "a@example.com" None
                   (answering accepted_response)) = [req]
    /\ req_body req = Some (JObj [("email", JStr "a@example.com")]).
Proof.
  exact (proj1 (proj2 (validateEmail_omits_source demo_credentials "a@example.com"
                         (answering accepted_response)))
           "SG.demo-key" eq_refl ltac:(discriminate)).
Defined.

(** ** Scheduled sends *)

Lemma handle_response_ok (response : HttpResponse) :
  response_ok response = true ->
  handle_response response =
  if (status response =? 204) || (status response =? 202) then Return JUndefined
  else match body response with
       | EmptyText => Return JUndefined
       | Unparsable => Throw SyntaxError
       | Parsed v => Return v
       end.
Proof.
  intros Hok. unfold handle_response. rewrite Hok. cbn [negb].
  unfold response_ok in Hok. apply andb_prop in Hok. destruct Hok as [Hlo Hhi].
  apply Z.leb_le in Hlo, Hhi.
  assert (H429 : (status response =? 429) = false) by (apply Z.eqb_neq; lia).
  assert (H401 : (status response =? 401) = false) by (apply Z.eqb_neq; lia).
  assert (H403 : (status response =? 403) = false) by (apply Z.eqb_neq; lia).
  rewrite H429, H401, H403. reflexivity.
Qed.

(** C9, the claim as stated fails for the empty body: the request
    executor returns [undefined], and indexing [undefined] raises a
    [TypeError] instead of producing an [undefined] result. *)
Lemma getScheduledSend_empty_body_counterexample :
  outcome_of (getScheduledSend demo_credentials "batch-1" (answering empty_body_response))
  = Throw TypeError
  /\ outcome_of (getScheduledSend demo_credentials "batch-1" (answering empty_body_response))
     <> Return JUndefined.
Proof. split; [reflexivity | discriminate]. Qed.

(** C9, amended.  [getScheduledSend] takes its result by unguarded
    indexing at position 0 of the parsed response: a success response
    whose body is the empty JSON array produces [undefined], neither a
    ScheduledSend nor an error; a success response without a body (an
    empty text, or status 202 or 204) makes the indexing raise a
    [TypeError]. *)
Theorem getScheduledSend_unguarded_index
        (creds : TenantCredentials) (key batchId : string)
        (up : Upstream) (response : HttpResponse) :
  apiKey creds = Some key -> key <> "" ->
  up (issued key ("/user/scheduled_sends/" ++ batchId) no_options) = Responded response ->
  response_ok response = true ->
  (status response <> 204 -> status response <> 202 ->
   body response = Parsed (JArr []) ->
   outcome_of (getScheduledSend creds batchId up) = Return JUndefined)
  /\ (status response = 204 \/ status response = 202 \/ body response = EmptyText ->
      outcome_of (getScheduledSend creds batchId up) = Throw TypeError).
Proof.
  intros Hk Hne Hup Hok.
  assert (Hreq : outcome_of (request creds ("/user/scheduled_sends/" ++ batchId)
                               no_options up) = handle_response response).
  { rewrite (request_with_key creds key _ _ up Hk Hne), Hup. reflexivity. }
  rewrite (handle_response_ok response Hok) in Hreq.
  unfold getScheduledSend. split.
  - intros H204 H202 Hb.
    apply Z.eqb_neq in H204, H202. rewrite H204, H202, Hb in Hreq. cbn [orb] in Hreq.
    rewrite (bind_return _ _ up _ Hreq). reflexivity.
  - intros Hcases.
    assert (Hundef : outcome_of (request creds ("/user/scheduled_sends/" ++ batchId)
                                   no_options up) = Return JUndefined).
    { rewrite Hreq. destruct Hcases as [H | [H | H]].
      - rewrite H. reflexivity.
      - rewrite H. reflexivity.
      - rewrite H. destruct ((status response =? 204) || (status response =? 202));
          reflexivity. }
    rewrite (bind_return _ _ up _ Hundef). reflexivity.
Qed.

Lemma getScheduledSend_unguarded_index_witness :
  outcome_of (getScheduledSend demo_credentials "batch-1" (answering empty_array_response))
  = Return JUndefined
  /\ outcome_of (getScheduledSend demo_credentials "batch-1" (answering accepted_response))
     = Throw TypeError.
Proof.
  split.
  - exact (proj1 (getScheduledSend_unguarded_index demo_credentials "SG.demo-key" "batch-1"
                    (answering empty_array_response) empty_array_response
                    eq_refl ltac:(discriminate) eq_refl eq_refl)
             ltac:(discriminate) ltac:(discriminate) eq_refl).
  - exact (proj2 (getScheduledSend_unguarded_index demo_credentials "SG.demo-key" "batch-1"
                    (answering accepted_response) accepted_response
                    eq_refl ltac:(discriminate) eq_refl eq_refl)
             (or_intror (or_introl eq_refl))).
Defined.

(** ** The bulk-delete tools *)

(** C6, the claim as stated fails on the message: [sendgrid_delete_blocks]
    without arguments issues no request and returns an error envelope, but
    its message is [Either emails or deleteAll required]. *)
Lemma bulk_delete_message_counterexample :
  run_bulk_delete demo_credentials no_engine_message no_details
                  DeleteBlocksTool None None (answering accepted_response)
  = ([], Return (json_error_response
                   (JObj [("error", JStr "Either emails or deleteAll required")])))
  /\ run_bulk_delete demo_credentials no_engine_message no_details
                     DeleteBlocksTool None None (answering accepted_response)
     <> ([], Return (json_error_response
                       (JObj [("error", JStr (spec_validation_message DeleteBlocksTool))]))).
Proof. split; [reflexivity | discriminate]. Qed.

(** C6, amended.  A bulk-delete tool invoked with neither the identifier
    or email array nor a true deleteAll flag issues no HTTP request and
    returns an error envelope with its local validation message: [Either
    ids or deleteAll must be provided] for contacts, [Either emails or
    deleteAll must be provided] for bounces, [Either emails or deleteAll
    required] for blocks, spam reports and invalid emails. *)
Theorem bulk_delete_requires_target
        (creds : TenantCredentials) (em : Exn -> string) (details : Exn -> JsVal)
        (tool : BulkDeleteTool) (up : Upstream) :
  let rejected :=
    ([], Return {| content := [ {| type := "text";
                                   text := Some (JObj [("error",
                                                  JStr (validation_message tool))]) |} ];
                   isError := Some true |}) in
  run_bulk_delete creds em details tool None None up = rejected
  /\ run_bulk_delete creds em details tool None (Some false) up = rejected.
Proof.
  destruct tool; split; reflexivity.
Qed.

(** C10.  [sendgrid_delete_contacts] with [ids] the empty array and
    deleteAll absent or false passes the guard, which tests only that the
    argument is there, and issues a DELETE whose query string carries an
    empty [ids] parameter; without [ids] it issues no request. *)
Theorem delete_contacts_empty_ids
        (creds : TenantCredentials) (em : Exn -> string) (details : Exn -> JsVal)
        (key : string) (deleteAll : option bool) (up : Upstream) :
  apiKey creds = Some key -> key <> "" -> deleteAll <> Some true ->
  neither_given (Some []) deleteAll = false
  /\ requests_of (sendgrid_delete_contacts creds em details (Some []) deleteAll up)
     = [ {| req_url := "https://api.sendgrid.com/v3/marketing/contacts?ids=";
            req_method := Some "DELETE";
            req_headers := [("Authorization", "Bearer " ++ key);
                            ("Content-Type", "application/json")];
            req_body := None |} ]
  /\ requests_of (sendgrid_delete_contacts creds em details None deleteAll up) = [].
Proof.
  intros Hk Hne Hall.
  assert (Hflag : default false deleteAll = false).
  { destruct deleteAll as [[|] |]; [contradiction Hall | |]; reflexivity. }
  split; [reflexivity |]. split.
  - unfold sendgrid_delete_contacts, neither_given. cbn [negb andb].
    unfold deleteContacts. rewrite Hflag. cbn [default].
    unfold try_catch, bind, requests_of.
    rewrite (request_with_key creds key _ _ up Hk Hne).
    match goal with |- context [up ?q] => destruct (up q) as [response |] end.
    + destruct (handle_response response) as [result | x]; [| reflexivity].
      unfold lift. destruct (js_get result "job_id"); reflexivity.
    + reflexivity.
  - unfold sendgrid_delete_contacts, neither_given. rewrite Hflag. reflexivity.
Qed.

Lemma delete_contacts_empty_ids_witness :
  requests_of (sendgrid_delete_contacts demo_credentials no_engine_message no_details
                 (Some []) None (answering accepted_response))
  = [ {| req_url := "https://api.sendgrid.com/v3/marketing/contacts?ids=";
         req_method := Some "DELETE";
         req_headers := [("Authorization", "Bearer SG.demo-key");
                         ("Content-Type", "application/json")];
         req_body := None |} ].
Proof.
  exact (proj1 (proj2 (delete_contacts_empty_ids demo_credentials no_engine_message
                         no_details "SG.demo-key" None (answering accepted_response)
                         eq_refl ltac:(discriminate) ltac:(discriminate)))).
Defined.

(* ================================================================== *)
(** * Further properties of the request executor and the client *)
(* ================================================================== *)

(** X1.  A response with status 401 or 403 makes the request executor
    raise the AuthenticationError with its fixed message, whatever the
    body and the headers of the response. *)
Theorem authentication_failure_classification
        (creds : TenantCredentials) (key ep : string) (opts : RequestInit)
        (up : Upstream) (response : HttpResponse) :
  apiKey creds = Some key -> key <> "" ->
  up (issued key ep opts) = Responded response ->
  status response = 401 \/ status response = 403 ->
  outcome_of (request creds ep opts up) =
  Throw (Classified (AuthenticationError "Authentication failed. Check your API key.")).
Proof.
  intros Hk Hne Hup Hs.
  rewrite (request_with_key creds key ep opts up Hk Hne), Hup.
  unfold outcome_of; cbn [snd]. unfold handle_response.
  destruct Hs as [Hs | Hs]; rewrite Hs; reflexivity.
Qed.

Lemma authentication_failure_classification_witness :
  outcome_of (request demo_credentials "/templates" no_options (answering forbidden_response))
  = Throw (Classified (AuthenticationError "Authentication failed. Check your API key.")).
Proof.
  exact (authentication_failure_classification demo_credentials "SG.demo-key" "/templates"
           no_options (answering forbidden_response) forbidden_response
           eq_refl ltac:(discriminate) eq_refl (or_intror eq_refl)).
Defined.

(** X2.  A 2xx response is a success: with status 202 or 204 the request
    executor returns [undefined] without looking at the body; with any
    other 2xx status it returns [undefined] for an empty text, the parsed
    value unchanged for a text that parses, and lets the [SyntaxError] of
    [JSON.parse] escape, unclassified, for a text that does not parse. *)
Theorem success_classification
        (creds : TenantCredentials) (key ep : string) (opts : RequestInit)
        (up : Upstream) (response : HttpResponse) :
  apiKey creds = Some key -> key <> "" ->
  up (issued key ep opts) = Responded response ->
  response_ok response = true ->
  (status response = 202 \/ status response = 204 ->
   outcome_of (request creds ep opts up) = Return JUndefined)
  /\ (status response <> 202 -> status response <> 204 ->
      outcome_of (request creds ep opts up) =
      match body response with
      | EmptyText => Return JUndefined
      | Unparsable => Throw SyntaxError
      | Parsed v => Return v
      end).
Proof.
  intros Hk Hne Hup Hok.
  rewrite (request_with_key creds key ep opts up Hk Hne), Hup.
  unfold outcome_of; cbn [snd]. rewrite (handle_response_ok response Hok).
  split.
  - intros [Hs | Hs]; rewrite Hs; reflexivity.
  - intros H202 H204. apply Z.eqb_neq in H202, H204. rewrite H202, H204. reflexivity.
Qed.

Lemma success_classification_witness :
  outcome_of (request demo_credentials "/mail/send" (with_method "POST")
                (answering {| status := 202; retry_after := None; body := Unparsable |}))
  = Return JUndefined.
Proof.
  exact (proj1 (success_classification demo_credentials "SG.demo-key" "/mail/send"
                  (with_method "POST")
                  (answering {| status := 202; retry_after := None; body := Unparsable |})
                  _ eq_refl ltac:(discriminate) eq_refl eq_refl)
           (or_introl eq_refl)).
Defined.

(** ** Requests issued by the operations *)

Lemma silent_ret {A} (a : A) : silent (ret a).
Proof. intros up. reflexivity. Qed.

Lemma silent_lift {A} (o : Outcome A) : silent (lift o).
Proof. intros up. reflexivity. Qed.

Lemma silent_bind {A B} (m : Async A) (k : A -> Async B) :
  silent m -> (forall a, silent (k a)) -> silent (bind m k).
Proof.
  intros Hm Hk up. unfold bind, requests_of.
  pose proof (Hm up) as H1. unfold requests_of in H1.
  destruct (m up) as [t1 [a | x]]; cbn [fst] in *; subst t1; [| reflexivity].
  pose proof (Hk a up) as H2. unfold requests_of in H2.
  destruct (k a up) as [t2 o2]. cbn [fst] in *. subst t2. reflexivity.
Qed.

Lemma requests_bind {A B} (m : Async A) (k : A -> Async B) (up : Upstream) :
  (forall a, silent (k a)) ->
  requests_of (bind m k up) = requests_of (m up).
Proof.
  intros Hk. unfold bind, requests_of.
  destruct (m up) as [t1 [a | x]]; cbn [fst]; [| reflexivity].
  pose proof (Hk a up) as H2. unfold requests_of in H2.
  destruct (k a up) as [t2 o2]. cbn [fst] in *. subst t2. apply app_nil_r.
Qed.

Lemma requests_try_catch {A} (m : Async A) (h : Exn -> Async A) (up : Upstream) :
  (forall x, silent (h x)) ->
  requests_of (try_catch m h up) = requests_of (m up).
Proof.
  intros Hh. unfold try_catch, requests_of.
  destruct (m up) as [t1 [a | x]]; cbn [fst]; [reflexivity |].
  pose proof (Hh x up) as H2. unfold requests_of in H2.
  destruct (h x up) as [t2 o2]. cbn [fst] in *. subst t2. apply app_nil_r.
Qed.

Ltac silence :=
  repeat first
    [ apply silent_ret
    | apply silent_lift
    | apply silent_bind; [| intros ? ]
    | intros ? ].

(** Every operation hands exactly one call to the request executor, and
    issues the requests of that call and no other. *)
Lemma operation_requests (creds : TenantCredentials) (em : Exn -> string)
      (op : Operation) :
  exists ep opts,
    (forall up,
        requests_of (perform creds em op up) = requests_of (request creds ep opts up))
    /\ init_headers opts = [].
Proof.
  destruct op; unfold_performed; cbv zeta;
    repeat match goal with
           | |- context [if ?b then _ else _] => destruct b
           end;
    unfold void;
    eexists; eexists;
    (split;
     [ intros up;
       try (rewrite requests_try_catch; [| solve [silence] ]);
       try (rewrite requests_bind; [| solve [silence] ]);
       reflexivity
     | reflexivity ]).
Qed.



(** Whatever the call of the request executor raises, an operation
    without a [catch] raises. *)
Lemma operation_propagates (creds : TenantCredentials) (em : Exn -> string)
      (op : Operation) :
  catches_everything op = false ->
  exists ep opts, forall up x,
    outcome_of (request creds ep opts up) = Throw x ->
    outcome_of (perform creds em op up) = Throw x.
Proof.
  intros Hop.
  destruct op; try discriminate Hop; unfold_performed; cbv zeta;
    repeat match goal with
           | |- context [if ?b then _ else _] => destruct b
           end;
    unfold void;
    eexists; eexists; intros up x H;
    repeat apply bind_throw; exact H.
Qed.

(** X4.  With a client that has no API key (absent or empty), every
    operation other than the four that catch everything raises the
    AuthenticationError [No API key provided...], for every upstream: the
    failure is local and precedes any network call. *)
Theorem missing_key_fails_locally
        (creds : TenantCredentials) (em : Exn -> string)
        (op : Operation) (up : Upstream) :
  apiKey creds = None \/ apiKey creds = Some "" ->
  catches_everything op = false ->
  perform creds em op up = ([], Throw no_key_error).
Proof.
  intros Hkey Hop.
  destruct (operation_propagates creds em op Hop) as [ep [opts Hthrow]].
  destruct (operation_requests creds em op) as [ep' [opts' [Hreq _]]].
  specialize (Hthrow up no_key_error). specialize (Hreq up).
  rewrite (request_without_key creds ep opts up Hkey) in Hthrow.
  rewrite (request_without_key creds ep' opts' up Hkey) in Hreq.
  unfold outcome_of, requests_of in *.
  destruct (perform creds em op up) as [t o]. cbn [fst snd] in *.
  rewrite Hreq, (Hthrow eq_refl). reflexivity.
Qed.

Lemma missing_key_fails_locally_witness :
  perform no_credentials no_engine_message (SendEmail templated_email)
          (answering accepted_response)
  = ([], Throw no_key_error).
Proof.
  exact (missing_key_fails_locally no_credentials no_engine_message
           (SendEmail templated_email) (answering accepted_response)
           (or_introl eq_refl) eq_refl).
Defined.

(** X5.  testConnection, getContactByEmail, getGlobalSuppression and
    validateBatchId never raise, whatever the upstream does (failed
    fetch, any status, any body); and validateBatchId answers
    [{valid: true}] exactly when the request executor returns, and
    [{valid: false}] otherwise. *)
Theorem catching_operations_never_raise
        (creds : TenantCredentials) (em : Exn -> string)
        (op : Operation) (up : Upstream) :
  catches_everything op = true ->
  (exists v, outcome_of (perform creds em op up) = Return v)
  /\ (forall batchId, op = ValidateBatchId batchId ->
        outcome_of (perform creds em op up) =
        Return (JObj [("valid",
                       JBool match outcome_of (request creds ("/mail/batch/" ++ batchId)
                                                 no_options up) with
                             | Return _ => true
                             | Throw _ => false
                             end)])).
Proof.
  intros Hop. split.
  - destruct op; try discriminate Hop; unfold_performed;
      apply try_catch_total; intros x; eexists; reflexivity.
  - intros batchId ->. cbn [perform]. unfold validateBatchId, try_catch, bind, outcome_of.
    destruct (request creds ("/mail/batch/" ++ batchId) no_options up) as [t [v | x]];
      reflexivity.
Qed.

Lemma catching_operations_never_raise_witness :
  outcome_of (perform demo_credentials no_engine_message (ValidateBatchId "batch-1")
                (fun _ => Rejected))
  = Return (JObj [("valid", JBool false)]).
Proof.
  exact (proj2 (catching_operations_never_raise demo_credentials no_engine_message
                  (ValidateBatchId "batch-1") (fun _ => Rejected) eq_refl)
           "batch-1" eq_refl).
Defined.

(** ** Operations answered with a given response *)

Lemma request_returns (creds : TenantCredentials) (key : string)
      (response : HttpResponse) (v : JsVal) :
  apiKey creds = Some key -> key <> "" ->
  handle_response response = Return v ->
  forall ep opts, outcome_of (request creds ep opts (answering response)) = Return v.
Proof.
  intros Hk Hne Hv ep opts.
  rewrite (request_answering creds key ep opts response Hk Hne). exact Hv.
Qed.

Lemma handle_response_parsed (response : HttpResponse) (j : JsVal) :
  response_ok response = true ->
  status response <> 202 -> status response <> 204 ->
  body response = Parsed j ->
  handle_response response = Return j.
Proof.
  intros Hok H202 H204 Hb. rewrite (handle_response_ok response Hok).
  apply Z.eqb_neq in H202, H204. rewrite H202, H204, Hb. reflexivity.
Qed.

Lemma js_get_defined (v : JsVal) (k : string) :
  nullish v = false -> js_get v k = Return (prop v k).
Proof. intros H. unfold js_get. rewrite H. reflexivity. Qed.

Lemma bind_lift_return {A B} (a : A) (k : A -> Async B) (up : Upstream) :
  outcome_of (bind (lift (Return a)) k up) = outcome_of (k a up).
Proof. apply bind_return. reflexivity. Qed.

Lemma bind_lift_throw {A B} (x : Exn) (k : A -> Async B) (up : Upstream) :
  outcome_of (bind (lift (Throw x)) k up) = Throw x.
Proof. apply bind_throw. reflexivity. Qed.

(** X6.  For the cursor-paginated operations listContacts, listTemplates
    and listDesigns, [hasMore] is true exactly when [nextPageToken] is
    truthy; and for a parsed success response the token is the upstream's
    [_metadata.next] (undefined when [_metadata] is missing) and [items]
    is its [result] (the empty array when that is missing). *)
Theorem cursor_pagination
        (creds : TenantCredentials) (em : Exn -> string) (op : Operation) :
  cursor_list op = true ->
  (forall up p,
      outcome_of (perform creds em op up) = Return p ->
      prop p "hasMore" = JBool (truthy (prop p "nextPageToken")))
  /\ (forall key response j,
        apiKey creds = Some key -> key <> "" ->
        response_ok response = true ->
        status response <> 202 -> status response <> 204 ->
        body response = Parsed j -> nullish j = false ->
        exists p,
          outcome_of (perform creds em op (answering response)) = Return p
          /\ prop p "nextPageToken" = js_get_opt (prop j "_metadata") "next"
          /\ prop p "items" = js_or (prop j "result") (JArr [])).
Proof.
  intros Hop. split.
  - intros up p H.
    destruct op; try discriminate Hop; cbn [perform] in H;
      match type of H with
      | outcome_of (?f _ _ _ _ _) = _ => unfold f in H
      | outcome_of (?f _ _ _ _) = _ => unfold f in H
      | outcome_of (?f _ _ _) = _ => unfold f in H
      end;
      cbv zeta in H; invert_async H; subst p; reflexivity.
  - intros key response j Hk Hne Hok H202 H204 Hb Hj.
    pose proof (request_returns creds key response j Hk Hne
                  (handle_response_parsed response j Hok H202 H204 Hb)) as Hreq.
    destruct op; try discriminate Hop; unfold_performed; cbv zeta;
      rewrite (bind_return _ _ _ _ (Hreq _ _));
      rewrite !(js_get_defined j _ Hj);
      repeat rewrite bind_lift_return;
      (eexists; split; [reflexivity | split; reflexivity]).
Qed.

Lemma cursor_pagination_witness :
  exists p,
    outcome_of (perform demo_credentials no_engine_message (ListContacts JUndefined)
                  (answering next_page_response)) = Return p
    /\ prop p "hasMore" = JBool true
    /\ prop p "nextPageToken" = JStr "tok-2".
Proof.
  destruct (proj2 (cursor_pagination demo_credentials no_engine_message
                     (ListContacts JUndefined) eq_refl)
              "SG.demo-key" next_page_response _
              eq_refl ltac:(discriminate) eq_refl ltac:(discriminate) ltac:(discriminate)
              eq_refl eq_refl) as [p [Hout [Htok Hitems]]].
  exists p. split; [exact Hout |].
  pose proof (proj1 (cursor_pagination demo_credentials no_engine_message
                       (ListContacts JUndefined) eq_refl) _ _ Hout) as Hmore.
  rewrite Htok in Hmore. split; [exact Hmore | exact Htok].
Defined.

Lemma handle_response_no_body (response : HttpResponse) :
  response_ok response = true ->
  status response = 202 \/ status response = 204 \/ body response = EmptyText ->
  handle_response response = Return JUndefined.
Proof.
  intros Hok Hcases. rewrite (handle_response_ok response Hok).
  destruct Hcases as [H | [H | H]]; rewrite H; try reflexivity.
  destruct ((status response =? 204) || (status response =? 202)); reflexivity.
Qed.

(** X7.  A success response without a body (status 202 or 204, or an
    empty text) makes every operation that reads a field of the response
    raise a [TypeError], although the upstream accepted the call:
    the job operations (addOrUpdateContacts, deleteContacts,
    addContactsToList, removeContactsFromList), the counts, createBatchId,
    the two DNS validations and the list operations that read
    [result.result].  The list operations that guard the whole response
    (listSenderIdentities, the five suppression lists,
    listGroupSuppressions) return an empty page or array instead. *)
Theorem bodyless_success
        (creds : TenantCredentials) (key : string) (em : Exn -> string)
        (op : Operation) (response : HttpResponse) :
  apiKey creds = Some key -> key <> "" ->
  response_ok response = true ->
  status response = 202 \/ status response = 204 \/ body response = EmptyText ->
  (reads_result_field op = true ->
   outcome_of (perform creds em op (answering response)) = Throw TypeError)
  /\ (guards_whole_result op = true ->
      outcome_of (perform creds em op (answering response)) =
      Return match op with
             | ListGroupSuppressions _ => JArr []
             | _ => JObj [("items", JArr []); ("count", JNum 0);
                          ("hasMore", JBool false)]
             end).
Proof.
  intros Hk Hne Hok Hcases.
  pose proof (request_returns creds key response JUndefined Hk Hne
                (handle_response_no_body response Hok Hcases)) as Hreq.
  split; intros Hop.
  - destruct op; try discriminate Hop; unfold_performed; cbv zeta;
      rewrite (bind_return _ _ _ _ (Hreq _ _)); reflexivity.
  - destruct op; try discriminate Hop; unfold_performed; cbv zeta;
      rewrite (bind_return _ _ _ _ (Hreq _ _)); reflexivity.
Qed.

Lemma bodyless_success_witness :
  outcome_of (perform demo_credentials no_engine_message (DeleteContacts ["c1"] None)
                (answering accepted_response)) = Throw TypeError
  /\ outcome_of (perform demo_credentials no_engine_message
                   (ListBounces None None None None) (answering no_content_response))
     = Return (JObj [("items", JArr []); ("count", JNum 0); ("hasMore", JBool false)]).
Proof.
  split.
  - exact (proj1 (bodyless_success demo_credentials "SG.demo-key" no_engine_message
                    (DeleteContacts ["c1"] None) accepted_response
                    eq_refl ltac:(discriminate) eq_refl (or_introl eq_refl)) eq_refl).
  - exact (proj2 (bodyless_success demo_credentials "SG.demo-key" no_engine_message
                    (ListBounces None None None None) no_content_response
                    eq_refl ltac:(discriminate) eq_refl (or_intror (or_introl eq_refl)))
             eq_refl).
Defined.

Lemma json_value_str_array (l : list string) : json_value (str_array l) = str_array l.
Proof.
  unfold str_array. cbn [json_value]. f_equal.
  induction l as [| s l IH]; [reflexivity |].
  cbn [map]. rewrite IH. reflexivity.
Qed.

Lemma stringify_emails (emails : list string) :
  JSON_stringify (JObj [("emails", str_array emails)])
  = Some (JObj [("emails", JArr (map JStr emails))]).
Proof.
  unfold JSON_stringify.
  change (json_value (JObj [("emails", str_array emails)]))
    with (JObj [("emails", json_value (str_array emails))]).
  rewrite json_value_str_array. reflexivity.
Qed.

(** X8.  In the bulk deletes of bounces, blocks, spam reports and invalid
    emails a true deleteAll takes precedence: the single DELETE request
    has the body [{delete_all: true}] and the emails are not sent;
    otherwise the body is [{emails}], also for an empty list of emails. *)
Theorem suppression_delete_all_precedence
        (creds : TenantCredentials) (key : string) (k : SuppressionList)
        (emails : list string) (deleteAll : option bool) (up : Upstream) :
  apiKey creds = Some key -> key <> "" ->
  requests_of (delete_suppressions creds k emails deleteAll up) =
  [ {| req_url := "https://api.sendgrid.com/v3" ++ suppression_path k;
       req_method := Some "DELETE";
       req_headers := [("Authorization", "Bearer " ++ key);
                       ("Content-Type", "application/json")];
       req_body := Some (if default false deleteAll
                         then JObj [("delete_all", JBool true)]
                         else JObj [("emails", JArr (map JStr emails))]) |} ].
Proof.
  intros Hk Hne.
  destruct k; cbn [delete_suppressions suppression_path];
    match goal with
    | |- requests_of (?f _ _ _ _) = _ => unfold f
    end;
    cbv zeta; destruct (default false deleteAll); unfold void;
    (rewrite requests_bind; [| solve [silence] ]);
    rewrite (request_with_key creds key _ _ up Hk Hne);
    try rewrite stringify_emails; reflexivity.
Qed.

Lemma suppression_delete_all_precedence_witness :
  map req_body
      (requests_of (delete_suppressions demo_credentials Bounces ["a@example.com"]
                      (Some true) (answering no_content_response)))
  = [Some (JObj [("delete_all", JBool true)])].
Proof.
  rewrite (suppression_delete_all_precedence demo_credentials "SG.demo-key" Bounces
             ["a@example.com"] (Some true) (answering no_content_response)
             eq_refl ltac:(discriminate)).
  reflexivity.
Defined.

(** ** The query string of [deleteContacts] *)

Lemma urlencode_app (a b : string) : urlencode (a ++ b) = urlencode a ++ urlencode b.
Proof.
  induction a as [| c a IH]; [reflexivity |].
  cbn [append urlencode]. rewrite IH.
  generalize (urlencode_byte c) as e. intros e.
  induction e as [| d e IHe]; [reflexivity |].
  cbn [append]. rewrite IHe. reflexivity.
Qed.

Lemma urlencode_unreserved (s : string) : unreserved s = true -> urlencode s = s.
Proof.
  induction s as [| c s IH]; [reflexivity |].
  cbn [unreserved urlencode]. intros H. apply andb_prop in H. destruct H as [Hc Hs].
  rewrite (IH Hs). unfold urlencode_byte. unfold unreserved_byte in Hc.
  cbv zeta in *. rewrite Hc. reflexivity.
Qed.

Lemma urlencode_join_comma (l : list string) :
  urlencode (join_comma l) = String.concat "%2C" (map urlencode l).
Proof.
  unfold join_comma.
  induction l as [| s l IH]; [reflexivity |].
  destruct l as [| s' l]; [reflexivity |].
  change (String.concat "," (s :: s' :: l))
    with (s ++ "," ++ String.concat "," (s' :: l)).
  change (String.concat "%2C" (map urlencode (s :: s' :: l)))
    with (urlencode s ++ "%2C" ++ String.concat "%2C" (map urlencode (s' :: l))).
  rewrite !urlencode_app, IH. reflexivity.
Qed.

Lemma map_urlencode_unreserved (l : list string) :
  forallb unreserved l = true -> map urlencode l = l.
Proof.
  induction l as [| s l IH]; [reflexivity |].
  cbn [forallb map]. intros H. apply andb_prop in H. destruct H as [Hs Hl].
  rewrite (urlencode_unreserved s Hs), (IH Hl). reflexivity.
Qed.

(** X9.  [deleteContacts] issues one DELETE without a body.  With a true
    deleteAllContacts the query is [delete_all_contacts=true] and the ids
    are not sent; otherwise it is [ids=] followed by the ids joined with
    commas and percent-encoded, so that ids made of letters, digits and
    [-._*] arrive separated by [%2C]. *)
Theorem deleteContacts_query
        (creds : TenantCredentials) (key : string)
        (ids : list string) (deleteAll : option bool) (up : Upstream) :
  apiKey creds = Some key -> key <> "" ->
  (exists query,
     requests_of (deleteContacts creds ids deleteAll up) =
     [ {| req_url := "https://api.sendgrid.com/v3/marketing/contacts?" ++ query;
          req_method := Some "DELETE";
          req_headers := [("Authorization", "Bearer " ++ key);
                          ("Content-Type", "application/json")];
          req_body := None |} ]
     /\ query = (if default false deleteAll then "delete_all_contacts=true"
                 else "ids=" ++ urlencode (String.concat "," ids))
     /\ (default false deleteAll = false -> forallb unreserved ids = true ->
         query = "ids=" ++ String.concat "%2C" ids)).
Proof.
  intros Hk Hne. unfold deleteContacts. cbv zeta.
  rewrite requests_bind by (solve [silence]).
  rewrite (request_with_key creds key _ _ up Hk Hne).
  eexists. split; [| split].
  - unfold requests_of, issued. cbn [fst]. reflexivity.
  - destruct (default false deleteAll); reflexivity.
  - intros Hall Hids. rewrite Hall.
    change (params_toString (params_set "ids" (join_comma ids) []))
      with ("ids=" ++ urlencode (join_comma ids)).
    rewrite urlencode_join_comma, (map_urlencode_unreserved ids Hids). reflexivity.
Qed.

Lemma deleteContacts_query_witness :
  map req_url (requests_of (deleteContacts demo_credentials ["c-1"; "c-2"] None
                              (answering accepted_response)))
  = ["https://api.sendgrid.com/v3/marketing/contacts?ids=c-1%2Cc-2"].
Proof.
  destruct (deleteContacts_query demo_credentials "SG.demo-key" ["c-1"; "c-2"] None
              (answering accepted_response) eq_refl ltac:(discriminate))
    as [query [Hreq [_ Hq]]].
  rewrite Hreq, (Hq eq_refl eq_refl). reflexivity.
Defined.

(** ** Serialised objects *)

Lemma json_fields_cons (k : string) (v : JsVal) (r : list (string * JsVal)) :
  own_fields (json_value (JObj ((k, v) :: r))) =
  if defined v then (k, json_value v) :: own_fields (json_value (JObj r))
  else own_fields (json_value (JObj r)).
Proof. destruct v; reflexivity. Qed.

(** A property with a defined value is written, with its value
    serialised. *)
Lemma json_fields_defined (k : string) (x : JsVal) (fs : list (string * JsVal)) :
  assoc k fs = Some x -> defined x = true ->
  assoc k (own_fields (json_value (JObj fs))) = Some (json_value x).
Proof.
  induction fs as [| [k' v] r IH]; [discriminate |].
  cbn [assoc]. rewrite json_fields_cons. intros Hk Hx.
  destruct (String.eqb k k') eqn:He.
  - injection Hk as ->. rewrite Hx. cbn [assoc]. rewrite He. reflexivity.
  - destruct (defined v); [cbn [assoc]; rewrite He |]; exact (IH Hk Hx).
Qed.

(** A property that the object does not have is not written. *)
Lemma json_fields_absent (k : string) (fs : list (string * JsVal)) :
  assoc k fs = None -> assoc k (own_fields (json_value (JObj fs))) = None.
Proof.
  induction fs as [| [k' v] r IH]; [reflexivity |].
  cbn [assoc]. rewrite json_fields_cons. intros Hk.
  destruct (String.eqb k k') eqn:He; [discriminate |].
  destruct (defined v); [cbn [assoc]; rewrite He |]; exact (IH Hk).
Qed.

Lemma assoc_assign_if_other (c : bool) (k k' : string) (v : JsVal)
      (fs : list (string * JsVal)) :
  String.eqb k k' = false -> assoc k (assign_if c k' v fs) = assoc k fs.
Proof.
  intros Hne. destruct c; [| reflexivity]. cbn [assign_if].
  induction fs as [| [k0 v0] r IH]; cbn [assoc_set assoc].
  - rewrite Hne. reflexivity.
  - destruct (String.eqb k' k0) eqn:H0.
    + apply String.eqb_eq in H0. subst k0. cbn [assoc]. rewrite Hne. reflexivity.
    + cbn [assoc]. destruct (String.eqb k k0); [reflexivity | exact IH].
Qed.

Lemma assoc_assign_if_same (c : bool) (k : string) (v : JsVal)
      (fs : list (string * JsVal)) :
  assoc k fs = None ->
  assoc k (assign_if c k v fs) = if c then Some v else None.
Proof.
  intros Hk. destruct c; [| exact Hk]. cbn [assign_if].
  induction fs as [| [k0 v0] r IH]; cbn [assoc_set assoc] in *.
  - rewrite String.eqb_refl. reflexivity.
  - destruct (String.eqb k k0) eqn:H0; [discriminate |].
    cbn [assoc]. rewrite H0. exact (IH Hk).
Qed.

Lemma json_value_object (fs : list (string * JsVal)) :
  json_value (JObj fs) = JObj (own_fields (json_value (JObj fs))).
Proof. reflexivity. Qed.

(** X10.  The active flag of a template version is sent as 1 or 0.
    [createTemplateVersion] always sends it: 1 when the input's [active]
    is truthy, 0 otherwise, so also when the input has no [active].
    [updateTemplateVersion] sends it with the same encoding exactly when
    the input's [active] is not [undefined], and leaves it out
    otherwise. *)
Theorem template_version_active_flag
        (creds : TenantCredentials) (key templateId versionId : string)
        (input : JsVal) (up : Upstream) :
  apiKey creds = Some key -> key <> "" ->
  (exists payload,
      map req_body (requests_of (createTemplateVersion creds templateId input up))
      = [Some (JObj payload)]
      /\ assoc "active" payload
         = Some (if truthy (prop input "active") then JNum 1 else JNum 0))
  /\ (exists payload,
        map req_body
            (requests_of (updateTemplateVersion creds templateId versionId input up))
        = [Some (JObj payload)]
        /\ assoc "active" payload
           = match prop input "active" with
             | JUndefined => None
             | a => Some (if truthy a then JNum 1 else JNum 0)
             end).
Proof.
  intros Hk Hne. split.
  - unfold createTemplateVersion.
    rewrite (request_with_key creds key _ _ up Hk Hne).
    unfold requests_of, issued. cbn [fst map req_body with_body init_body JSON_stringify].
    rewrite json_value_object.
    eexists. split; [reflexivity |].
    match goal with
    | |- assoc _ ?p = _ =>
        match p with
        | context [JObj ?fs] =>
            change p with (own_fields (json_value (JObj fs)));
            rewrite (json_fields_defined "active"
                       (one_or_zero (prop input "active")) fs eq_refl)
        end
    end.
    + unfold one_or_zero. destruct (truthy (prop input "active")); reflexivity.
    + unfold one_or_zero. destruct (truthy (prop input "active")); reflexivity.
  - unfold updateTemplateVersion. cbv zeta.
    rewrite (request_with_key creds key _ _ up Hk Hne).
    unfold requests_of, issued. cbn [fst map req_body with_body init_body JSON_stringify].
    rewrite json_value_object.
    eexists. split; [reflexivity |].
    match goal with
    | |- assoc _ ?p = _ =>
        match p with
        | context [JObj ?fs] =>
            change p with (own_fields (json_value (JObj fs)));
            assert (Hactive : assoc "active" fs
                              = if defined (prop input "active")
                                then Some (one_or_zero (prop input "active")) else None)
        end
    end.
    { rewrite !assoc_assign_if_other by reflexivity.
      apply assoc_assign_if_same.
      rewrite !assoc_assign_if_other by reflexivity. reflexivity. }
    destruct (defined (prop input "active")) eqn:Hd.
    + rewrite (json_fields_defined "active" _ _ Hactive).
      * unfold one_or_zero.
        destruct (prop input "active"); try discriminate Hd;
          cbn [truthy]; try reflexivity;
          match goal with |- context [if ?b then _ else _] => destruct b end;
          reflexivity.
      * unfold one_or_zero. destruct (truthy (prop input "active")); reflexivity.
    + rewrite (json_fields_absent "active" _ Hactive).
      destruct (prop input "active"); try discriminate Hd. reflexivity.
Qed.

Lemma template_version_active_flag_witness :
  exists payload,
    map req_body
        (requests_of (createTemplateVersion demo_credentials "d-1"
                        (JObj [("name", JStr "v1")]) (answering accepted_response)))
    = [Some (JObj payload)]
    /\ assoc "active" payload = Some (JNum 0).
Proof.
  exact (proj1 (template_version_active_flag demo_credentials "SG.demo-key" "d-1" "v-1"
                  (JObj [("name", JStr "v1")]) (answering accepted_response)
                  eq_refl ltac:(discriminate))).
Defined.

(* ================================================================== *)
(** * Properties of the environment bindings and the entry point *)
(* ================================================================== *)

(** X11.  The credential check of the entry point and the precondition of
    the client agree: [validateCredentials] passes exactly when
    [getAuthHeaders] returns headers, that is, when the API key is present
    and not empty; and the credentials parsed from a request pass exactly
    when the request has a non-empty [X-SendGrid-API-Key] header, whose
    value is then the bearer token of every upstream request. *)
Theorem credentials_gate (request : WorkerRequest) (c : TenantCredentials) :
  (validateCredentials c = Passed <-> exists hs, getAuthHeaders c = Return hs)
  /\ (validateCredentials (parseTenantCredentials request) = Passed <->
      exists key, header request "X-SendGrid-API-Key" = Some key /\ key <> "")
  /\ (forall key, header request "X-SendGrid-API-Key" = Some key -> key <> "" ->
        getAuthHeaders (parseTenantCredentials request)
        = Return [("Authorization", "Bearer " ++ key);
                  ("Content-Type", "application/json")]).
Proof.
  repeat split.
  - unfold validateCredentials, getAuthHeaders.
    destruct (apiKey c) as [key |]; [| discriminate].
    destruct (String.eqb key ""); [discriminate |]. intros _. eexists. reflexivity.
  - unfold validateCredentials, getAuthHeaders. intros [hs H].
    destruct (apiKey c) as [key |]; [| discriminate].
    destruct (String.eqb key ""); [discriminate | reflexivity].
  - unfold validateCredentials, parseTenantCredentials. cbn [apiKey].
    destruct (header request "X-SendGrid-API-Key") as [v |]; [| discriminate].
    destruct (String.eqb v "") eqn:He; [discriminate |].
    intros _. exists v. split; [reflexivity |]. apply String.eqb_neq. exact He.
  - intros [key [Hh Hne]]. unfold validateCredentials, parseTenantCredentials.
    cbn [apiKey]. rewrite Hh. apply String.eqb_neq in Hne. rewrite Hne, Hne. reflexivity.
  - intros key Hh Hne. apply getAuthHeaders_key; [| exact Hne].
    unfold parseTenantCredentials. cbn [apiKey]. rewrite Hh.
    apply String.eqb_neq in Hne. rewrite Hne. reflexivity.
Qed.

Lemma credentials_gate_witness :
  getAuthHeaders (parseTenantCredentials (mcp_post "SG.tenant-1"))
  = Return [("Authorization", "Bearer SG.tenant-1");
            ("Content-Type", "application/json")].
Proof.
  exact (proj2 (proj2 (credentials_gate (mcp_post "SG.tenant-1") no_credentials))
           "SG.tenant-1" eq_refl ltac:(discriminate)).
Defined.

(** X12.  The MCP protocol handler runs exactly for a POST to [/mcp] that
    presents a non-empty [X-SendGrid-API-Key] header, and then with the
    credentials made of that header; every other request is answered
    without it: a POST to [/mcp] without the key gets status 401, [/sse]
    gets 501, and every other request (a GET to [/mcp] included) gets
    status 200. *)
Theorem worker_routing
        (handler : TenantCredentials -> WorkerRequest -> WorkerResponse)
        (request : WorkerRequest) :
  (reaches_mcp request = true ->
   exists key,
     header request "X-SendGrid-API-Key" = Some key /\ key <> "" /\
     worker_fetch handler request = handler {| apiKey := Some key |} request)
  /\ (reaches_mcp request = false ->
      (forall handler', worker_fetch handler request = worker_fetch handler' request)
      /\ response_status (worker_fetch handler request) =
         if String.eqb (pathname request) "/health" then 200
         else if String.eqb (pathname request) "/mcp"
                 && String.eqb (request_method request) "POST" then 401
         else if String.eqb (pathname request) "/sse" then 501
         else 200).
Proof.
  unfold reaches_mcp, presented_key, worker_fetch, validateCredentials,
    parseTenantCredentials.
  cbn [apiKey].
  destruct (String.eqb (pathname request) "/mcp") eqn:Hmcp.
  - apply String.eqb_eq in Hmcp. rewrite Hmcp. cbn [String.eqb Ascii.eqb Bool.eqb andb].
    change (String.eqb "/mcp" "/health") with false. cbn iota.
    destruct (String.eqb (request_method request) "POST").
    + destruct (header request "X-SendGrid-API-Key") as [v |].
      * destruct (String.eqb v "") eqn:He; cbn iota; rewrite ?He.
        -- split; [discriminate |]. intros _. split; reflexivity.
        -- split; [| discriminate]. intros _. exists v.
           split; [reflexivity |]. split; [apply String.eqb_neq; exact He | reflexivity].
      * split; [discriminate |]. intros _. split; reflexivity.
    + split; [discriminate |]. intros _.
      change (String.eqb "/mcp" "/sse") with false. split; reflexivity.
  - cbn [andb]. split; [discriminate |]. intros _.
    destruct (String.eqb (pathname request) "/health");
      [| destruct (String.eqb (pathname request) "/sse")]; split; reflexivity.
Qed.

Lemma worker_routing_witness :
  worker_fetch echo_handler (mcp_post "SG.tenant-1")
  = echo_handler {| apiKey := Some "SG.tenant-1" |} (mcp_post "SG.tenant-1").
Proof.
  destruct (proj1 (worker_routing echo_handler (mcp_post "SG.tenant-1")) eq_refl)
    as [key [Hh [_ Hf]]].
  injection Hh as <-. exact Hf.
Defined.

(** X13.  [getEnvNumber] reads an integer below [2^53] in magnitude
    back from its decimal numeral, falls back to the default when the
    binding is not a string, is the empty string or does not start with a
    numeral, and never returns [NaN]; so the three limits default to
    50000, 20 and 100. *)
Theorem getEnvNumber_reads (env : Env) (key : EnvKey) (defaultValue : Z) :
  (forall n, - 9007199254740992 < n < 9007199254740992 ->
             env_get env key = JStr (string_of_Z n) ->
             getEnvNumber env key defaultValue = IntValue n)
  /\ ((forall s, env_get env key <> JStr s) \/ env_get env key = JStr ""
      \/ (exists s, env_get env key = JStr s /\ parseInt s = NaN) ->
      getEnvNumber env key defaultValue = IntValue defaultValue)
  /\ getEnvNumber env key defaultValue <> NaN
  /\ (CHARACTER_LIMIT env = JUndefined -> getCharacterLimit env = IntValue 50000)
  /\ (DEFAULT_PAGE_SIZE env = JUndefined -> getDefaultPageSize env = IntValue 20)
  /\ (MAX_PAGE_SIZE env = JUndefined -> getMaxPageSize env = IntValue 100).
Proof.
  unfold getCharacterLimit, getDefaultPageSize, getMaxPageSize, getEnvNumber.
  cbv zeta. repeat split.
  - intros n Hsafe Hn. rewrite Hn, (parseInt_safe_integer n Hsafe). reflexivity.
  - intros [Hns | [He | [s [Hs Hnan]]]].
    + destruct (env_get env key) as [| | b | m | s | l | fs]; try reflexivity.
      exfalso. apply (Hns s). reflexivity.
    + rewrite He. reflexivity.
    + rewrite Hs, Hnan. reflexivity.
  - destruct (env_get env key) as [| | b | m | s | l | fs]; try discriminate.
    destruct (parseInt s); discriminate.
  - cbn [env_get]. intros ->. reflexivity.
  - cbn [env_get]. intros ->. reflexivity.
  - cbn [env_get]. intros ->. reflexivity.
Qed.

Lemma getEnvNumber_reads_witness :
  getEnvNumber {| CHARACTER_LIMIT := JStr "25000"; DEFAULT_PAGE_SIZE := JUndefined;
                  MAX_PAGE_SIZE := JUndefined; CACHE_KV := JUndefined |}
               Key_CHARACTER_LIMIT 50000 = IntValue 25000.
Proof.
  apply (proj1 (getEnvNumber_reads
                  {| CHARACTER_LIMIT := JStr "25000"; DEFAULT_PAGE_SIZE := JUndefined;
                     MAX_PAGE_SIZE := JUndefined; CACHE_KV := JUndefined |}
                  Key_CHARACTER_LIMIT 50000) 25000).
  - lia.
  - reflexivity.
Defined.


(* ================================================================== *)
(** * Properties of the markdown rendering *)
(* ================================================================== *)

Lemma rbind_done {A B} (r : Rendered A) (k : A -> Rendered B) (b : B) :
  rbind r k = Done b -> exists a, r = Done a /\ k a = Done b.
Proof.
  destruct r as [a | e]; cbn; [eauto | discriminate].
Qed.

Lemma each_row_length (row : JsVal -> Rendered string) (items : list JsVal)
      (rows : list string) :
  each_row row items = Done rows -> List.length rows = List.length items.
Proof.
  revert rows.
  induction items as [| x r IH]; intros rows H; cbn in H.
  - injection H as <-. reflexivity.
  - apply rbind_done in H. destruct H as [l [_ H]].
    apply rbind_done in H. destruct H as [ls [Hr H]].
    injection H as <-. cbn. f_equal. apply IH. exact Hr.
Qed.

Lemma headed_rows_length (row : JsVal -> Rendered string) (items : list JsVal)
      (h1 h2 : string) (lines : list string) :
  rbind (each_row row items) (fun rows => Done (h1 :: h2 :: rows)) = Done lines ->
  List.length lines = (2 + List.length items)%nat.
Proof.
  intro H. apply rbind_done in H. destruct H as [rows [Hr H]].
  injection H as <-. cbn. do 2 f_equal. apply (each_row_length row). exact Hr.
Qed.

Lemma entity_table_joins (toISOString : JsVal -> option string)
      (inherited_text : JsVal -> string -> option string) (entityType : string)
      (items : list JsVal) :
  entity_table toISOString inherited_text entityType items
  = rbind (entity_table_lines toISOString inherited_text entityType items)
          (fun lines => Done (join_lines lines)).
Proof.
  unfold entity_table, entity_table_lines.
  repeat (match goal with
          | |- context [String.eqb entityType ?s] => destruct (String.eqb entityType s)
          end; [reflexivity |]).
  reflexivity.
Qed.

(** X14. Every table of a page has one row for each item: when the
    table of an entity type is rendered for a non-empty list of items, its
    lines are the header, the separator and exactly one line for each
    item, whatever the entity type; and the pushed text is these lines
    joined by line feeds. *)
Theorem table_has_one_row_per_item
        (toISOString : JsVal -> option string)
        (inherited_text : JsVal -> string -> option string) (entityType : string)
        (items : list JsVal) (lines : list string) :
  items <> [] ->
  entity_table_lines toISOString inherited_text entityType items = Done lines ->
  List.length lines = (2 + List.length items)%nat
  /\ entity_table toISOString inherited_text entityType items = Done (join_lines lines).
Proof.
  intros Hne H. split.
  - unfold entity_table_lines in H.
    repeat (match type of H with
            | context [String.eqb entityType ?s] =>
                destruct (String.eqb entityType s);
                [ eapply headed_rows_length; exact H |]
            end).
    unfold formatGenericTable_lines in H.
    destruct items as [| first rest]; [contradiction |].
    apply rbind_done in H. destruct H as [keys [_ H]].
    eapply headed_rows_length. exact H.
  - rewrite entity_table_joins, H. reflexivity.
Qed.

Lemma table_has_one_row_per_item_witness :
  List.length
    [ "| ID | Name | Contact Count |"; "|---|---|---|";
      "| l1 | News | 3 |"; "| l2 | Trial | 0 |" ] = (2 + List.length two_lists)%nat
  /\ entity_table no_date object_inherited "lists" two_lists
     = Done (join_lines [ "| ID | Name | Contact Count |"; "|---|---|---|";
                          "| l1 | News | 3 |"; "| l2 | Trial | 0 |" ]).
Proof.
  apply (table_has_one_row_per_item no_date object_inherited "lists" two_lists).
  - discriminate.
  - vm_compute. reflexivity.
Defined.

Lemma field_nullish (v : JsVal) (k : string) :
  nullish v = true -> field v k = Raise (Engine TypeError).
Proof.
  intro H. unfold field, js_get. rewrite H. reflexivity.
Qed.

Lemma field_present (v : JsVal) (k : string) :
  nullish v = false -> field v k = Done (prop v k).
Proof.
  intro H. unfold field, js_get. rewrite H. reflexivity.
Qed.

Lemma field_raises (v : JsVal) (k : string) (e : Raised) :
  field v k = Raise e -> e = Engine TypeError.
Proof.
  unfold field, js_get. destruct (nullish v); cbn; [| discriminate].
  intro H. injection H as <-. reflexivity.
Qed.

Lemma join_elems_throws (l : list JsVal) (x : Exn) :
  (forall y, In y l -> forall x', js_to_string y = Throw x' -> x' = TypeError) ->
  join_elems l = Throw x -> x = TypeError.
Proof.
  induction l as [| y r IH]; intros Hall; [discriminate |].
  cbn [join_elems].
  destruct (join_elem y) as [s | x'] eqn:Hy; cbn [obind].
  - destruct (join_elems r) as [ss | x''] eqn:Hr; cbn [obind]; [discriminate |].
    intro H. injection H as <-.
    apply IH; [| reflexivity]. intros y' Hin. apply Hall. right. exact Hin.
  - intro H. injection H as <-.
    unfold join_elem in Hy.
    destruct y; try discriminate Hy; apply (Hall _ (or_introl eq_refl) _ Hy).
Qed.

(** [String] raises nothing but a [TypeError]. *)
Lemma js_to_string_throws : forall (v : JsVal) (x : Exn),
    js_to_string v = Throw x -> x = TypeError.
Proof.
  fix IH 1. intros v x. destruct v as [| | b | n | s | items | fs].
  - discriminate.
  - discriminate.
  - destruct b; discriminate.
  - discriminate.
  - discriminate.
  - rewrite js_to_string_array. unfold js_join.
    destruct (join_elems items) as [ss | x'] eqn:Hitems; cbn [obind]; [discriminate |].
    intro H. injection H as <-.
    apply (join_elems_throws items x'); [| exact Hitems].
    clear Hitems. revert items. fix IHl 1.
    intros [| y r] y' Hin; [contradiction |].
    destruct Hin as [<- | Hin]; [apply IH | apply (IHl r y' Hin)].
  - cbn [js_to_string]. destruct (assoc "toString" fs); [| discriminate].
    intro H. injection H as <-. reflexivity.
Qed.

Lemma tpl_raises (v : JsVal) (e : Raised) : tpl v = Raise e -> e = Engine TypeError.
Proof.
  unfold tpl, engine. destruct (js_to_string v) as [s | x] eqn:Hv; [discriminate |].
  intro H. injection H as <-. rewrite (js_to_string_throws v x Hv). reflexivity.
Qed.

Lemma or_dash_raises (v : JsVal) (e : Raised) :
  or_dash v = Raise e -> e = Engine TypeError.
Proof. apply tpl_raises. Qed.

Lemma tpl_printable (v : JsVal) : printable v = true -> tpl v = Done (text_of v).
Proof.
  unfold printable, tpl, text_of, engine.
  destruct (js_to_string v); [reflexivity | discriminate].
Qed.

Lemma or_dash_printable (v : JsVal) :
  printable v = true -> or_dash v = Done (text_of (js_or v (JStr "-"))).
Proof.
  intro H. unfold or_dash. apply tpl_printable. unfold js_or.
  destruct (truthy v); [exact H | reflexivity].
Qed.

Lemma prop_printable (item : JsVal) (k : string) :
  printable_fields item = true -> printable (prop item k) = true.
Proof.
  destruct item as [| | b | n | s | l | fs]; cbn [printable_fields prop];
    try reflexivity; intro H.
  - destruct (String.eqb k "length"); reflexivity.
  - destruct (String.eqb k "length"); reflexivity.
  - induction fs as [| [k' v] r IH]; [reflexivity |].
    cbn [forallb snd] in H. apply Bool.andb_true_iff in H. destruct H as [Hv Hr].
    cbn [assoc]. destruct (String.eqb k k'); [exact Hv | exact (IH Hr)].
Qed.

Lemma rbind_raise {A B} (r : Rendered A) (k : A -> Rendered B) (e : Raised) :
  rbind r k = Raise e -> r = Raise e \/ exists a, r = Done a /\ k a = Raise e.
Proof.
  destruct r as [a | e']; cbn; [eauto |].
  intro H. left. injection H as <-. reflexivity.
Qed.

Lemma each_row_cases (row : JsVal -> Rendered string) :
  (forall x, nullish x = true -> row x = Raise (Engine TypeError)) ->
  (forall x, nullish x = false -> printable_fields x = true -> exists s, row x = Done s) ->
  (forall x e, row x = Raise e -> e = Engine TypeError) ->
  forall items,
    (existsb nullish items = true -> each_row row items = Raise (Engine TypeError))
    /\ (existsb nullish items = false -> forallb printable_fields items = true ->
        exists rows, each_row row items = Done rows)
    /\ (forall e, each_row row items = Raise e -> e = Engine TypeError).
Proof.
  intros Hnull Hsome Hraise items.
  induction items as [| x r [IHt [IHf IHe]]]; cbn [existsb forallb each_row].
  - repeat split; [discriminate | eauto | discriminate].
  - assert (Hany : forall e, rbind (row x)
                                  (fun l => rbind (each_row row r)
                                                  (fun ls => Done (l :: ls))) = Raise e ->
                             e = Engine TypeError).
    { intros e H. apply rbind_raise in H. destruct H as [H | [l [_ H]]].
      - exact (Hraise x e H).
      - apply rbind_raise in H. destruct H as [H | [ls [_ H]]]; [| discriminate].
        exact (IHe e H). }
    split; [| split; [| exact Hany]].
    + intro H. apply Bool.orb_true_iff in H.
      destruct (row x) as [l |] eqn:Hx.
      * cbn [rbind]. destruct H as [H | H].
        -- rewrite (Hnull x H) in Hx. discriminate.
        -- rewrite (IHt H). reflexivity.
      * cbn [rbind]. rewrite (Hraise x e Hx). reflexivity.
    + intros H Hp. apply Bool.orb_false_iff in H. destruct H as [Hx Hr].
      apply Bool.andb_true_iff in Hp. destruct Hp as [Hpx Hpr].
      destruct (Hsome x Hx Hpx) as [s Hs]. rewrite Hs. cbn [rbind].
      destruct (IHf Hr Hpr) as [rows Hrows]. rewrite Hrows. cbn [rbind]. eauto.
Qed.

Lemma headed_rows_cases (row : JsVal -> Rendered string) (h1 h2 : string) :
  (forall x, nullish x = true -> row x = Raise (Engine TypeError)) ->
  (forall x, nullish x = false -> printable_fields x = true -> exists s, row x = Done s) ->
  (forall x e, row x = Raise e -> e = Engine TypeError) ->
  forall items,
    (existsb nullish items = true ->
     rbind (each_row row items) (fun rows => Done (h1 :: h2 :: rows))
     = Raise (Engine TypeError))
    /\ (existsb nullish items = false -> forallb printable_fields items = true ->
        exists lines,
          rbind (each_row row items) (fun rows => Done (h1 :: h2 :: rows)) = Done lines)
    /\ (forall e,
          rbind (each_row row items) (fun rows => Done (h1 :: h2 :: rows)) = Raise e ->
          e = Engine TypeError).
Proof.
  intros Hnull Hsome Hraise items.
  destruct (each_row_cases row Hnull Hsome Hraise items) as [Ht [Hf He]].
  split; [| split].
  - intro H. rewrite (Ht H). reflexivity.
  - intros H Hp. destruct (Hf H Hp) as [rows Hr]. rewrite Hr. cbn. eauto.
  - intros e H. apply rbind_raise in H. destruct H as [H | [rows [_ H]]];
      [exact (He e H) | discriminate].
Qed.

Ltac plain_row :=
  split; [| split];
  [ intros x Hx;
    match goal with |- ?row x = _ => unfold row end;
    rewrite (field_nullish x _ Hx); reflexivity
  | intros x Hx Hp;
    match goal with |- exists s, ?row x = _ => unfold row end;
    repeat (rewrite (field_present x _ Hx); cbn [rbind];
            rewrite ?(tpl_printable _ (prop_printable x _ Hp)),
                    ?(or_dash_printable _ (prop_printable x _ Hp));
            cbn [rbind]);
    eauto
  | intros x e H;
    match type of H with ?row x = _ => unfold row in H end;
    repeat (apply rbind_raise in H;
            destruct H as [H | [? [_ H]]];
            [ first [ exact (field_raises _ _ _ H)
                    | exact (tpl_raises _ _ H)
                    | exact (or_dash_raises _ _ H) ]
            | cbv beta in H ]);
    discriminate H ].

Lemma plain_rows :
  forall row,
    In row [contact_row; list_row; segment_row; template_row; suppression_group_row;
            design_row; single_send_row] ->
    (forall x, nullish x = true -> row x = Raise (Engine TypeError))
    /\ (forall x, nullish x = false -> printable_fields x = true ->
                  exists s, row x = Done s)
    /\ (forall x e, row x = Raise e -> e = Engine TypeError).
Proof.
  intros row Hin. cbn [In] in Hin.
  repeat (destruct Hin as [<- | Hin]; [plain_row |]).
  contradiction.
Qed.

(** X15. A single [null] or [undefined] item spoils the whole table:
    for the entity types whose rows read only properties of the item
    (contacts, lists, segments, templates, suppression groups, designs,
    single sends), rendering the table raises a [TypeError] when some item
    is [null] or [undefined]; it yields a table when no item is and every
    field of every item has a text (an object with a [toString] property
    of its own has none); and it never fails with anything but a
    [TypeError]. *)
Theorem plain_tables_fail_exactly_on_null_items
        (toISOString : JsVal -> option string)
        (inherited_text : JsVal -> string -> option string) (entityType : string)
        (items : list JsVal) :
  plain_table entityType = true ->
  (existsb nullish items = true ->
   entity_table_lines toISOString inherited_text entityType items
   = Raise (Engine TypeError))
  /\ (existsb nullish items = false -> forallb printable_fields items = true ->
      exists lines,
        entity_table_lines toISOString inherited_text entityType items = Done lines)
  /\ (forall e,
        entity_table_lines toISOString inherited_text entityType items = Raise e ->
        e = Engine TypeError).
Proof.
  intro Hplain. unfold plain_table in Hplain. cbn [existsb] in Hplain.
  repeat rewrite Bool.orb_true_iff in Hplain.
  destruct Hplain as [H | [H | [H | [H | [H | [H | [H | H]]]]]]];
    try discriminate H;
    apply String.eqb_eq in H; subst entityType;
    cbv beta delta [entity_table_lines]; cbn [String.eqb Ascii.eqb Bool.eqb];
    unfold formatContactsTable_lines, formatListsTable_lines, formatSegmentsTable_lines,
      formatTemplatesTable_lines, formatSuppressionGroupsTable_lines,
      formatDesignsTable_lines, formatSingleSendsTable_lines;
    match goal with
    | |- context [rbind (each_row ?row _) _] =>
        destruct (plain_rows row) as [Hn [Hs Hr]]; [cbn; tauto |]
    end;
    apply headed_rows_cases; assumption.
Qed.

Lemma plain_tables_fail_exactly_on_null_items_witness :
  (existsb nullish [JObj [("id", JStr "c1")]; JNull] = true ->
   entity_table_lines no_date object_inherited "contacts" [JObj [("id", JStr "c1")]; JNull]
   = Raise (Engine TypeError))
  /\ (existsb nullish [JObj [("id", JStr "c1")]; JNull] = false ->
      forallb printable_fields [JObj [("id", JStr "c1")]; JNull] = true ->
      exists lines,
        entity_table_lines no_date object_inherited "contacts"
                           [JObj [("id", JStr "c1")]; JNull]
        = Done lines)
  /\ (forall e,
        entity_table_lines no_date object_inherited "contacts"
                           [JObj [("id", JStr "c1")]; JNull] = Raise e ->
        e = Engine TypeError).
Proof.
  apply (plain_tables_fail_exactly_on_null_items no_date object_inherited "contacts").
  reflexivity.
Defined.

Lemma has_text_printable (v : JsVal) : has_text v = true -> printable v = true.
Proof.
  intro H. unfold printable. destruct (has_text_returns v H) as [s Hs].
  rewrite Hs. reflexivity.
Qed.

Lemma plain_fields_printable (item : JsVal) :
  plain_fields item = true -> printable_fields item = true.
Proof.
  destruct item as [| | b | n | s | l | fs]; cbn [plain_fields printable_fields];
    try reflexivity.
  induction fs as [| [k v] r IH]; [reflexivity |].
  cbn [forallb snd]. intro H. apply Bool.andb_true_iff in H. destruct H as [Hv Hr].
  rewrite (has_text_printable v Hv), (IH Hr). reflexivity.
Qed.

Section GenericTable.

Variable inherited_text : JsVal -> string -> option string.

Lemma cell_text_object (fields : list (string * JsVal)) (k : string) :
  plain_fields (JObj fields) = true ->
  (assoc k fields = None -> inherited_text (JObj fields) k = None) ->
  cell_text inherited_text (JObj fields) k = Done (generic_cell fields k).
Proof.
  intros Hp Hinh. apply plain_fields_printable in Hp.
  unfold cell_text, generic_cell. cbn [nullish own_member].
  pose proof (prop_printable (JObj fields) k Hp) as Hv. cbn [prop] in Hv.
  destruct (assoc k fields) as [v |].
  - destruct (nullish v); [reflexivity |].
    fold (tpl v). apply tpl_printable. exact Hv.
  - rewrite (Hinh eq_refl). reflexivity.
Qed.

Lemma generic_cells_object (fields : list (string * JsVal)) (keys : list string) :
  plain_fields (JObj fields) = true ->
  (forall k, In k keys -> assoc k fields = None ->
             inherited_text (JObj fields) k = None) ->
  generic_cells inherited_text keys (JObj fields) = Done (map (generic_cell fields) keys).
Proof.
  intros Hp. induction keys as [| k r IH]; intro Hinh; [reflexivity |].
  cbn [generic_cells map].
  rewrite (cell_text_object fields k Hp (Hinh k (or_introl eq_refl))). cbn [rbind].
  rewrite IH by (intros k' Hk'; apply Hinh; right; exact Hk'). reflexivity.
Qed.

Lemma generic_rows_objects (keys : list string) (objects : list (list (string * JsVal))) :
  (forall fields, In fields objects -> plain_fields (JObj fields) = true) ->
  (forall fields k, In fields objects -> In k keys -> assoc k fields = None ->
                    inherited_text (JObj fields) k = None) ->
  each_row (generic_row inherited_text keys) (map JObj objects)
  = Done (map (fun fields =>
                 "| " ++ String.concat " | " (map (generic_cell fields) keys) ++ " |")
              objects).
Proof.
  induction objects as [| fields r IH]; intros Hp Hinh; [reflexivity |].
  cbn [each_row map]. unfold generic_row at 1.
  rewrite (generic_cells_object fields keys (Hp fields (or_introl eq_refl)))
    by (intros k Hk; apply Hinh; [left; reflexivity | exact Hk]).
  cbn [rbind].
  rewrite IH.
  - reflexivity.
  - intros f Hf. apply Hp. right. exact Hf.
  - intros f k Hf. apply Hinh. right. exact Hf.
Qed.

(** X16. The generic table of a list of objects takes its columns
    from the first item alone, and at most five of them: the columns are
    the first five keys of the first item.  When every field of every
    item has a text (a string, a boolean, [null], an integer below [2^53]
    in magnitude, an array of such, an object without a [toString]
    property of its own), and no column names a property that an item
    lacks but inherits (such as [constructor] or [toString]), every item
    gives one row with one cell for each column, and a cell holds the
    text of the item's value under that key, or a dash when the item has
    no value there or a [null] one.  Keys that only later items have are
    not shown. *)
Theorem generic_table_of_objects
        (first : list (string * JsVal)) (others : list (list (string * JsVal))) :
  let keys := firstn 5 (map fst (ordered_fields first)) in
  (forall fields, In fields (first :: others) -> plain_fields (JObj fields) = true) ->
  (forall fields k, In fields (first :: others) -> In k keys -> assoc k fields = None ->
                    inherited_text (JObj fields) k = None) ->
  (List.length keys <= 5)%nat
  /\ formatGenericTable_lines inherited_text (map JObj (first :: others))
     = Done (("| " ++ String.concat " | " keys ++ " |")
             :: ("|" ++ String.concat "|" (map (fun _ => "---") keys) ++ "|")
             :: map (fun fields =>
                       "| " ++ String.concat " | " (map (generic_cell fields) keys) ++ " |")
                    (first :: others)).
Proof.
  intros keys Hp Hinh. split.
  - unfold keys. rewrite length_firstn. apply Nat.le_min_l.
  - change (map JObj (first :: others)) with (JObj first :: map JObj others).
    unfold formatGenericTable_lines.
    change (generic_columns (JObj first)) with (Done keys).
    cbn [rbind].
    change (JObj first :: map JObj others) with (map JObj (first :: others)).
    rewrite (generic_rows_objects keys (first :: others) Hp Hinh). reflexivity.
Qed.

End GenericTable.

Lemma generic_table_of_objects_witness :
  (List.length ["id"; "name"] <= 5)%nat
  /\ formatGenericTable_lines object_inherited
       (map JObj [ [("id", JNum 1); ("name", JStr "News")]; [("id", JNum 2)] ])
     = Done [ "| id | name |"; "|---|---|"; "| 1 | News |"; "| 2 | - |" ].
Proof.
  apply (generic_table_of_objects object_inherited
           [("id", JNum 1); ("name", JStr "News")] [ [("id", JNum 2)] ]).
  - intros fields [<- | [<- | []]]; reflexivity.
  - intros fields k [<- | [<- | []]] [<- | [<- | []]] H;
      solve [reflexivity | discriminate H].
Defined.

Lemma js_or_length (l : list JsVal) :
  js_or (js_get_opt (JArr l) "length") (JNum 0) = JNum (Zlength_of l).
Proof.
  unfold js_or, js_get_opt. cbn.
  destruct l as [| x r]; [reflexivity |].
  unfold Zlength_of. cbn [List.length].
  destruct (Z.of_nat (S (List.length r))) eqn:E; try reflexivity; lia.
Qed.

(** X17. The markdown of an offset-paginated list never shows a total
    and never tells the reader that more is available: for a page that
    the client builds from an upstream array with [limit] and [offset],
    whatever its [hasMore], the rendering is the title, an empty line,
    the count of the items shown, an empty line, and then the table of the
    items, or the note that there are none. *)
Theorem offset_pages_never_announce_more
        (JSON_pretty : JsVal -> string) (toISOString : JsVal -> option string)
        (inherited_text : JsVal -> string -> option string)
        (upstream_items : list JsVal) (hasMore : JsVal) (entityType : string) :
  formatAsMarkdown JSON_pretty toISOString inherited_text
                   (page_of (JArr upstream_items) hasMore) entityType
  = rbind (match upstream_items with
           | [] => Done "_No items found._"
           | _ => entity_table toISOString inherited_text entityType upstream_items
           end)
          (fun table =>
             Done (join_lines [ "## " ++ capitalize entityType; "";
                                "**Showing:** " ++ string_of_Z (Zlength_of upstream_items);
                                ""; table ])).
Proof.
  unfold formatAsMarkdown, page_of.
  change (js_or (JArr upstream_items) (JArr [])) with (JArr upstream_items).
  rewrite js_or_length.
  cbn [isPaginatedResponse assoc String.eqb Ascii.eqb Bool.eqb isArray].
  unfold formatPaginatedAsMarkdown, formatPaginatedAsMarkdown_lines, page_header_lines.
  cbn [prop assoc String.eqb Ascii.eqb Bool.eqb elements truthy andb app tpl
       js_to_string engine rbind].
  rewrite Bool.andb_false_r. cbn [app rbind].
  destruct upstream_items as [| x r]; [reflexivity |].
  destruct (entity_table toISOString inherited_text entityType (x :: r)); reflexivity.
Qed.


(* ================================================================== *)
(** * Properties of the tool handlers *)
(* ================================================================== *)

(** ** What the mail tools post *)

Lemma assoc_absent_key (k : string) (fs : list (string * JsVal)) :
  existsb (String.eqb k) (map fst fs) = false -> assoc k fs = None.
Proof.
  induction fs as [| [k' v] r IH]; [reflexivity |].
  cbn [map fst existsb assoc]. intro H.
  apply Bool.orb_false_iff in H. destruct H as [He Hr].
  rewrite He. exact (IH Hr).
Qed.

(** What [JSON.stringify] writes under a key of an object without
    repeated keys. *)
Lemma json_fields_lookup (k : string) (fs : list (string * JsVal)) :
  distinct_keys (map fst fs) = true ->
  assoc k (own_fields (json_value (JObj fs)))
  = match assoc k fs with
    | Some x => if defined x then Some (json_value x) else None
    | None => None
    end.
Proof.
  induction fs as [| [k' v] r IH]; [reflexivity |].
  cbn [map fst distinct_keys]. intro H.
  apply Bool.andb_true_iff in H. destruct H as [Hfresh Hr].
  apply Bool.negb_true_iff in Hfresh.
  rewrite json_fields_cons. cbn [assoc].
  destruct (String.eqb k k') eqn:He.
  - apply String.eqb_eq in He. subst k'.
    destruct (defined v).
    + cbn [assoc]. rewrite String.eqb_refl. reflexivity.
    + apply json_fields_absent. apply assoc_absent_key. exact Hfresh.
  - destruct (defined v); [cbn [assoc]; rewrite He |]; exact (IH Hr).
Qed.

Lemma json_value_email_objects (l : list string) :
  json_value (JArr (map email_object l)) = JArr (map email_object l).
Proof.
  cbn [json_value]. f_equal.
  induction l as [| s r IH]; [reflexivity |].
  cbn [map]. rewrite IH. reflexivity.
Qed.

Lemma json_value_mail_content (text html : option string) :
  json_value (JArr (mail_content text html)) = JArr (mail_content text html).
Proof.
  unfold mail_content.
  destruct (given_str text); destruct (given_str html); reflexivity.
Qed.

Lemma JSON_stringify_object (fs : list (string * JsVal)) :
  JSON_stringify (JObj fs) = Some (JObj (own_fields (json_value (JObj fs)))).
Proof. reflexivity. Qed.

Lemma sendEmail_requests (creds : TenantCredentials) (key : string) (input : JsVal)
      (up : Upstream) :
  apiKey creds = Some key -> key <> "" ->
  requests_of (sendEmail creds input up)
  = [issued key "/mail/send" (with_body "POST" (JSON_stringify input))].
Proof.
  intros Hk Hne. unfold sendEmail.
  rewrite requests_bind by (intros ?; apply silent_ret).
  rewrite (request_with_key creds key _ _ up Hk Hne). reflexivity.
Qed.

Lemma caught_silent (em : Exn -> string) (det : Exn -> JsVal) (x : Exn) :
  silent (caught em det x).
Proof. intros up. reflexivity. Qed.

(** X18. [sendgrid_send_email] posts one message with one
    personalization: for a client with a key the tool issues exactly one
    request, a POST to [/mail/send]; its body has a single
    personalization whose [to] lists the recipients in the order given,
    each as an object with an [email], and whose [cc] and [bcc] are
    present exactly when given; the [from] object holds the sender's
    address, and its [name] only when one was given; and [content] holds
    the non-empty [text] and [html] parts in that order, and is left out
    when there is neither. *)
Theorem send_email_payload
        (creds : TenantCredentials) (em : Exn -> string) (det : Exn -> JsVal)
        (key : string) (to : list string) (from : string)
        (fromName subject text html templateId : option string)
        (dynamicTemplateData : option JsVal) (cc bcc : option (list string))
        (replyTo : option string) (categories : option (list string))
        (sendAt : option Z) (attachments : option (list JsVal)) (up : Upstream) :
  apiKey creds = Some key -> key <> "" ->
  exists payload personalization,
    requests_of (sendgrid_send_email creds em det to from fromName subject text html
                                     templateId dynamicTemplateData cc bcc replyTo
                                     categories sendAt attachments up)
    = [issued key "/mail/send" (with_body "POST" (Some (JObj payload)))]
    /\ assoc "personalizations" payload = Some (JArr [JObj personalization])
    /\ assoc "to" personalization = Some (JArr (map email_object to))
    /\ assoc "cc" personalization
       = option_map (fun l => JArr (map email_object l)) cc
    /\ assoc "bcc" personalization
       = option_map (fun l => JArr (map email_object l)) bcc
    /\ assoc "from" payload
       = Some (JObj (("email", JStr from)
                     :: match fromName with
                        | Some name => [("name", JStr name)]
                        | None => []
                        end))
    /\ assoc "content" payload
       = match mail_content text html with
         | [] => None
         | content => Some (JArr content)
         end.
Proof.
  intros Hk Hne.
  exists (own_fields
            (json_value (send_email_input to from fromName subject text html templateId
                                          dynamicTemplateData cc bcc replyTo categories
                                          sendAt attachments))).
  exists (own_fields (json_value (single_personalization to cc bcc dynamicTemplateData))).
  split.
  { unfold sendgrid_send_email.
    rewrite requests_try_catch by (intros ?; apply caught_silent).
    rewrite requests_bind by (intros ?; apply silent_ret).
    rewrite (sendEmail_requests creds key _ up Hk Hne).
    unfold send_email_input. rewrite JSON_stringify_object. reflexivity. }
  assert (Hpers : forall k,
             assoc k (own_fields
                        (json_value (single_personalization to cc bcc dynamicTemplateData)))
             = match assoc k (own_fields
                                (single_personalization to cc bcc dynamicTemplateData)) with
               | Some x => if defined x then Some (json_value x) else None
               | None => None
               end).
  { intro k. unfold single_personalization. cbn [own_fields].
    apply json_fields_lookup.
    destruct cc; destruct bcc;
      destruct (truthy (opt_val dynamicTemplateData)); reflexivity. }
  unfold send_email_input.
  rewrite !json_fields_lookup by reflexivity.
  cbn [assoc String.eqb Ascii.eqb Bool.eqb].
  rewrite !Hpers.
  split; [reflexivity |].
  split.
  { unfold single_personalization.
    destruct cc; destruct bcc; destruct (truthy (opt_val dynamicTemplateData));
      cbn [own_fields assign_if assoc_set assoc String.eqb Ascii.eqb Bool.eqb defined];
      rewrite json_value_email_objects; reflexivity. }
  split.
  { unfold single_personalization.
    destruct cc; destruct bcc; destruct (truthy (opt_val dynamicTemplateData));
      cbn [own_fields assign_if assoc_set assoc String.eqb Ascii.eqb Bool.eqb defined
           option_map];
      rewrite ?json_value_email_objects; reflexivity. }
  split.
  { unfold single_personalization.
    destruct cc; destruct bcc; destruct (truthy (opt_val dynamicTemplateData));
      cbn [own_fields assign_if assoc_set assoc String.eqb Ascii.eqb Bool.eqb defined
           option_map];
      rewrite ?json_value_email_objects; reflexivity. }
  split.
  { destruct fromName; reflexivity. }
  unfold content_or_undefined.
  destruct (mail_content text html) as [| c r] eqn:Hc; [reflexivity |].
  cbn [defined]. rewrite <- Hc, json_value_mail_content. reflexivity.
Qed.

Lemma send_email_payload_witness :
  exists payload personalization,
    requests_of (sendgrid_send_email demo_credentials no_engine_message no_details
                   ["a@example.com"; "b@example.com"] "news@example.com"
                   None (Some "Hello") (Some "Hi there") None None None
                   (Some ["c@example.com"]) None None None None None
                   (answering accepted_response))
    = [issued "SG.demo-key" "/mail/send" (with_body "POST" (Some (JObj payload)))]
    /\ assoc "personalizations" payload = Some (JArr [JObj personalization])
    /\ assoc "to" personalization
       = Some (JArr (map email_object ["a@example.com"; "b@example.com"]))
    /\ assoc "cc" personalization
       = option_map (fun l => JArr (map email_object l)) (Some ["c@example.com"])
    /\ assoc "bcc" personalization
       = option_map (fun l => JArr (map email_object l)) None
    /\ assoc "from" payload
       = Some (JObj (("email", JStr "news@example.com")
                     :: match @None string with
                        | Some name => [("name", JStr name)]
                        | None => []
                        end))
    /\ assoc "content" payload
       = match mail_content (Some "Hi there") None with
         | [] => None
         | content => Some (JArr content)
         end.
Proof.
  apply (send_email_payload demo_credentials no_engine_message no_details "SG.demo-key").
  - reflexivity.
  - discriminate.
Defined.

Lemma batch_personalizations_written (ps : list BatchPersonalization) :
  json_value (JArr (map batch_personalization ps))
  = JArr (map (fun p => json_value (batch_personalization p)) ps).
Proof.
  cbn [json_value]. f_equal.
  induction ps as [| p r IH]; [reflexivity |].
  cbn [map]. rewrite IH. reflexivity.
Qed.

(** X19. [sendgrid_send_batch_email] posts one message with one
    personalization for each one given, in the same order: for a client
    with a key the tool issues exactly one request, a POST to
    [/mail/send], whose [personalizations] array is as long as the list
    given, and whose entry at each position lists the [to] addresses of
    the personalization given at that position. *)
Theorem send_batch_email_payload
        (creds : TenantCredentials) (em : Exn -> string) (det : Exn -> JsVal)
        (key : string) (from : string)
        (fromName subject text html templateId : option string)
        (personalizations : list BatchPersonalization)
        (categories : option (list string)) (sendAt : option Z) (up : Upstream) :
  apiKey creds = Some key -> key <> "" ->
  exists payload entries,
    requests_of (sendgrid_send_batch_email creds em det from fromName subject text html
                                           templateId personalizations categories sendAt up)
    = [issued key "/mail/send" (with_body "POST" (Some (JObj payload)))]
    /\ assoc "personalizations" payload = Some (JArr entries)
    /\ List.length entries = List.length personalizations
    /\ forall i p,
        nth_error personalizations i = Some p ->
        exists entry,
          nth_error entries i = Some (JObj entry)
          /\ assoc "to" entry = Some (JArr (map email_object (p_to p))).
Proof.
  intros Hk Hne.
  exists (own_fields
            (json_value (send_batch_email_input from fromName subject text html templateId
                                                personalizations categories sendAt))).
  exists (map (fun p => json_value (batch_personalization p)) personalizations).
  split.
  { unfold sendgrid_send_batch_email.
    rewrite requests_try_catch by (intros ?; apply caught_silent).
    rewrite requests_bind by (intros ?; apply silent_ret).
    rewrite (sendEmail_requests creds key _ up Hk Hne).
    unfold send_batch_email_input. rewrite JSON_stringify_object. reflexivity. }
  split.
  { unfold send_batch_email_input.
    rewrite (json_fields_defined "personalizations"
               (JArr (map batch_personalization personalizations)))
      by reflexivity.
    rewrite batch_personalizations_written. reflexivity. }
  split; [apply length_map |].
  intros i p Hp.
  exists (own_fields (json_value (batch_personalization p))).
  split.
  - rewrite (map_nth_error _ _ _ Hp). reflexivity.
  - unfold batch_personalization.
    rewrite (json_fields_defined "to" (JArr (map email_object (p_to p)))) by reflexivity.
    rewrite json_value_email_objects. reflexivity.
Qed.

Lemma send_batch_email_payload_witness :
  exists payload entries,
    requests_of (sendgrid_send_batch_email demo_credentials no_engine_message no_details
                   "news@example.com" None (Some "Hello") (Some "Hi there") None None
                   [one_personalization; one_personalization] None None
                   (answering accepted_response))
    = [issued "SG.demo-key" "/mail/send" (with_body "POST" (Some (JObj payload)))]
    /\ assoc "personalizations" payload = Some (JArr entries)
    /\ List.length entries = List.length [one_personalization; one_personalization]
    /\ forall i p,
        nth_error [one_personalization; one_personalization] i = Some p ->
        exists entry,
          nth_error entries i = Some (JObj entry)
          /\ assoc "to" entry = Some (JArr (map email_object (p_to p))).
Proof.
  apply (send_batch_email_payload demo_credentials no_engine_message no_details
                                  "SG.demo-key").
  - reflexivity.
  - discriminate.
Defined.

(** ** Failures stay inside the handlers *)

Lemma frugal_request (creds : TenantCredentials) (ep : string) (opts : RequestInit) :
  frugal (request creds ep opts).
Proof.
  intros up.
  destruct (request_outcome_cases creds ep opts up)
    as [[H _] | [[req [H _]] | [req [response [H _]]]]]; rewrite H; cbn; lia.
Qed.

Lemma frugal_silent {A} (m : Async A) : silent m -> frugal m.
Proof. intros H up. rewrite (H up). cbn. lia. Qed.

Lemma frugal_bind {A B} (m : Async A) (k : A -> Async B) :
  frugal m -> (forall a, silent (k a)) -> frugal (bind m k).
Proof. intros Hm Hk up. rewrite (requests_bind m k up Hk). apply Hm. Qed.

Lemma frugal_try_catch {A} (m : Async A) (h : Exn -> Async A) :
  frugal m -> (forall x, silent (h x)) -> frugal (try_catch m h).
Proof. intros Hm Hh up. rewrite (requests_try_catch m h up Hh). apply Hm. Qed.

Lemma frugal_void (m : Async JsVal) : frugal m -> frugal (void m).
Proof. intro H. unfold void. apply frugal_bind; [exact H | intros ?; apply silent_ret]. Qed.

Lemma frugal_perform (creds : TenantCredentials) (em : Exn -> string) (op : Operation) :
  frugal (perform creds em op).
Proof.
  intros up. destruct (operation_requests creds em op) as [ep [opts [H _]]].
  rewrite H. apply frugal_request.
Qed.

Lemma frugal_as_output (handler : Async ToolResponse) :
  frugal handler -> frugal (as_output handler).
Proof.
  intro H. unfold as_output. apply frugal_bind; [exact H | intros ?; apply silent_ret].
Qed.

Lemma as_output_returns (handler : Async ToolResponse) (up : Upstream) :
  (exists r, outcome_of (handler up) = Return r) ->
  exists out, outcome_of (as_output handler up) = Return out.
Proof.
  intros [r Hr]. unfold as_output, bind, outcome_of in *.
  destruct (handler up) as [t o]. cbn [snd] in Hr. subst o.
  cbn. eexists. reflexivity.
Qed.

Section Containment.

Variable creds : TenantCredentials.
Variable em : Exn -> string.
Variable det : Exn -> JsVal.
Variable JSON_pretty : JsVal -> string.
Variable toISOString : JsVal -> option string.
Variable inherited_text : JsVal -> string -> option string.
Variable range_error_message : string.
Variable range_error_details : JsVal.

Lemma frugal_responding (call : Async JsVal) (format entityType : string) :
  frugal call ->
  frugal (responding em det JSON_pretty toISOString inherited_text range_error_message
                     range_error_details call format entityType).
Proof.
  intros H up. specialize (H up). unfold responding, requests_of in *.
  destruct (call up) as [t o]. exact H.
Qed.

Lemma responding_returns (call : Async JsVal) (format entityType : string)
      (up : Upstream) :
  exists out,
    outcome_of (responding em det JSON_pretty toISOString inherited_text range_error_message
                           range_error_details call format entityType up)
    = Return out.
Proof.
  unfold responding, outcome_of. destruct (call up) as [t o]. cbn [snd].
  eexists. reflexivity.
Qed.

Lemma caught_returns (x : Exn) (up : Upstream) :
  exists r, outcome_of (caught em det x up) = Return r.
Proof. eexists. reflexivity. Qed.

Ltac hush :=
  cbv beta;
  repeat first
    [ apply silent_ret
    | apply silent_lift
    | apply silent_bind; [| intros ?; cbv beta ]
    | match goal with
      | |- silent (if ?b then _ else _) => destruct b
      end ].

Ltac frugality :=
  repeat first
    [ apply frugal_request
    | apply frugal_perform
    | apply frugal_as_output
    | apply frugal_responding
    | apply frugal_void
    | apply frugal_try_catch; [| intros ?; intros ?; reflexivity ]
    | apply frugal_bind; [| intros ?; solve [hush] ]
    | apply frugal_silent; solve [hush]
    | progress cbv zeta
    | match goal with
      | |- frugal (if ?b then _ else _) => destruct b
      | |- frugal (match ?o with Some _ => _ | None => _ end) => destruct o
      | |- frugal ?m => let h := head_of m in unfold h
      end ].

(** X20. Failures stay inside the tool handlers: whatever its
    arguments, the credentials and the upstream (a failed fetch, any
    status, any body, a rendering that raises), every tool handler
    modelled here returns a response and raises nothing, and it issues at
    most one upstream request. *)
Theorem tool_handlers_contain_failures (call : ToolCall) (up : Upstream) :
  (exists out,
      outcome_of (handle creds em det JSON_pretty toISOString inherited_text range_error_message
                         range_error_details call up) = Return out)
  /\ (List.length
        (requests_of (handle creds em det JSON_pretty toISOString inherited_text range_error_message
                             range_error_details call up)) <= 1)%nat.
Proof.
  split.
  - destruct call; cbn [handle];
      try apply responding_returns;
      try (apply as_output_returns;
           try (destruct tool; cbn [run_bulk_delete]);
           apply try_catch_total; intros x; eexists; reflexivity).
    apply try_catch_total. intros x. eexists. reflexivity.
  - revert up. change (frugal (handle creds em det JSON_pretty toISOString inherited_text
                                      range_error_message range_error_details call)).
    destruct call; cbn [handle]; try (destruct tool; cbn [run_bulk_delete]); frugality.
Qed.

(** X21. Without an API key (absent or empty) no tool contacts
    SendGrid, and every tool reports an error ([isError: true]), except
    the contact lookup by email, the batch-id validation and the
    connection test, which report a normal result. *)
Theorem missing_key_tool_results (call : ToolCall) (up : Upstream) :
  apiKey creds = None \/ apiKey creds = Some "" ->
  exists out,
    handle creds em det JSON_pretty toISOString inherited_text range_error_message
           range_error_details call up = ([], Return out)
    /\ output_is_error out = if masks_failures call then None else Some true.
Proof.
  intro Hk.
  destruct call; cbn [handle masks_failures];
    try (destruct tool; cbn [run_bulk_delete]).
  all: repeat match goal with
              | |- context [?f creds] =>
                  lazymatch f with
                  | request => fail
                  | _ => unfold f
                  end
              | |- context [?f _ _ _ _ _ _ ?c] =>
                  lazymatch f with
                  | responding => unfold f
                  end
              end.
  all: cbv zeta.
  all: repeat match goal with
              | |- context [if ?b then _ else _] => destruct b
              | |- context [match ?o with Some _ => _ | None => _ end] =>
                  is_var o; destruct o
              end.
  all: unfold as_output, void, bind, try_catch, caught.
  all: rewrite ?(request_without_key creds _ _ up Hk).
  all: cbv beta iota.
  all: eexists; split; reflexivity.
Qed.

End Containment.

Lemma missing_key_tool_results_witness :
  exists out,
    handle no_credentials no_engine_message no_details no_pretty no_date object_inherited "" JNull
           (CallListContacts None "markdown") (answering accepted_response)
    = ([], Return out)
    /\ output_is_error out
       = if masks_failures (CallListContacts None "markdown") then None else Some true.
Proof.
  apply (missing_key_tool_results no_credentials no_engine_message no_details no_pretty
                                  no_date object_inherited "" JNull).
  left. reflexivity.
Defined.

(** X22. The lookup tools report a failed call as a normal result:
    whenever the upstream call of the tool fails, for whatever reason (a
    missing key, a rejected key, a rate limit, a server error, a failed
    fetch), [sendgrid_get_contact_by_email] answers that no contact was
    found, [sendgrid_validate_batch_id] answers [success: true] with
    [valid: false], and [sendgrid_test_connection] answers
    [connected: false] with the message of the failure; none of the three
    sets [isError]. *)
Theorem lookup_tools_mask_failures
        (creds : TenantCredentials) (em : Exn -> string) (det : Exn -> JsVal)
        (email batchId : string) (x : Exn) (up : Upstream) :
  (outcome_of (request creds "/marketing/contacts/search/emails"
                 (with_body "POST"
                    (JSON_stringify (JObj [("emails", JArr [JStr email])]))) up)
   = Throw x ->
   outcome_of (sendgrid_get_contact_by_email creds em det email up)
   = Return (json_response
               (JObj [("found", JBool false);
                      ("message", JStr ("No contact found with email " ++ email))])))
  /\ (outcome_of (request creds ("/mail/batch/" ++ batchId) no_options up) = Throw x ->
      outcome_of (sendgrid_validate_batch_id creds em det batchId up)
      = Return (json_response
                  (JObj [("success", JBool true); ("batchId", JStr batchId);
                         ("valid", JBool false)])))
  /\ (outcome_of (request creds "/user/profile" no_options up) = Throw x ->
      outcome_of (sendgrid_test_connection creds em up)
      = Return (JsonEnvelope
                  (json_response
                     (JObj [("connected", JBool false);
                            ("message", JStr (exn_message em x))])))).
Proof.
  repeat split; intro H.
  - unfold sendgrid_get_contact_by_email, getContactByEmail, try_catch, bind, outcome_of
      in *.
    destruct (request creds _ _ up) as [t o]. cbn [snd] in H. subst o. reflexivity.
  - unfold sendgrid_validate_batch_id, validateBatchId, try_catch, bind, outcome_of in *.
    destruct (request creds _ _ up) as [t o]. cbn [snd] in H. subst o. reflexivity.
  - unfold sendgrid_test_connection, testConnection, try_catch, bind, outcome_of in *.
    destruct (request creds _ _ up) as [t o]. cbn [snd] in H. subst o. reflexivity.
Qed.

Lemma lookup_tools_mask_failures_witness :
  outcome_of (sendgrid_get_contact_by_email demo_credentials no_engine_message no_details
                "a@example.com" (answering unauthorized_response))
  = Return (json_response
              (JObj [("found", JBool false);
                     ("message", JStr "No contact found with email a@example.com")])).
Proof.
  exact (proj1 (lookup_tools_mask_failures
                  demo_credentials no_engine_message no_details "a@example.com" "b-1"
                  (Classified (AuthenticationError
                                 "Authentication failed. Check your API key."))
                  (answering unauthorized_response))
           eq_refl).
Defined.
